(** * Paperscraper MCP server: a model of [paperscraper/mcp_server.py]

    The tool catalogue ([handle_list_tools]), the dispatcher
    ([handle_call_tool]) and the eight handler adapters are embedded as
    Rocq functions.  Handlers run in a state-and-exception monad over a
    [world] that holds the file system seen through [tempfile] and
    [os.path], a record of the temporary resources [tempfile] handed
    out, the trace of collaborator invocations and the state of the
    outside world the collaborators talk to. *)

From Stdlib Require Import ZArith NArith Ascii String List Lia.
From stdpp Require Import base option list gmap fin_maps strings pretty sorting.

(** ** Python values *)

Module Py.

(** JSON-shaped Python values, as they reach the handlers through the
    [arguments] mapping and through the records the collaborators
    produce.  A [float] is kept as its IEEE-754 binary64 bit pattern;
    a [dict] literal keeps its insertion order. *)
#[local] Unset Elimination Schemes.
Inductive value : Type :=
  | VNone
  | VBool (b : bool)
  | VInt (z : Z)
  | VFloat (bits : N)
  | VStr (s : string)
  | VList (l : list value)
  | VDict (d : list (string * value)).
#[local] Set Elimination Schemes.

(** [bool(v)]: the truth value Python gives to [if v:]. *)
Definition truthy (v : value) : bool :=
  match v with
  | VNone => false
  | VBool b => b
  | VInt z => negb (z =? 0)%Z
  | VFloat bits => negb (N.land bits (2 ^ 63 - 1) =? 0)%N
  | VStr s => negb (String.eqb s "")
  | VList l => match l with [] => false | _ => true end
  | VDict d => match d with [] => false | _ => true end
  end.

(** [type(v).__name__] *)
Definition type_name (v : value) : string :=
  match v with
  | VNone => "NoneType"
  | VBool _ => "bool"
  | VInt _ => "int"
  | VFloat _ => "float"
  | VStr _ => "str"
  | VList _ => "list"
  | VDict _ => "dict"
  end.

(** [v == s] for a string literal [s]. *)
Definition eq_str (v : value) (s : string) : bool :=
  match v with
  | VStr t => String.eqb t s
  | _ => false
  end.

(** Exceptions derived from [Exception], which are the ones an
    [except Exception] clause catches: the class name and [str(e)].
    [KeyboardInterrupt] and [SystemExit] are outside the model. *)
Record exn : Type := Exn { exn_class : string; exn_str : string }.

Definition KeyError (key : string) : exn :=
  Exn "KeyError" ("'" +:+ key +:+ "'").
Definition ValueError (msg : string) : exn := Exn "ValueError" msg.
Definition TypeError (msg : string) : exn := Exn "TypeError" msg.
Definition AttributeError (v : value) (attr : string) : exn :=
  Exn "AttributeError"
      ("'" +:+ type_name v +:+ "' object has no attribute '" +:+ attr +:+ "'").
Definition FileNotFoundError (path : string) : exn :=
  Exn "FileNotFoundError"
      ("[Errno 2] No such file or directory: '" +:+ path +:+ "'").
Definition IsADirectoryError (path : string) : exn :=
  Exn "IsADirectoryError" ("[Errno 21] Is a directory: '" +:+ path +:+ "'").
Definition FileExistsError (msg : string) : exn :=
  Exn "FileExistsError" ("[Errno 17] " +:+ msg).

(** The outcome of running a piece of Python code. *)
Inductive result (A : Type) : Type :=
  | Ok (a : A)
  | Raise (e : exn).
Arguments Ok {A} a.
Arguments Raise {A} e.

(** [", ".join(l)] *)
Fixpoint join (sep : string) (l : list string) : string :=
  match l with
  | [] => ""
  | [s] => s
  | s :: rest => s +:+ sep +:+ join sep rest
  end.

(** [s.replace(a, b)] for one-character [a] and [b]. *)
Fixpoint replace_char (a b : ascii) (s : string) : string :=
  match s with
  | EmptyString => EmptyString
  | String c rest =>
      String (if Ascii.eqb c a then b else c) (replace_char a b rest)
  end.

(** [f"{n:,}"] for a non-negative integer: decimal digits grouped in
    threes from the right. *)
Fixpoint group3 (rev_digits : list ascii) : list ascii :=
  match rev_digits with
  | a :: b :: c :: ((_ :: _) as rest) => a :: b :: c :: ","%char :: group3 rest
  | _ => rev_digits
  end.

Definition format_thousands (n : N) : string :=
  string_of_list_ascii (rev (group3 (rev (list_ascii_of_string (pretty n))))).

(** What the model takes from the Python runtime without spelling it
    out: [repr] of a [float] and of a [str], [str.upper] and the
    iteration of a [str] by code points. *)
Class Builtins : Type := {
  float_repr : N -> string;
  str_repr : string -> string;
  str_upper : string -> string;
  str_chars : string -> list string;
}.

Section WithBuiltins.
Context `{Builtins}.

(** [repr(v)] *)
Fixpoint py_repr (v : value) : string :=
  match v with
  | VNone => "None"
  | VBool true => "True"
  | VBool false => "False"
  | VInt z => pretty z
  | VFloat bits => float_repr bits
  | VStr s => str_repr s
  | VList l => "[" +:+ join ", " (map py_repr l) +:+ "]"
  | VDict d =>
      "{" +:+ join ", "
                (map (fun kv => str_repr (fst kv) +:+ ": " +:+ py_repr (snd kv)) d)
          +:+ "}"
  end.

(** [str(v)], which is what an f-string placeholder [{v}] renders. *)
Definition py_str (v : value) : string :=
  match v with
  | VStr s => s
  | _ => py_repr v
  end.

(** The sequence a [for x in v] loop walks through. *)
Definition py_iter (v : value) : result (list value) :=
  match v with
  | VList l => Ok l
  | VDict d => Ok (map (fun kv => VStr (fst kv)) d)
  | VStr s => Ok (map VStr (str_chars s))
  | _ => Raise (TypeError ("'" +:+ type_name v +:+ "' object is not iterable"))
  end.
End WithBuiltins.

End Py.

Import Py.

(** A line feed, the [\n] of the Python source. *)
Definition nl : string := String (ascii_of_nat 10) EmptyString.

(** [cat l] is the strings of [l] one after the other. *)
Definition cat (l : list string) : string := foldr String.append "" l.

(** [unlines l] is the text whose lines are the strings of [l]. *)
Definition unlines (l : list string) : string :=
  cat (map (fun line => line +:+ nl) l).

(** ** The world a handler runs in *)

(** What a path names: a regular file with its text, or a directory.
    The file system is keyed by paths as they are written. *)
Inductive node : Type :=
  | File (data : string)
  | Dir (st_size : N).

Inductive tmp_kind : Type := TmpFile | TmpDir.

(** What a collaborator did to the file it was asked to write. *)
Inductive file_effect : Type :=
  | Keep
  | Put (data : string)
  | Remove.

Definition apply_effect (path : string) (eff : file_effect)
    (fs : gmap string node) : gmap string node :=
  match eff with
  | Keep => fs
  | Put data => <[path := File data]> fs
  | Remove => delete path fs
  end.

(** One entry of the trace per collaborator invocation, with the actual
    arguments of the Python call. *)
Inductive call : Type :=
  | CallPubmed (query : value) (output_filepath : string) (max_results : value)
  | CallArxiv (query : value) (output_filepath : string) (max_results : value)
  | CallScholar (topic : value) (output_filepath : string)
  | CallQueryFn (server : string) (query : value) (output_filepath : string)
  | CallCitationsByDoi (doi : value)
  | CallCitationsFromTitle (title : value)
  | CallImpactor
  | CallImpactorSearch (journal_name : value) (search_args : gmap string value)
  | CallSavePdf (paper_data : gmap string value) (filepath : string)
  | CallGetDump (server : string) (dates : option (value * value)).

(** A collaborator that dumps its findings into a file: it reads the
    file system and the outside world, and answers with what it did to
    its output file, whether it raised, and the new outside world. *)
Definition dumper (env : Type) : Type :=
  gmap string node -> env -> file_effect * option exn * env.

(** A collaborator that returns a Python object. *)
Definition lookup_fn (env A : Type) : Type :=
  gmap string node -> env -> result A * env.

(** A collaborator that writes files of its own choosing: it answers
    with the file system it leaves behind, what it returned or raised,
    and the new outside world. *)
Definition writer (env A : Type) : Type :=
  gmap string node -> env -> gmap string node * result A * env.

(** The collaborators [mcp_server.py] imports, and the two services of
    the operating system behind [tempfile]. *)
Class Collaborators (env : Type) : Type := {
  get_and_dump_pubmed_papers : value -> string -> value -> dumper env;
  get_and_dump_arxiv_papers : value -> string -> value -> dumper env;
  get_and_dump_scholar_papers : value -> string -> dumper env;
  QUERY_FN_DICT : gmap string (value -> string -> dumper env);
  parse_jsonl : string -> result (list (gmap string value));
  get_citations_by_doi : value -> lookup_fn env value;
  get_citations_from_title : value -> lookup_fn env value;
  Impactor : lookup_fn env unit;
  Impactor_search :
    value -> gmap string value -> lookup_fn env (list (gmap string value));
  save_pdf :
    gmap string value -> string ->
    gmap string node -> env -> file_effect * result value * env;
  (** the refreshers of [paperscraper.get_dumps], which write a dump
      into the package's [server_dumps] *)
  biorxiv : option (value * value) -> writer env unit;
  medrxiv : option (value * value) -> writer env unit;
  chemrxiv : option (value * value) -> writer env unit;
  (** the next candidate name [tempfile] tries, for a given suffix *)
  candidate_name : string -> env -> string * env;
  (** [tempfile.TMP_MAX], the number of candidates [tempfile] tries:
      [os.TMP_MAX] where the platform has it, 10000 elsewhere *)
  TMP_MAX : nat;
}.

(** ** The monad: state passing with Python exceptions *)

Section Monad.
Context {S : Type}.

Definition M (A : Type) : Type := S -> result A * S.

Definition ret {A} (a : A) : M A := fun w => (Ok a, w).

Definition raise {A} (e : exn) : M A := fun w => (Raise e, w).

Definition bind {A B} (m : M A) (k : A -> M B) : M B := fun w =>
  match m w with
  | (Ok a, w') => k a w'
  | (Raise e, w') => (Raise e, w')
  end.

(** [try: body / except Exception as e: handler(e)] *)
Definition try_except {A} (body : M A) (handler : exn -> M A) : M A := fun w =>
  match body w with
  | (Ok a, w') => (Ok a, w')
  | (Raise e, w') => handler e w'
  end.

(** [try: body / finally: final]; an exception of [final] replaces
    the outcome of [body]. *)
Definition try_finally {A} (body : M A) (final : M unit) : M A := fun w =>
  match body w with
  | (r, w') =>
      match final w' with
      | (Ok _, w'') => (r, w'')
      | (Raise e, w'') => (Raise e, w'')
      end
  end.

Definition lift {A} (r : result A) : M A := fun w => (r, w).
End Monad.
Arguments M : clear implicits.

Notation "x <- c1 ;; c2" := (bind c1 (fun x => c2))
  (at level 100, c1 at next level, right associativity).
Notation "c1 ;; c2" := (bind c1 (fun _ => c2))
  (at level 100, right associativity).

(** [for x in l: acc = body(acc, x)], the loop variables threaded
    through the iterations. *)
Fixpoint foldM {S A B} (body : B -> A -> M S B) (l : list A) (acc : B) : M S B :=
  match l with
  | [] => ret acc
  | x :: rest => acc' <- body acc x ;; foldM body rest acc'
  end.

(** [enumerate(l)] *)
Definition enumerate {A} (l : list A) : list (nat * A) :=
  imap (fun i x => (i, x)) l.

(** [d[key]] and [d.get(key, default)] on a [dict] with string keys. *)
Definition getitem {S} (d : gmap string value) (key : string) : M S value :=
  match d !! key with
  | Some v => ret v
  | None => raise (KeyError key)
  end.

Definition dict_get (d : gmap string value) (key : string) (dflt : value) : value :=
  default dflt (d !! key).

(** ** Protocol types *)

Record TextContent : Type := mkTextContent { type : string; text : string }.

Record Tool : Type := mkTool {
  name : string;
  description : string;
  inputSchema : value;
}.

(** ** Paths *)

Definition ends_with (c : ascii) (s : string) : bool :=
  match last (list_ascii_of_string s) with
  | Some c' => Ascii.eqb c c'
  | None => false
  end.

(** [os.path.join(a, b)] of [posixpath], with [b] any Python value. *)
Definition os_path_join (a : string) (b : value) : result string :=
  match b with
  | VStr b =>
      Ok (if String.prefix "/" b then b
          else if String.eqb a "" || ends_with "/" a then a +:+ b
          else a +:+ "/" +:+ b)
  | _ =>
      Raise (TypeError
        ("join() argument must be str, bytes, or os.PathLike object, not '"
         +:+ type_name b +:+ "'"))
  end.

(** [s.split(sep)] for a separator of one character. *)
Fixpoint split_on (sep : ascii) (s : string) : list string :=
  match s with
  | EmptyString => [EmptyString]
  | String c rest =>
      if Ascii.eqb c sep then EmptyString :: split_on sep rest
      else
        match split_on sep rest with
        | first :: others => String c first :: others
        | [] => [String c EmptyString]
        end
  end.

(** One name of a path, on the names resolved so far, innermost
    first: an empty name and [.] stay where they are, [..] goes up
    one name; above the root there is nothing, and a relative path
    keeps the [..] it cannot resolve. *)
Definition resolve_step (absolute : bool) (names : list string) (name : string)
    : list string :=
  if String.eqb name "" || String.eqb name "." then names
  else if String.eqb name ".." then
    match names with
    | parent :: above =>
        if String.eqb parent ".." then name :: names else above
    | [] => if absolute then [] else [name]
    end
  else name :: names.

(** The file a path names, where no name on the way is a symbolic
    link: whether the path starts at the root, and the names from
    there, outermost first. *)
Definition resolve (path : string) : bool * list string :=
  let absolute := String.prefix "/" path in
  (absolute, rev (fold_left (resolve_step absolute) (split_on "/" path) [])).

(** The file [q] names is the directory [d] names, or lies below it. *)
Definition inside (d q : string) : bool :=
  Bool.eqb (fst (resolve d)) (fst (resolve q))
  && bool_decide (take (length (snd (resolve d))) (snd (resolve q))
                  = snd (resolve d)).

(** ** The server *)

Section Server.
Context {env : Type} `{Builtins} `{Collaborators env}.

Record world : Type := World {
  w_fs : gmap string node;
  (** every temporary resource [tempfile] has handed out, newest first *)
  w_created : list (tmp_kind * string);
  (** the collaborator invocations so far, oldest first *)
  w_log : list call;
  w_env : env;
}.

Definition set_fs (fs : gmap string node) (w : world) : world :=
  World fs (w_created w) (w_log w) (w_env w).
Definition set_env (e : env) (w : world) : world :=
  World (w_fs w) (w_created w) (w_log w) e.
Definition add_created (t : tmp_kind * string) (w : world) : world :=
  World (w_fs w) (t :: w_created w) (w_log w) (w_env w).
Definition add_call (c : call) (w : world) : world :=
  World (w_fs w) (w_created w) (w_log w ++ [c]) (w_env w).

(** *** Calling out *)

Definition call_dumper (c : call) (f : dumper env) (path : string)
    : M world unit := fun w =>
  match f (w_fs w) (w_env w) with
  | (eff, err, e) =>
      (match err with Some x => Raise x | None => Ok tt end,
       set_fs (apply_effect path eff (w_fs w)) (set_env e (add_call c w)))
  end.

Definition call_fn {A} (c : call) (f : lookup_fn env A) : M world A := fun w =>
  match f (w_fs w) (w_env w) with
  | (r, e) => (r, set_env e (add_call c w))
  end.

Definition call_writer {A} (c : call) (f : writer env A) : M world A := fun w =>
  match f (w_fs w) (w_env w) with
  | (fs, r, e) => (r, set_fs fs (set_env e (add_call c w)))
  end.

Definition call_save_pdf (paper_data : gmap string value) (filepath : string)
    : M world value := fun w =>
  match save_pdf paper_data filepath (w_fs w) (w_env w) with
  | (eff, r, e) =>
      (r, set_fs (apply_effect filepath eff (w_fs w))
            (set_env e (add_call (CallSavePdf paper_data filepath) w)))
  end.

(** [paperscraper.utils.load_jsonl]: open the file and parse its lines. *)
Definition load_jsonl (filepath : string) : M world (list (gmap string value)) :=
  fun w =>
    match w_fs w !! filepath with
    | Some (File data) => (parse_jsonl data, w)
    | Some (Dir _) => (Raise (IsADirectoryError filepath), w)
    | None => (Raise (FileNotFoundError filepath), w)
    end.

(** *** [os] and [tempfile] *)

Definition os_path_exists (path : string) : M world bool := fun w =>
  (Ok (bool_decide (is_Some (w_fs w !! path))), w).

Definition os_unlink (path : string) : M world unit := fun w =>
  match w_fs w !! path with
  | Some (File _) => (Ok tt, set_fs (delete path (w_fs w)) w)
  | Some (Dir _) => (Raise (IsADirectoryError path), w)
  | None => (Raise (FileNotFoundError path), w)
  end.

Definition os_path_getsize (path : string) : M world N := fun w =>
  match w_fs w !! path with
  | Some (File data) => (Ok (N.of_nat (String.length data)), w)
  | Some (Dir size) => (Ok size, w)
  | None => (Raise (FileNotFoundError path), w)
  end.

(** [shutil.rmtree(d)] as [TemporaryDirectory] runs it on exit: the
    directory goes, with every file that lies below it, however the
    path of the file was written. *)
Definition rmtree (d : string) : M world unit := fun w =>
  (Ok tt, set_fs (filter (fun kv => inside d (fst kv) = false) (w_fs w)) w).

Definition fresh_node (kind : tmp_kind) : node :=
  match kind with
  | TmpFile => File ""
  | TmpDir => Dir 4096
  end.

(** [tempfile]'s search for an unused name: up to [TMP_MAX] candidates
    are tried, and the first one that does not exist is created. *)
Fixpoint mktemp (kind : tmp_kind) (suffix : string) (tries : nat)
    : M world string :=
  match tries with
  | O =>
      raise (FileExistsError
               match kind with
               | TmpFile => "No usable temporary file name found"
               | TmpDir => "No usable temporary directory name found"
               end)
  | S tries' => fun w =>
      match candidate_name suffix (w_env w) with
      | (path, e) =>
          match w_fs w !! path with
          | Some _ => mktemp kind suffix tries' (set_env e w)
          | None =>
              (Ok path,
               add_created (kind, path)
                 (set_fs (<[path := fresh_node kind]> (w_fs w)) (set_env e w)))
          end
      end
  end.

(** [with tempfile.NamedTemporaryFile(mode='w+', suffix=..., delete=False)
    as f: temp_file = f.name] *)
Definition NamedTemporaryFile (suffix : string) : M world string :=
  mktemp TmpFile suffix TMP_MAX.

(** [with tempfile.TemporaryDirectory() as temp_dir: body] *)
Definition with_TemporaryDirectory {A} (body : string -> M world A) : M world A :=
  temp_dir <- mktemp TmpDir "" TMP_MAX ;;
  try_finally (body temp_dir) (rmtree temp_dir).

(** *** Handler adapters *)

Definition text_block (response : string) : list TextContent :=
  [mkTextContent "text" response].

(** The summary [search_pubmed] renders from the loaded records. *)
Definition pubmed_response (results : list (gmap string value)) : string :=
  let response :=
    "Found " +:+ pretty (length results) +:+ " papers in PubMed" +:+ nl +:+ nl in
  let response :=
    fold_left (fun response ip =>
      let i := fst ip in
      let paper := snd ip in
      let response := response +:+
        (pretty (i + 1) +:+ ". " +:+ py_str (dict_get paper "title" (VStr "No title")) +:+ nl) in
      let response := response +:+
        ("   Authors: " +:+ py_str (dict_get paper "authors" (VStr "Unknown")) +:+ nl) in
      let response := response +:+
        ("   Journal: " +:+ py_str (dict_get paper "journal" (VStr "Unknown")) +:+ nl) in
      let response := response +:+
        ("   Year: " +:+ py_str (dict_get paper "date" (VStr "Unknown")) +:+ nl) in
      let response :=
        if truthy (dict_get paper "doi" VNone)
        then response +:+ ("   DOI: " +:+ py_str (dict_get paper "doi" VNone) +:+ nl)
        else response in
      response +:+ nl)
      (enumerate (take 10 results)) response in
  if (10 <? length results)%nat
  then response +:+
         ("... and " +:+ pretty (length results - 10) +:+ " more results" +:+ nl)
  else response.

Definition search_pubmed (arguments : gmap string value)
    : M world (list TextContent) :=
  query <- getitem arguments "query" ;;
  let max_results := dict_get arguments "max_results" (VInt 100) in
  temp_file <- NamedTemporaryFile ".jsonl" ;;
  try_finally
    (call_dumper (CallPubmed query temp_file max_results)
       (get_and_dump_pubmed_papers query temp_file max_results) temp_file ;;
     results <- load_jsonl temp_file ;;
     ret (text_block (pubmed_response results)))
    (there <- os_path_exists temp_file ;;
     if there : bool then os_unlink temp_file else ret tt).

(** The summary [search_arxiv] renders. *)
Definition arxiv_response (results : list (gmap string value)) : string :=
  let response :=
    "Found " +:+ pretty (length results) +:+ " papers in arXiv" +:+ nl +:+ nl in
  let response :=
    fold_left (fun response ip =>
      let i := fst ip in
      let paper := snd ip in
      let response := response +:+
        (pretty (i + 1) +:+ ". " +:+ py_str (dict_get paper "title" (VStr "No title")) +:+ nl) in
      let response := response +:+
        ("   Authors: " +:+ py_str (dict_get paper "authors" (VStr "Unknown")) +:+ nl) in
      let response := response +:+
        ("   Published: " +:+ py_str (dict_get paper "date" (VStr "Unknown")) +:+ nl) in
      let response :=
        if truthy (dict_get paper "doi" VNone)
        then response +:+ ("   DOI: " +:+ py_str (dict_get paper "doi" VNone) +:+ nl)
        else response in
      let response :=
        if truthy (dict_get paper "url" VNone)
        then response +:+ ("   URL: " +:+ py_str (dict_get paper "url" VNone) +:+ nl)
        else response in
      response +:+ nl)
      (enumerate (take 10 results)) response in
  if (10 <? length results)%nat
  then response +:+
         ("... and " +:+ pretty (length results - 10) +:+ " more results" +:+ nl)
  else response.

Definition search_arxiv (arguments : gmap string value)
    : M world (list TextContent) :=
  query <- getitem arguments "query" ;;
  let max_results := dict_get arguments "max_results" (VInt 100) in
  temp_file <- NamedTemporaryFile ".jsonl" ;;
  try_finally
    (call_dumper (CallArxiv query temp_file max_results)
       (get_and_dump_arxiv_papers query temp_file max_results) temp_file ;;
     results <- load_jsonl temp_file ;;
     ret (text_block (arxiv_response results)))
    (there <- os_path_exists temp_file ;;
     if there : bool then os_unlink temp_file else ret tt).

(** The summary [search_scholar] renders. *)
Definition scholar_response (results : list (gmap string value)) : string :=
  let response :=
    "Found " +:+ pretty (length results) +:+ " papers in Google Scholar" +:+ nl +:+ nl in
  let response :=
    fold_left (fun response ip =>
      let i := fst ip in
      let paper := snd ip in
      let response := response +:+
        (pretty (i + 1) +:+ ". " +:+ py_str (dict_get paper "title" (VStr "No title")) +:+ nl) in
      let response := response +:+
        ("   Authors: " +:+ py_str (dict_get paper "authors" (VStr "Unknown")) +:+ nl) in
      let response := response +:+
        ("   Year: " +:+ py_str (dict_get paper "date" (VStr "Unknown")) +:+ nl) in
      let response :=
        if truthy (dict_get paper "citations" VNone)
        then response +:+
               ("   Citations: " +:+ py_str (dict_get paper "citations" VNone) +:+ nl)
        else response in
      response +:+ nl)
      (enumerate (take 10 results)) response in
  if (10 <? length results)%nat
  then response +:+
         ("... and " +:+ pretty (length results - 10) +:+ " more results" +:+ nl)
  else response.

Definition search_scholar (arguments : gmap string value)
    : M world (list TextContent) :=
  topic <- getitem arguments "topic" ;;
  let max_results := dict_get arguments "max_results" (VInt 50) in
  temp_file <- NamedTemporaryFile ".jsonl" ;;
  try_finally
    (call_dumper (CallScholar topic temp_file)
       (get_and_dump_scholar_papers topic temp_file) temp_file ;;
     results <- load_jsonl temp_file ;;
     ret (text_block (scholar_response results)))
    (there <- os_path_exists temp_file ;;
     if there : bool then os_unlink temp_file else ret tt).

(** [len(v)] *)
Definition py_len (v : value) : result nat :=
  match v with
  | VList l => Ok (length l)
  | VDict d => Ok (length d)
  | VStr s => Ok (length (str_chars s))
  | _ => Raise (TypeError ("object of type '" +:+ type_name v +:+ "' has no len()"))
  end.

(** [server in QUERY_FN_DICT], and the entry found: the key has to
    be hashable, and only a [str] can be among the keys. *)
Definition query_fn_of (server : value)
    : result (option (string * (value -> string -> dumper env))) :=
  match server with
  | VStr s => Ok (pair s <$> QUERY_FN_DICT !! s)
  | VList _ | VDict _ =>
      Raise (TypeError ("unhashable type: '" +:+ type_name server +:+ "'"))
  | _ => Ok None
  end.

(** The subsection [search_preprint_servers] appends for one server. *)
Definition preprint_section (server : string)
    (results : list (gmap string value)) (response : string) : string :=
  let response := response +:+
    (nl +:+ str_upper server +:+ ": Found " +:+ pretty (length results)
        +:+ " papers" +:+ nl) in
  fold_left (fun response ip =>
    let i := fst ip in
    let paper := snd ip in
    let response := response +:+
      ("  " +:+ pretty (i + 1) +:+ ". "
            +:+ py_str (dict_get paper "title" (VStr "No title")) +:+ nl) in
    let response := response +:+
      ("     Authors: " +:+ py_str (dict_get paper "authors" (VStr "Unknown")) +:+ nl) in
    let response := response +:+
      ("     Date: " +:+ py_str (dict_get paper "date" (VStr "Unknown")) +:+ nl) in
    let response :=
      if truthy (dict_get paper "doi" VNone)
      then response +:+ ("     DOI: " +:+ py_str (dict_get paper "doi" VNone) +:+ nl)
      else response in
    response +:+ nl)
    (enumerate (take 5 results)) response.

Definition default_servers : value :=
  VList [VStr "biorxiv"; VStr "medrxiv"; VStr "chemrxiv"].

(** One iteration of the loop over the requested servers; the loop
    variables are [all_results] and [response]. *)
Definition preprint_step (query : value)
    (acc : list (gmap string value) * string) (server : value)
    : M world (list (gmap string value) * string) :=
  let all_results := fst acc in
  let response := snd acc in
  entry <- lift (query_fn_of server) ;;
  match entry with
  | Some (server, query_fn) =>
      temp_file <- NamedTemporaryFile ".jsonl" ;;
      try_finally
        (call_dumper (CallQueryFn server query temp_file)
           (query_fn query temp_file) temp_file ;;
         results <- load_jsonl temp_file ;;
         let all_results := all_results ++ results in
         ret (all_results, preprint_section server results response))
        (there <- os_path_exists temp_file ;;
         if there : bool then os_unlink temp_file else ret tt)
  | None => ret (all_results, response)
  end.

Definition search_preprint_servers (arguments : gmap string value)
    : M world (list TextContent) :=
  query <- getitem arguments "query" ;;
  let servers := dict_get arguments "servers" default_servers in
  let all_results := [] in
  let response := "" in
  items <- lift (py_iter servers) ;;
  acc <- foldM (preprint_step query) items (all_results, response) ;;
  let all_results := fst acc in
  let response := snd acc in
  n_servers <- lift (py_len servers) ;;
  let total_response :=
    ("Total papers found across " +:+ pretty n_servers +:+ " servers: "
       +:+ pretty (length all_results) +:+ nl) +:+ response in
  ret (text_block total_response).

Definition get_citations (arguments : gmap string value)
    : M world (list TextContent) :=
  let title := dict_get arguments "title" VNone in
  let doi := dict_get arguments "doi" VNone in
  try_except
    (response <-
       (if truthy doi then
          citations <- call_fn (CallCitationsByDoi doi) (get_citations_by_doi doi) ;;
          ret ("Citations for DOI " +:+ py_str doi +:+ ": " +:+ py_str citations)
        else if truthy title then
          citations <-
            call_fn (CallCitationsFromTitle title) (get_citations_from_title title) ;;
          ret ("Citations for '" +:+ py_str title +:+ "': " +:+ py_str citations)
        else
          ret "Error: Either title or DOI must be provided") ;;
     ret (text_block response))
    (fun e => ret (text_block ("Error retrieving citations: " +:+ exn_str e))).

(** The keyword arguments [search_journal_impact] passes on. *)
Definition impact_search_args (threshold min_impact max_impact : value)
    : gmap string value :=
  let search_args : gmap string value :=
    <["min_impact" := min_impact]> (<["threshold" := threshold]> ∅) in
  if truthy max_impact
  then <["max_impact" := max_impact]> search_args
  else search_args.

Definition search_journal_impact (arguments : gmap string value)
    : M world (list TextContent) :=
  journal_name <- getitem arguments "journal_name" ;;
  let threshold := dict_get arguments "threshold" (VInt 85) in
  let min_impact := dict_get arguments "min_impact" (VInt 0) in
  let max_impact := dict_get arguments "max_impact" VNone in
  try_except
    (call_fn CallImpactor Impactor ;;
     let search_args := impact_search_args threshold min_impact max_impact in
     results <-
       call_fn (CallImpactorSearch journal_name search_args)
         (Impactor_search journal_name search_args) ;;
     response <-
       (match results with
        | [] => ret ("No journals found matching '" +:+ py_str journal_name +:+ "'")
        | _ =>
            let response :=
              "Found " +:+ pretty (length results) +:+ " journal(s) matching '"
                +:+ py_str journal_name +:+ "':" +:+ nl +:+ nl in
            foldM (fun response result =>
              journal <- getitem result "journal" ;;
              let response := response +:+ ("• " +:+ py_str journal +:+ nl) in
              factor <- getitem result "factor" ;;
              let response := response +:+
                ("  Impact Factor: " +:+ py_str factor +:+ nl) in
              score <- getitem result "score" ;;
              ret (response +:+
                     ("  Match Score: " +:+ py_str score +:+ "%" +:+ nl +:+ nl)))
              results response
        end) ;;
     ret (text_block response))
    (fun e => ret (text_block ("Error searching journal impact: " +:+ exn_str e))).

Definition download_paper_pdf (arguments : gmap string value)
    : M world (list TextContent) :=
  doi <- getitem arguments "doi" ;;
  default_filename <-
    (match doi with
     | VStr s => ret (replace_char "/" "_" s +:+ ".pdf")
     | _ => raise (AttributeError doi "replace")
     end) ;;
  let filename := dict_get arguments "filename" (VStr default_filename) in
  try_except
    (let paper_data : gmap string value := {[ "doi" := doi ]} in
     response <-
       with_TemporaryDirectory (fun temp_dir =>
         filepath <- lift (os_path_join temp_dir filename) ;;
         success <- call_save_pdf paper_data filepath ;;
         downloaded <-
           (if truthy success then os_path_exists filepath else ret false) ;;
         if downloaded : bool then
           file_size <- os_path_getsize filepath ;;
           let response :=
             "Successfully downloaded PDF for DOI: " +:+ py_str doi +:+ nl in
           let response := response +:+
             ("File size: " +:+ format_thousands file_size +:+ " bytes" +:+ nl) in
           let response := response +:+
             ("Saved to temporary location: " +:+ filepath) in
           ret response
         else
           ret ("Failed to download PDF for DOI: " +:+ py_str doi)) ;;
     ret (text_block response))
    (fun e => ret (text_block ("Error downloading PDF: " +:+ exn_str e))).

(** The refresh collaborator [update_preprint_dumps] runs for a
    server, if any. *)
Definition refresh (server start_date end_date : value) : M world unit :=
  let dates :=
    if truthy start_date || truthy end_date
    then Some (start_date, end_date)
    else None in
  if eq_str server "biorxiv" then
    call_writer (CallGetDump "biorxiv" dates) (biorxiv dates)
  else if eq_str server "medrxiv" then
    call_writer (CallGetDump "medrxiv" dates) (medrxiv dates)
  else if eq_str server "chemrxiv" then
    call_writer (CallGetDump "chemrxiv" dates) (chemrxiv dates)
  else ret tt.

(** One iteration of the loop of [update_preprint_dumps]. *)
Definition update_step (start_date end_date : value)
    (response : string) (server : value) : M world string :=
  let response := response +:+ ("Updating " +:+ py_str server +:+ "... ") in
  try_except
    (refresh server start_date end_date ;;
     ret (response +:+ ("✓ Complete" +:+ nl)))
    (fun e => ret (response +:+ ("✗ Error: " +:+ exn_str e +:+ nl))).

Definition update_preprint_dumps (arguments : gmap string value)
    : M world (list TextContent) :=
  let servers := dict_get arguments "servers" default_servers in
  let start_date := dict_get arguments "start_date" VNone in
  let end_date := dict_get arguments "end_date" VNone in
  let response := "Updating preprint server dumps..." +:+ nl +:+ nl in
  items <- lift (py_iter servers) ;;
  response <- foldM (update_step start_date end_date) items response ;;
  let response := response +:+
    (nl +:+ "Dump update process finished. Please restart to use updated dumps.") in
  ret (text_block response).

(** *** The dispatcher *)

(** The [try] suite of [handle_call_tool]. *)
Definition dispatch (name : string) (arguments : gmap string value)
    : M world (list TextContent) :=
  if String.eqb name "search_pubmed" then search_pubmed arguments
  else if String.eqb name "search_arxiv" then search_arxiv arguments
  else if String.eqb name "search_scholar" then search_scholar arguments
  else if String.eqb name "search_preprint_servers" then
    search_preprint_servers arguments
  else if String.eqb name "get_citations" then get_citations arguments
  else if String.eqb name "search_journal_impact" then
    search_journal_impact arguments
  else if String.eqb name "download_paper_pdf" then download_paper_pdf arguments
  else if String.eqb name "update_preprint_dumps" then
    update_preprint_dumps arguments
  else raise (ValueError ("Unknown tool: " +:+ name)).

(** [logger.error] writes nothing the model observes: logging is cut
    off at CRITICAL when the module loads. *)
Definition handle_call_tool (name : string) (arguments : gmap string value)
    : M world (list TextContent) :=
  try_except (dispatch name arguments)
    (fun e => ret (text_block ("Error: " +:+ exn_str e))).

End Server.

(** ** The tool catalogue *)

(** The schema of a [query] argument: a list of keyword groups. *)
Definition keyword_groups_schema (description : string) : value :=
  VDict [("type", VStr "array");
         ("description", VStr description);
         ("items", VDict [("type", VStr "array");
                          ("items", VDict [("type", VStr "string")])])].

Definition max_results_schema (dflt : Z) : value :=
  VDict [("type", VStr "integer");
         ("description", VStr "Maximum number of results to return");
         ("default", VInt dflt)].

Definition servers_schema (description : string) : value :=
  VDict [("type", VStr "array");
         ("description", VStr description);
         ("items", VDict [("type", VStr "string");
                          ("enum", VList [VStr "biorxiv"; VStr "medrxiv"; VStr "chemrxiv"])]);
         ("default", VList [VStr "biorxiv"; VStr "medrxiv"; VStr "chemrxiv"])].

Definition string_schema (description : string) : value :=
  VDict [("type", VStr "string"); ("description", VStr description)].

Definition object_schema (properties : list (string * value))
    (required : option (list string)) : value :=
  VDict ([("type", VStr "object"); ("properties", VDict properties)]
         ++ match required with
            | Some keys => [("required", VList (map VStr keys))]
            | None => []
            end).

Definition and_or_description : string :=
  "List of keyword groups for AND/OR search. Each group contains synonyms (OR), groups are combined with AND".

Definition handle_list_tools : list Tool :=
  [ mkTool "search_pubmed"
      "Search for papers in PubMed database using keyword queries"
      (object_schema
         [("query", keyword_groups_schema and_or_description);
          ("max_results", max_results_schema 100)]
         (Some ["query"]));
    mkTool "search_arxiv"
      "Search for papers in arXiv database using keyword queries"
      (object_schema
         [("query", keyword_groups_schema and_or_description);
          ("max_results", max_results_schema 100)]
         (Some ["query"]));
    mkTool "search_scholar"
      "Search for papers in Google Scholar using a topic query"
      (object_schema
         [("topic", string_schema "Topic to search for (like Google Scholar search)");
          ("max_results", max_results_schema 50)]
         (Some ["topic"]));
    mkTool "search_preprint_servers"
      "Search bioRxiv, medRxiv, and chemRxiv preprint servers"
      (object_schema
         [("query", keyword_groups_schema "List of keyword groups for AND/OR search");
          ("servers", servers_schema "Which preprint servers to search")]
         (Some ["query"]));
    mkTool "get_citations"
      "Get citation count for a paper by title or DOI"
      (object_schema
         [("title", string_schema "Paper title to search for citations");
          ("doi", string_schema "DOI of the paper")]
         (Some []));
    mkTool "search_journal_impact"
      "Search for journal impact factors"
      (object_schema
         [("journal_name", string_schema "Journal name to search for");
          ("threshold",
           VDict [("type", VStr "integer");
                  ("description", VStr "Fuzzy search threshold (100 = exact match)");
                  ("default", VInt 85)]);
          ("min_impact",
           VDict [("type", VStr "number");
                  ("description", VStr "Minimum impact factor");
                  ("default", VInt 0)]);
          ("max_impact",
           VDict [("type", VStr "number");
                  ("description", VStr "Maximum impact factor")])]
         (Some ["journal_name"]));
    mkTool "download_paper_pdf"
      "Download PDF of a paper using its DOI"
      (object_schema
         [("doi", string_schema "DOI of the paper to download");
          ("filename", string_schema "Optional filename for the PDF")]
         (Some ["doi"]));
    mkTool "update_preprint_dumps"
      "Update local dumps of preprint servers (biorxiv, medrxiv, chemrxiv)"
      (object_schema
         [("servers", servers_schema "Which servers to update");
          ("start_date", string_schema "Start date for selective update (YYYY-MM-DD)");
          ("end_date", string_schema "End date for selective update (YYYY-MM-DD)")]
         None) ].

(** The names the dispatcher knows. *)
Definition registered_names : list string :=
  ["search_pubmed"; "search_arxiv"; "search_scholar"; "search_preprint_servers";
   "get_citations"; "search_journal_impact"; "download_paper_pdf";
   "update_preprint_dumps"].


(** * The index of preprint dumps: a model of [paperscraper/load_dumps.py]

    The module builds [QUERY_FN_DICT] when it is imported.  What it
    sees of the outside is the environment variable that marks MCP
    mode, the dump files of the package ([glob] and [os.path.getsize])
    and what [XRXivQuery] makes of a dump. *)

Module LoadDumps.

(** [os.path.join(a, b)] of [posixpath] for two strings. *)
Definition posix_join (a b : string) : string :=
  if String.prefix "/" b then b
  else if String.eqb a "" || ends_with "/" a then a +:+ b
  else a +:+ "/" +:+ b.

(** [not os.environ.get(key)]: the variable is unset or empty. *)
Definition env_unset (environ : gmap string string) (key : string) : bool :=
  match environ !! key with
  | None => true
  | Some s => String.eqb s ""
  end.

Inductive level : Type := DEBUG | INFO | WARNING | ERROR | CRITICAL.

(** A message handed to [logging.getLogger(__name__)]. *)
Record log_record : Type := mkRecord { levelname : level; msg : string }.

(** The callable stored under a key of [QUERY_FN_DICT]: one of the two
    dumpers the module imports, or the [search_keywords] method of the
    querier made from a dump. *)
Inductive query_fn : Type :=
  | ArxivDumper
  | PubmedDumper
  | search_keywords (dump_path : string).

(** What the module uses of an [XRXivQuery] object. *)
Record querier : Type := mkQuerier { errored : bool; df_len : nat }.

Class DumpFiles : Type := {
  (** [pkg_resources.resource_filename("paperscraper", "server_dumps")] *)
  dump_root : string;
  (** [glob.glob(pattern)] *)
  glob : string -> list string;
  (** [os.path.getsize(path)] *)
  getsize : string -> N;
  (** [XRXivQuery(path)] *)
  XRXivQuery : string -> querier;
}.

(** [d.update({key: v})] on a [dict] kept in insertion order. *)
Fixpoint dict_update {A} (key : string) (v : A) (d : list (string * A))
    : list (string * A) :=
  match d with
  | [] => [(key, v)]
  | (k, x) :: rest =>
      if String.eqb k key then (k, v) :: rest
      else (k, x) :: dict_update key v rest
  end.

(** [sorted(l, reverse=True)] on strings. *)
Definition sorted_reverse (l : list string) : list string :=
  merge_sort (fun a b => String.le b a) l.

Section Loading.
Context `{DumpFiles}.
Context (environ : gmap string string).

(** The state of the module while it loads. *)
Record loading : Type := mkLoading {
  QUERY_FN_DICT : list (string * query_fn);
  (** the records [SmartLogger] passed on, oldest first *)
  records : list log_record;
}.

(** [SmartLogger._should_log] *)
Definition _should_log : bool := env_unset environ "PAPERSCRAPER_MCP_MODE".

(** [SmartLogger.warning] and [SmartLogger.info] *)
Definition log (lvl : level) (text : string) (st : loading) : loading :=
  if _should_log
  then mkLoading (QUERY_FN_DICT st) (records st ++ [mkRecord lvl text])
  else st.

(** [logging.basicConfig(stream=sys.stdout, level=logging.INFO)] is
    run exactly when [mcp_mode] is falsy. *)
Definition configures_stdout_logging : bool :=
  env_unset environ "PAPERSCRAPER_MCP_MODE".

(** One iteration of the loop over the three servers. *)
Definition load_db (st : loading) (db : string) : loading :=
  let dump_paths := glob (posix_join dump_root (db +:+ "*")) in
  match dump_paths with
  | [] => log WARNING (" No dump found for " +:+ db +:+ ". Skipping entry.") st
  | _ =>
      let st :=
        if (1 <? length dump_paths)%nat
        then log INFO (" Multiple dumps found for " +:+ db
                         +:+ ", taking most recent one") st
        else st in
      match sorted_reverse dump_paths with
      | path :: _ =>
          if (getsize path =? 0)%N
          then log WARNING ("Empty dump for " +:+ db +:+ ". Skipping entry.") st
          else
            let querier := XRXivQuery path in
            if negb (errored querier) then
              let st :=
                mkLoading (dict_update db (search_keywords path) (QUERY_FN_DICT st))
                          (records st) in
              log INFO ("Loaded " +:+ db +:+ " dump with "
                          +:+ pretty (df_len querier) +:+ " entries") st
            else st
      | [] => st  (* not reached: the sorted list has the length of [dump_paths] *)
      end
  end.

(** The module, from top to bottom. *)
Definition load_dumps : loading :=
  let st :=
    mkLoading [("arxiv", ArxivDumper); ("pubmed", PubmedDumper)] [] in
  let st := fold_left load_db ["biorxiv"; "chemrxiv"; "medrxiv"] st in
  if (length (QUERY_FN_DICT st) =? 2)%nat
  then log WARNING
         (" No dumps found for either biorxiv, medrxiv and chemrxiv."
            +:+ " Consider using paperscraper.get_dumps.* to fetch the dumps.") st
  else st.
End Loading.

End LoadDumps.


(** * Starting the server: [mcp_server_wrapper.py], [start_mcp.py],
      [paperscraper/mcp_clean.py] and the last lines of
      [paperscraper/mcp_server.py]

    The launchers rebind [sys.stdout] and [sys.stderr] around the
    import of [paperscraper.mcp_server] and around [main()].  The
    model follows the two names, the environment, the import of
    [paperscraper.load_dumps] and every line that is printed.  The
    configuration of [warnings] and [logging] is left out. *)

Module Launchers.

(** The objects the two names are bound to: the two streams of the
    interpreter, the [NullWriter()] of the wrapper and the
    [io.StringIO()] of [start_mcp.py]. *)
Inductive stream : Type := Stdout | Stderr | NullWriter | StringIO.

#[global] Instance stream_eq_dec : EqDecision stream.
Proof. solve_decision. Defined.

(** How [asyncio.run(main())] ends once the transport is open: it
    returns, or raises [KeyboardInterrupt], or raises an exception
    derived from [Exception]. *)
Inductive outcome : Type :=
  | Returned
  | KeyboardInterrupt
  | Failed (e : exn).

(** How the interpreter ends: with an exit status, or with an
    exception nobody caught, which it reports with a traceback. *)
Inductive status : Type :=
  | Exit (code : nat)
  | Traceback (e : exn).

(** What the interpreter and the imported modules do on their own. *)
Class Runtime : Type := {
  (** the lines that are printed, by [print] without [file], while
      [paperscraper/__init__.py] runs *)
  init_prints : list string;
  (** the same for the imports of [mcp_server.py], lines 54 to 82 *)
  server_prints : list string;
  (** the exception one of these imports raises, if any *)
  import_error : option exn;
  (** [server.run] behind [stdio_server()] *)
  serve : outcome;
}.

Section Launch.
Context `{LoadDumps.DumpFiles} `{Runtime}.

Record process : Type := mkProcess {
  sys_stdout : stream;
  sys_stderr : stream;
  environ : gmap string string;
  (** [sys.modules["paperscraper.load_dumps"]], once it is imported *)
  load_dumps_module : option LoadDumps.loading;
  (** what was written, to which object, oldest first *)
  written : list (stream * string);
  (** [sys.stdout] at the time [main] entered [stdio_server()] *)
  stdio : option stream;
}.

(** An interpreter that has just started. *)
Definition fresh (environ : gmap string string) : process :=
  mkProcess Stdout Stderr environ None [] None.

Definition set_stdout (s : stream) (p : process) : process :=
  mkProcess s (sys_stderr p) (environ p) (load_dumps_module p) (written p) (stdio p).

Definition set_stderr (s : stream) (p : process) : process :=
  mkProcess (sys_stdout p) s (environ p) (load_dumps_module p) (written p) (stdio p).

(** [os.environ[key] = v] *)
Definition setenv (key v : string) (p : process) : process :=
  mkProcess (sys_stdout p) (sys_stderr p) (<[key := v]> (environ p))
    (load_dumps_module p) (written p) (stdio p).

(** The builtin [print(text, file=file)]; without [file] the line goes
    to what [sys.stdout] is bound to. *)
Definition print (file : option stream) (text : string) (p : process) : process :=
  mkProcess (sys_stdout p) (sys_stderr p) (environ p) (load_dumps_module p)
    (written p ++ [(default (sys_stdout p) file, text +:+ nl)]) (stdio p).

(** [import paperscraper.load_dumps]: the module runs once, with the
    environment it finds. *)
Definition import_load_dumps (p : process) : process :=
  match load_dumps_module p with
  | Some _ => p
  | None =>
      mkProcess (sys_stdout p) (sys_stderr p) (environ p)
        (Some (LoadDumps.load_dumps (environ p))) (written p) (stdio p)
  end.

(** [paperscraper/__init__.py], which runs before any module of the
    package. *)
Definition package_init (p : process) : process :=
  let p :=
    if LoadDumps.env_unset (environ p) "PAPERSCRAPER_MCP_MODE"
    then import_load_dumps p
    else p in
  fold_left (fun p line => print None line p) init_prints p.

(** The globals of [paperscraper.mcp_server] that [main] reads. *)
Record mcp_server : Type := mkModule { original_stdout : stream }.

(** [from paperscraper.mcp_server import main] in a process that has
    not imported the package yet. *)
Definition import_mcp_server (p : process) : result mcp_server * process :=
  let p := package_init p in
  let p := setenv "PAPERSCRAPER_MCP_MODE" "1" p in
  let p := setenv "PYTHONWARNINGS" "ignore" p in
  let original_stdout := sys_stdout p in
  let p := set_stdout (sys_stderr p) p in
  let p := fold_left (fun p line => print None line p) server_prints p in
  match import_error with
  | Some e => (Raise e, p)
  | None => (Ok (mkModule original_stdout), import_load_dumps p)
  end.

(** [asyncio.run(main())] *)
Definition main (m : mcp_server) (p : process) : outcome * process :=
  let p := set_stdout (original_stdout m) p in
  let p :=
    mkProcess (sys_stdout p) (sys_stderr p) (environ p) (load_dumps_module p)
      (written p) (Some (sys_stdout p)) in
  (serve, p).

(** [mcp_server_wrapper.py] *)
Definition mcp_server_wrapper (p : process) : status * process :=
  let _original_stderr := sys_stderr p in
  let _original_stdout := sys_stdout p in
  let p := set_stdout NullWriter p in
  let p := set_stderr (sys_stderr p) p in
  let p := setenv "PAPERSCRAPER_MCP_MODE" "1" p in
  let p := setenv "PYTHONWARNINGS" "ignore" p in
  let report e p :=
    let p := set_stderr _original_stderr p in
    (Exit 1, print (Some (sys_stderr p)) ("Fatal error: " +:+ exn_str e) p) in
  match import_mcp_server p with
  | (Raise e, p) => report e p
  | (Ok m, p) =>
      let p := set_stderr _original_stderr p in
      let p := set_stdout _original_stdout p in
      match main m p with
      | (Returned, p) => (Exit 0, p)
      | (KeyboardInterrupt, p) => (Exit 0, p)
      | (Failed e, p) => report e p
      end
  end.

(** [start_mcp.py] *)
Definition start_mcp (p : process) : status * process :=
  let p := setenv "PAPERSCRAPER_MCP_MODE" "1" p in
  let p := setenv "PYTHONWARNINGS" "ignore::DeprecationWarning" p in
  let _real_stderr := sys_stderr p in
  let p := set_stderr StringIO p in
  let '(imported, p) := import_mcp_server p in
  let p := set_stderr _real_stderr p in
  match imported with
  | Raise e => (Traceback e, p)
  | Ok m =>
      match main m p with
      | (Returned, p) => (Exit 0, p)
      | (KeyboardInterrupt, p) => (Exit 0, p)
      | (Failed e, p) =>
          (Exit 1, print (Some (sys_stderr p)) ("Fatal error: " +:+ exn_str e) p)
      end
  end.

(** [_silent_print] of [mcp_clean.py] *)
Definition _silent_print (file : option stream) (text : string) (p : process)
    : process :=
  let file :=
    if decide (file = Some (sys_stdout p)) then Some (sys_stderr p) else file in
  print file text p.

(** [paperscraper/mcp_clean.py], run as a script *)
Definition mcp_clean (p : process) : status * process :=
  let p := setenv "PAPERSCRAPER_MCP_MODE" "1" p in
  let p := setenv "PYTHONWARNINGS" "ignore" p in
  match import_mcp_server p with
  | (Raise e, p) => (Traceback e, p)
  | (Ok m, p) =>
      match main m p with
      | (Returned, p) => (Exit 0, p)
      | (KeyboardInterrupt, p) => (Exit 0, p)
      | (Failed e, p) =>
          (Exit 1, _silent_print (Some (sys_stderr p)) ("Fatal error: " +:+ exn_str e) p)
      end
  end.
End Launch.

End Launchers.

(** ** A stub backend

    Collaborators for running the handlers on concrete inputs.  The
    outside world is a counter of the temporary names drawn so far; a
    search source answers with a fixed file, in which every character
    stands for one record whose title is that character. *)

Module Stub.

Definition upper_char (c : ascii) : ascii :=
  let n := nat_of_ascii c in
  if (97 <=? n)%nat && (n <=? 122)%nat then ascii_of_nat (n - 32) else c.

Fixpoint upper (s : string) : string :=
  match s with
  | EmptyString => EmptyString
  | String c rest => String (upper_char c) (upper rest)
  end.

Definition builtins : Builtins := {|
  float_repr := fun _ => "0.0";
  str_repr := fun s => "'" +:+ s +:+ "'";
  str_upper := upper;
  str_chars := fun s => map (fun c => String c EmptyString) (list_ascii_of_string s);
|}.

Definition parse (data : string) : result (list (gmap string value)) :=
  Ok (map (fun c => {[ "title" := VStr (String c EmptyString) ]})
          (list_ascii_of_string data)).

Definition dumps (data : string) : dumper nat :=
  fun _ e => (Put data, None, e).

Definition fails {A} (msg : string) : lookup_fn nat A :=
  fun _ e => (Raise (Exn "RuntimeError" msg), e).

Definition returns {A} (a : A) : lookup_fn nat A :=
  fun _ e => (Ok a, e).

(** A refresher that writes today's dump of a server. *)
Definition refreshes (server : string) : writer nat unit :=
  fun fs e =>
    (<["/pkg/server_dumps/" +:+ server +:+ "_2024-06-01.jsonl" := File "{}"]> fs,
     Ok tt, e).

(** A refresher that gives up before it has written anything. *)
Definition gives_up (msg : string) : writer nat unit :=
  fun fs e => (fs, Raise (Exn "RuntimeError" msg), e).

(** A backend in which PubMed, arXiv, Scholar and bioRxiv hold the
    given files, and no dump of medRxiv or chemRxiv is loaded. *)
Definition collaborators (pubmed arxiv scholar biorxiv_dump : string)
    : Collaborators nat := {|
  get_and_dump_pubmed_papers := fun _ _ _ => dumps pubmed;
  get_and_dump_arxiv_papers := fun _ _ _ => dumps arxiv;
  get_and_dump_scholar_papers := fun _ _ => dumps scholar;
  QUERY_FN_DICT :=
    <["biorxiv" := fun _ _ => dumps biorxiv_dump]>
      (<["pubmed" := fun _ _ => dumps pubmed]>
         (<["arxiv" := fun _ _ => dumps arxiv]> ∅));
  parse_jsonl := parse;
  get_citations_by_doi := fun _ => returns (VInt 42);
  get_citations_from_title := fun _ => returns (VInt 7);
  Impactor := returns tt;
  Impactor_search := fun _ _ =>
    returns [ {[ "journal" := VStr "Nature"; "factor" := VInt 50;
                 "score" := VInt 100 ]} ];
  save_pdf := fun _ _ _ e => (Put "%PDF", Ok (VBool true), e);
  biorxiv := fun _ => refreshes "biorxiv";
  medrxiv := fun _ => gives_up "medrxiv API is down";
  chemrxiv := fun _ => refreshes "chemrxiv";
  candidate_name := fun suffix n => ("/tmp/tmp" +:+ pretty n +:+ suffix, S n);
  TMP_MAX := 100 * 100;
|}.

(** An empty file system, nothing created, nothing called. *)
Definition start : @world nat := World ∅ [] [] 0.

(** Twelve records in PubMed, none in arXiv, three in Scholar and
    six in the bioRxiv dump. *)
Definition demo : Collaborators nat :=
  collaborators "abcdefghijkl" "" "xyz" "uvwxyz".

(** A tool call against [demo], from [start]. *)
Definition call_tool (name : string) (arguments : gmap string value)
    : result (list TextContent) * @world nat :=
  @handle_call_tool nat builtins demo name arguments start.

(** A search of bioRxiv and chemRxiv, and the answer [demo] gives. *)
Definition biorxiv_and_chemrxiv : gmap string value :=
  {[ "query" := VList [VList [VStr "cancer"]];
     "servers" := VList [VStr "biorxiv"; VStr "chemrxiv"] ]}.

Definition biorxiv_and_chemrxiv_answer : list TextContent :=
  [mkTextContent "text"
     (unlines ["Total papers found across 2 servers: 6"; "";
               "BIORXIV: Found 6 papers";
               "  1. u"; "     Authors: Unknown"; "     Date: Unknown"; "";
               "  2. v"; "     Authors: Unknown"; "     Date: Unknown"; "";
               "  3. w"; "     Authors: Unknown"; "     Date: Unknown"; "";
               "  4. x"; "     Authors: Unknown"; "     Date: Unknown"; "";
               "  5. y"; "     Authors: Unknown"; "     Date: Unknown"; ""])].



End Stub.


(** ** A backend with an outage *)

Module Outage.

(** PubMed is unreachable and the PDF collaborator reports that it
    saved nothing; everything else is as in [Stub.demo]. *)
Definition unreachable : exn := Exn "ConnectionError" "PubMed is unreachable".

Definition collaborators : Collaborators nat := {|
  get_and_dump_pubmed_papers := fun _ _ _ _ e => (Keep, Some unreachable, e);
  get_and_dump_arxiv_papers := @get_and_dump_arxiv_papers _ Stub.demo;
  get_and_dump_scholar_papers := @get_and_dump_scholar_papers _ Stub.demo;
  QUERY_FN_DICT := @QUERY_FN_DICT _ Stub.demo;
  parse_jsonl := Stub.parse;
  get_citations_by_doi := fun _ => Stub.fails "Semantic Scholar is down";
  get_citations_from_title := fun _ => Stub.returns (VInt 7);
  Impactor := Stub.returns tt;
  Impactor_search := fun _ _ => Stub.returns [];
  save_pdf := fun _ _ _ e => (Keep, Ok (VBool false), e);
  biorxiv := fun _ => Stub.refreshes "biorxiv";
  medrxiv := fun _ => Stub.gives_up "medrxiv API is down";
  chemrxiv := fun _ => Stub.refreshes "chemrxiv";
  candidate_name := fun suffix n => ("/tmp/tmp" +:+ pretty n +:+ suffix, S n);
  TMP_MAX := 100 * 100;
|}.

End Outage.

(** ** A shelf of dumps *)

Module Shelf.

(** Two dumps of bioRxiv, of which the later one is empty, one dump
    of medRxiv and none of chemRxiv. *)
Definition dumps : LoadDumps.DumpFiles := {|
  LoadDumps.dump_root := "/pkg/server_dumps";
  LoadDumps.glob := fun pattern =>
    if String.eqb pattern "/pkg/server_dumps/biorxiv*"
    then ["/pkg/server_dumps/biorxiv_2023-01-01.jsonl";
          "/pkg/server_dumps/biorxiv_2024-06-01.jsonl"]
    else if String.eqb pattern "/pkg/server_dumps/medrxiv*"
    then ["/pkg/server_dumps/medrxiv_2024-06-01.jsonl"]
    else [];
  LoadDumps.getsize := fun path =>
    if String.eqb path "/pkg/server_dumps/biorxiv_2024-06-01.jsonl"
    then 0%N else 2048%N;
  LoadDumps.XRXivQuery := fun _ => LoadDumps.mkQuerier false 12;
|}.

(** A start in which both the package and the server's imports print
    a line, and the transport fails once it is open. *)
Definition closed_pipe : exn := Exn "BrokenPipeError" "[Errno 32] Broken pipe".

Definition runtime : Launchers.Runtime := {|
  Launchers.init_prints := ["Loading paperscraper"];
  Launchers.server_prints := ["Loading scholarly"];
  Launchers.import_error := None;
  Launchers.serve := Launchers.Failed closed_pipe;
|}.

End Shelf.

(** * Vocabulary of the properties *)

Section Vocabulary.
Context {env : Type} `{Builtins} `{Collaborators env}.

Implicit Types (w : @world env).

(** [m] takes every world to one that is [R]-related to it, whether
    it returns or raises. *)
Definition keeps {A} (R : relation (@world env)) (m : M world A) : Prop :=
  forall w, R w (snd (m w)).

(** A temporary resource is gone when its path names nothing; for a
    directory, nothing below it is left either. *)
Definition gone (fs : gmap string node) (t : tmp_kind * string) : Prop :=
  match t with
  | (TmpFile, path) => fs !! path = None
  | (TmpDir, d) => forall q, inside d q = true -> fs !! q = None
  end.

(** From [w] to [w'] only temporary resources that are gone again
    were handed out. *)
Definition released w w' : Prop :=
  exists new, w_created w' = new ++ w_created w /\ Forall (gone (w_fs w')) new.

(** [m] hands out only temporary resources that are gone when it is
    done. *)
Definition releases {A} (m : M world A) : Prop :=
  forall w, released w (snd (m w)).

(** The stronger guarantee of the handlers that stage a file: the
    file system is back to what it was. *)
Definition restored w w' : Prop :=
  w_fs w' = w_fs w /\
  exists new, w_created w' = new ++ w_created w /\
              Forall (fun t => exists path, t = (TmpFile, path) /\ w_fs w !! path = None) new.

(** The file system and the record of temporary resources are as
    they were. *)
Definition quiet : relation (@world env) := fun w w' =>
  w_fs w' = w_fs w /\ w_created w' = w_created w.

(** No temporary resource was handed out. *)
Definition created_fixed : relation (@world env) := fun w w' =>
  w_created w' = w_created w.

(** Whenever [m] returns, it returns exactly one text block. *)
Definition yields_text (m : M (@world env) (list TextContent)) : Prop :=
  forall w blocks, fst (m w) = Ok blocks ->
                   exists t, blocks = [mkTextContent "text" t].

(** From [w] to [w'] the trace grew by invocations that satisfy [P]. *)
Definition extends (P : call -> Prop) : relation (@world env) := fun w w' =>
  exists calls, w_log w' = w_log w ++ calls /\ Forall P calls.

(** The refresh collaborator [update_preprint_dumps] has for a
    requested server, by name. *)
Definition refresh_names : list string := ["biorxiv"; "medrxiv"; "chemrxiv"].

(** The requested server is in the index of loaded dumps. *)
Definition indexed (server : value) : option string :=
  match server with
  | VStr s => if bool_decide (s ∈ dom QUERY_FN_DICT) then Some s else None
  | _ => None
  end.

(** What a collaborator that dumps its findings leaves to load, asked
    in the world [w]: it is handed a fresh temporary file, and its
    answer is the records of that file when it has returned.  There
    is no answer if [tempfile] finds no name, if the collaborator
    raises, or if what it leaves is not a file of JSON lines.  With
    the records come the path it was handed and the outside world it
    left. *)
Definition dumped (suffix : string) (f : string -> dumper env) w
    : option (string * list (gmap string value) * env) :=
  match NamedTemporaryFile suffix w with
  | (Ok path, w1) =>
      match f path (w_fs w1) (w_env w1) with
      | (eff, None, en) =>
          match apply_effect path eff (w_fs w1) !! path with
          | Some (File data) =>
              match parse_jsonl data with
              | Ok results => Some (path, results, en)
              | Raise _ => None
              end
          | _ => None
          end
      | (_, Some _, _) => None
      end
  | (Raise _, _) => None
  end.

(** The world after a collaborator was asked in [w] with the
    invocation [c]: the temporary file it was handed is on record
    and gone again, and the trace has grown by [c]. *)
Definition asked (c : call) (path : string) (en : env) w : world :=
  World (w_fs w) ((TmpFile, path) :: w_created w) (w_log w ++ [c]) en.

(** The records the servers [servers] of the index return to
    [query], asked one after the other from the world [w]. *)
Fixpoint collected (query : value) (servers : list string) w
    : option (list (list (gmap string value))) :=
  match servers with
  | [] => Some []
  | s :: rest =>
      match QUERY_FN_DICT !! s with
      | Some query_fn =>
          match dumped ".jsonl" (query_fn query) w with
          | Some (path, results, en) =>
              cons results
                <$> collected query rest (asked (CallQueryFn s query path) path en w)
          | None => None
          end
      | None => None
      end
  end.

(** The subsections of [search_preprint_servers] for the servers
    that were queried, each with the records it returned. *)
Definition sections (served : list (string * list (gmap string value))) : string :=
  fold_left (fun response sr => preprint_section (fst sr) (snd sr) response)
    served "".


(** An optional line of an entry: present when the field is truthy. *)
Definition optional_line (label key : string) (paper : gmap string value)
    : string :=
  if truthy (dict_get paper key VNone)
  then label +:+ py_str (dict_get paper key VNone) +:+ nl
  else "".




Definition preprint_entry (i : nat) (paper : gmap string value) : string :=
  ("  " +:+ pretty (i + 1) +:+ ". "
        +:+ py_str (dict_get paper "title" (VStr "No title")) +:+ nl)
  +:+ ("     Authors: " +:+ py_str (dict_get paper "authors" (VStr "Unknown")) +:+ nl)
  +:+ ("     Date: " +:+ py_str (dict_get paper "date" (VStr "Unknown")) +:+ nl)
  +:+ optional_line "     DOI: " "doi" paper
  +:+ nl.
End Vocabulary.


(** ** Vocabulary for the schemas and the traces *)

(** [d[key]] of a [dict] literal, if the key is there. *)
Fixpoint assoc (key : string) (d : list (string * value)) : option value :=
  match d with
  | [] => None
  | (k, v) :: rest => if String.eqb k key then Some v else assoc key rest
  end.

(** The keys a descriptor's schema lists under ["required"]. *)
Definition required_keys (tool : Tool) : list string :=
  match inputSchema tool with
  | VDict d =>
      match assoc "required" d with
      | Some (VList keys) =>
          omap (fun v => match v with VStr s => Some s | _ => None end) keys
      | _ => []
      end
  | _ => []
  end.

(** The default a descriptor's schema gives for a property. *)
Definition schema_default (tool : Tool) (property : string) : option value :=
  match inputSchema tool with
  | VDict d =>
      match assoc "properties" d with
      | Some (VDict properties) =>
          match assoc property properties with
          | Some (VDict fields) => assoc "default" fields
          | _ => None
          end
      | _ => None
      end
  | _ => None
  end.

(** The properties of a descriptor's schema that have a default, with
    the default. *)
Definition advertised_defaults (tool : Tool) : list (string * value) :=
  match inputSchema tool with
  | VDict d =>
      match assoc "properties" d with
      | Some (VDict properties) =>
          omap (fun entry =>
                  match snd entry with
                  | VDict fields => pair (fst entry) <$> assoc "default" fields
                  | _ => None
                  end) properties
      | _ => []
      end
  | _ => []
  end.

(** The server whose dump [update_preprint_dumps] refreshes for a
    requested entry, if it is one of the three. *)
Definition refresh_target (server : value) : option string :=
  if eq_str server "biorxiv" then Some "biorxiv"
  else if eq_str server "medrxiv" then Some "medrxiv"
  else if eq_str server "chemrxiv" then Some "chemrxiv"
  else None.

(** The date range the refresh collaborators are given: both dates
    when one of them is truthy, and no argument at all otherwise. *)
Definition refresh_dates (start_date end_date : value) : option (value * value) :=
  if truthy start_date || truthy end_date
  then Some (start_date, end_date)
  else None.

(** The characters of a string. *)
Definition chars (s : string) : list ascii := list_ascii_of_string s.

(** ** Vocabulary for the index of dumps *)

Section DumpVocabulary.
Context `{LoadDumps.DumpFiles}.

(** The three servers that are loaded from a dump, in the order of
    the loop. *)
Definition dump_servers : list string := ["biorxiv"; "chemrxiv"; "medrxiv"].

(** The dump files found for a server. *)
Definition dumps_of (db : string) : list string :=
  LoadDumps.glob (LoadDumps.posix_join LoadDumps.dump_root (db +:+ "*")).

(** The dump that is taken for a server: the first in descending
    order. *)
Definition newest (db : string) : option string :=
  head (LoadDumps.sorted_reverse (dumps_of db)).

(** A server can be loaded: it has a dump, the one taken is not empty
    and the querier made from it did not fail. *)
Definition usable (db : string) : bool :=
  match newest db with
  | Some path =>
      negb (LoadDumps.getsize path =? 0)%N
      && negb (LoadDumps.errored (LoadDumps.XRXivQuery path))
  | None => false
  end.

(** The entry of the index for a server, if it can be loaded. *)
Definition index_entry (db : string) : option (string * LoadDumps.query_fn) :=
  if usable db
  then (fun path => (db, LoadDumps.search_keywords path)) <$> newest db
  else None.

(** The warning that closes the module when nothing was loaded. *)
Definition no_dumps_warning : LoadDumps.log_record :=
  LoadDumps.mkRecord LoadDumps.WARNING
    (" No dumps found for either biorxiv, medrxiv and chemrxiv."
       +:+ " Consider using paperscraper.get_dumps.* to fetch the dumps.").
End DumpVocabulary.

Section LaunchVocabulary.
Context `{LoadDumps.DumpFiles} `{Launchers.Runtime}.

(** The lines [texts], each written to [s]. *)
Definition lines (s : Launchers.stream) (texts : list string)
    : list (Launchers.stream * string) :=
  map (fun t => (s, t +:+ nl)) texts.

(** The report of a fatal error on the interpreter's stderr. *)
Definition fatal (e : exn) : Launchers.stream * string :=
  (Launchers.Stderr, "Fatal error: " +:+ exn_str e +:+ nl).

(** What a launcher finds bound to [sys.stdout] when the transport is
    opened, if it gets that far. *)
Definition opened (s : Launchers.stream) : option Launchers.stream :=
  match Launchers.import_error with
  | Some _ => None
  | None => Some s
  end.

(** The environment variable that marks MCP mode. *)
Definition MCP_MODE : string := "PAPERSCRAPER_MCP_MODE".
End LaunchVocabulary.

(** * Properties *)

(** ** The catalogue *)

(** C8: the tool listing has exactly eight descriptors, named in the
    order search_pubmed, search_arxiv, search_scholar,
    search_preprint_servers, get_citations, search_journal_impact,
    download_paper_pdf, update_preprint_dumps. *)
Theorem handle_list_tools_names :
  length handle_list_tools = 8 /\
  map name handle_list_tools =
    ["search_pubmed"; "search_arxiv"; "search_scholar";
     "search_preprint_servers"; "get_citations"; "search_journal_impact";
     "download_paper_pdf"; "update_preprint_dumps"].
Proof. split; reflexivity. Qed.

Lemma handle_list_tools_registered :
  map name handle_list_tools = registered_names.
Proof. reflexivity. Qed.

(** ** Reasoning about the monad *)

Lemma string_app_cons (x : ascii) (a b : string) :
  String x a +:+ b = String x (a +:+ b).
Proof. reflexivity. Qed.

Lemma string_app_nil_l (a : string) : "" +:+ a = a.
Proof. reflexivity. Qed.

Lemma string_app_assoc (a b c : string) : (a +:+ b) +:+ c = a +:+ (b +:+ c).
Proof.
  induction a as [|x a IH]; [reflexivity |].
  rewrite !string_app_cons. now rewrite IH.
Qed.

Lemma string_app_nil_r (a : string) : a +:+ "" = a.
Proof.
  induction a as [|x a IH]; [reflexivity |].
  rewrite string_app_cons. now rewrite IH.
Qed.

Lemma eqb_neq_false (a b : string) : a <> b -> String.eqb a b = false.
Proof. intros Hne. now apply String.eqb_neq. Qed.

Section Dispatch.
Context {env : Type} `{Builtins} `{Collaborators env}.

Implicit Types (w : @world env) (arguments : gmap string value).

Lemma dispatch_unknown name arguments :
  name ∉ registered_names ->
  dispatch name arguments = raise (ValueError ("Unknown tool: " +:+ name)).
Proof.
  intros Hname. unfold dispatch.
  repeat (rewrite eqb_neq_false;
          [| intros ->; apply Hname; unfold registered_names; set_solver]).
  reflexivity.
Qed.

(** C2, as the code has it: for a name that is not registered the
    dispatcher answers with exactly one text block, whose text is
    [Error: Unknown tool: ] followed by the name, and leaves the
    world as it was. *)
Theorem handle_call_tool_unknown name arguments w :
  name ∉ registered_names ->
  handle_call_tool name arguments w =
    (Ok [mkTextContent "text" ("Error: Unknown tool: " +:+ name)], w).
Proof.
  intros Hname. unfold handle_call_tool, try_except.
  now rewrite dispatch_unknown.
Qed.
End Dispatch.

(** ** Handlers that look at their arguments only *)

Section Citations.
Context {env : Type} `{Builtins} `{Collaborators env}.

Implicit Types (w : @world env) (arguments : gmap string value).

(** C7: without [title] and without [doi], [get_citations] answers
    with the single text block [Error: Either title or DOI must be
    provided]; the world, and with it the trace of collaborator
    invocations, is left as it was.  The dispatcher passes this
    answer on unchanged. *)
Theorem get_citations_neither arguments w :
  arguments !! "title" = None ->
  arguments !! "doi" = None ->
  get_citations arguments w =
    (Ok [mkTextContent "text" "Error: Either title or DOI must be provided"], w)
  /\ handle_call_tool "get_citations" arguments w =
    (Ok [mkTextContent "text" "Error: Either title or DOI must be provided"], w).
Proof.
  intros Htitle Hdoi.
  assert (get_citations arguments w =
    (Ok [mkTextContent "text" "Error: Either title or DOI must be provided"], w))
    as Hget.
  { unfold get_citations, dict_get. rewrite Htitle, Hdoi. reflexivity. }
  split; [exact Hget |].
  unfold handle_call_tool, try_except.
  change (dispatch "get_citations" arguments) with (get_citations arguments).
  now rewrite Hget.
Qed.

End Citations.

(** ** Temporary resources *)

Section Temporaries.
Context {env : Type} `{Builtins} `{Collaborators env}.

Implicit Types (w : @world env) (arguments : gmap string value).

Lemma bind_ok {A B} (m : M (@world env) A) (k : A -> M (@world env) B) w a w1 :
  m w = (Ok a, w1) -> (x <- m ;; k x) w = k a w1.
Proof. intros Hm. unfold bind. now rewrite Hm. Qed.

Lemma bind_raise {A B} (m : M (@world env) A) (k : A -> M (@world env) B) w e w1 :
  m w = (Raise e, w1) -> (x <- m ;; k x) w = (Raise e, w1).
Proof. intros Hm. unfold bind. now rewrite Hm. Qed.

Lemma restored_refl w : restored w w.
Proof. split; [reflexivity |]. exists []. split; [reflexivity | constructor]. Qed.

Lemma restored_trans w1 w2 w3 : restored w1 w2 -> restored w2 w3 -> restored w1 w3.
Proof.
  intros [Hfs1 (n1 & Hc1 & Hn1)] [Hfs2 (n2 & Hc2 & Hn2)].
  split; [congruence |].
  exists (n2 ++ n1). split.
  - rewrite Hc2, Hc1. now rewrite app_assoc.
  - apply Forall_app. split; [| exact Hn1].
    eapply Forall_impl; [exact Hn2 |]. intros t (p & -> & Hp).
    exists p. split; [reflexivity | congruence].
Qed.

Lemma restored_released w w' : restored w w' -> released w w'.
Proof.
  intros [Hfs (new & Hc & Hnew)]. exists new. split; [exact Hc |].
  eapply Forall_impl; [exact Hnew |]. intros t (p & -> & Hp).
  simpl. congruence.
Qed.

(** [tempfile] creates what it returns, at a path that was free. *)
Lemma mktemp_spec kind suffix tries w :
  match mktemp kind suffix tries w with
  | (Ok path, w') =>
      w_fs w !! path = None /\
      w_fs w' = <[path := fresh_node kind]> (w_fs w) /\
      w_created w' = (kind, path) :: w_created w /\
      w_log w' = w_log w
  | (Raise _, w') =>
      w_fs w' = w_fs w /\ w_created w' = w_created w /\ w_log w' = w_log w
  end.
Proof.
  revert w. induction tries as [|tries IH]; intros w; simpl.
  - now unfold raise.
  - destruct (candidate_name suffix (w_env w)) as [path e].
    destruct (w_fs w !! path) as [n|] eqn:Hfree.
    + exact (IH (set_env e w)).
    + now simpl.
Qed.

Lemma apply_effect_file path eff fs data :
  fs !! path = Some (File data) ->
  (apply_effect path eff fs !! path = None \/
   exists data', apply_effect path eff fs !! path = Some (File data')) /\
  delete path (apply_effect path eff fs) = delete path fs.
Proof.
  intros Hpath. destruct eff as [|data'|]; simpl.
  - split; [right; eauto | reflexivity].
  - rewrite lookup_insert_eq, delete_insert_eq. split; [right; eauto | reflexivity].
  - rewrite lookup_delete_eq, delete_delete_eq. split; [now left | reflexivity].
Qed.

(** [if os.path.exists(p): os.unlink(p)] on a path that names a
    regular file or nothing. *)
Lemma unlink_if_exists path w :
  (w_fs w !! path = None \/ exists data, w_fs w !! path = Some (File data)) ->
  (there <- os_path_exists path ;;
   if there : bool then os_unlink path else ret tt) w =
    (Ok tt, set_fs (delete path (w_fs w)) w).
Proof.
  intros [Hnone | [data Hfile]]; unfold bind, os_path_exists, os_unlink, ret.
  - rewrite Hnone. rewrite bool_decide_eq_false_2 by (intros [? [=]]).
    rewrite delete_id by exact Hnone. now destruct w.
  - rewrite Hfile. rewrite bool_decide_eq_true_2 by eauto. now rewrite Hfile.
Qed.

(** The staging pattern shared by the search handlers: let the
    collaborator write [path], load it, and unlink it whatever
    happened. *)
Lemma staged_dump {A} (c : call) (f : dumper env) (path : string)
    (k : list (gmap string value) -> A) w data :
  w_fs w !! path = Some (File data) ->
  let out :=
    try_finally
      (call_dumper c f path ;;
       results <- load_jsonl path ;;
       ret (k results))
      (there <- os_path_exists path ;;
       if there : bool then os_unlink path else ret tt) w in
  w_fs (snd out) = delete path (w_fs w) /\
  w_created (snd out) = w_created w /\
  w_log (snd out) = w_log w ++ [c] /\
  (forall r, fst out = Ok r -> exists results, r = k results).
Proof.
  intros Hpath out. subst out. unfold try_finally.
  destruct ((call_dumper c f path ;;
             results <- load_jsonl path ;; ret (k results)) w)
    as [r w1] eqn:Hbody.
  assert (w_fs w1 = apply_effect path (fst (fst (f (w_fs w) (w_env w)))) (w_fs w)
          /\ w_created w1 = w_created w /\ w_log w1 = w_log w ++ [c]
          /\ (forall a, r = Ok a -> exists results, a = k results))
    as (Hfs & Hcr & Hlog & Hres).
  { revert Hbody. unfold bind, call_dumper, load_jsonl, ret.
    destruct (f (w_fs w) (w_env w)) as [[eff err] e]. simpl.
    destruct err as [x|]; [intros [= <- <-]; now repeat split |].
    destruct (apply_effect path eff (w_fs w) !! path) as [[d|n]|];
      [destruct (parse_jsonl d) as [results|x] | |];
      intros [= <- <-]; simpl; repeat split; try discriminate.
    intros a [= <-]. eauto. }
  destruct (apply_effect_file path (fst (fst (f (w_fs w) (w_env w)))) _ _ Hpath)
    as [Hnode Hdel].
  rewrite <- Hfs in Hnode, Hdel.
  rewrite (unlink_if_exists path w1 Hnode). simpl.
  now rewrite Hdel.
Qed.

(** The same with the creation of the file in front: either
    [tempfile] finds no free name and nothing happens, or a fresh
    file is created, handed to the collaborator and removed again. *)
Lemma staged_search {A} (suffix : string) (c : string -> call)
    (f : string -> dumper env) (k : list (gmap string value) -> A) w :
  let out :=
    (temp_file <- NamedTemporaryFile suffix ;;
     try_finally
       (call_dumper (c temp_file) (f temp_file) temp_file ;;
        results <- load_jsonl temp_file ;;
        ret (k results))
       (there <- os_path_exists temp_file ;;
        if there : bool then os_unlink temp_file else ret tt)) w in
  w_fs (snd out) = w_fs w /\
  ((w_created (snd out) = w_created w /\ w_log (snd out) = w_log w /\
    exists e, fst out = Raise e)
   \/
   (exists path,
      w_fs w !! path = None /\
      w_created (snd out) = (TmpFile, path) :: w_created w /\
      w_log (snd out) = w_log w ++ [c path] /\
      (forall r, fst out = Ok r -> exists results, r = k results))).
Proof.
  intros out. subst out. unfold NamedTemporaryFile.
  pose proof (mktemp_spec TmpFile suffix TMP_MAX w) as Hmk.
  destruct (mktemp TmpFile suffix TMP_MAX w) as [[path|e] w1] eqn:Hrun;
    [rewrite (bind_ok _ _ _ _ _ Hrun) | rewrite (bind_raise _ _ _ _ _ Hrun)].
  - destruct Hmk as (Hfree & Hfs & Hcr & Hlog).
    assert (w_fs w1 !! path = Some (File "")) as Hnode.
    { rewrite Hfs. apply lookup_insert_eq. }
    destruct (staged_dump (c path) (f path) path k w1 "" Hnode)
      as (Hfs' & Hcr' & Hlog' & Hres).
    split.
    + rewrite Hfs', Hfs, delete_insert_eq. now apply delete_id.
    + right. exists path. rewrite Hcr', Hlog', Hcr, Hlog. now repeat split.
  - destruct Hmk as (Hfs & Hcr & Hlog). simpl. split; [exact Hfs |].
    left. repeat split; eauto.
Qed.

(** The staging pattern, run to its end: it returns exactly when the
    collaborator has an answer, and then with that answer, in the
    world in which the collaborator was asked. *)
Lemma staged_search_dumped {A} (suffix : string) (c : string -> call)
    (f : string -> dumper env) (k : list (gmap string value) -> A) w :
  let out :=
    (temp_file <- NamedTemporaryFile suffix ;;
     try_finally
       (call_dumper (c temp_file) (f temp_file) temp_file ;;
        results <- load_jsonl temp_file ;;
        ret (k results))
       (there <- os_path_exists temp_file ;;
        if there : bool then os_unlink temp_file else ret tt)) w in
  match dumped suffix f w with
  | Some (path, results, en) => out = (Ok (k results), asked (c path) path en w)
  | None => exists e, fst out = Raise e
  end.
Proof.
  intros out. subst out. unfold dumped, NamedTemporaryFile.
  pose proof (mktemp_spec TmpFile suffix TMP_MAX w) as Hmk.
  destruct (mktemp TmpFile suffix TMP_MAX w) as [[path|e] w1] eqn:Hrun;
    [rewrite (bind_ok _ _ _ _ _ Hrun) | rewrite (bind_raise _ _ _ _ _ Hrun); eauto].
  destruct Hmk as (Hfree & Hfs & Hcr & Hlog).
  assert (w_fs w1 !! path = Some (File "")) as Hnode
    by (rewrite Hfs; apply lookup_insert_eq).
  unfold try_finally.
  destruct (apply_effect_file path (fst (fst (f path (w_fs w1) (w_env w1)))) _ _ Hnode)
    as [Hafter Hdel].
  assert (delete path (w_fs w1) = w_fs w) as Hback.
  { rewrite Hfs, delete_insert_eq. now apply delete_id. }
  destruct (f path (w_fs w1) (w_env w1)) as [[eff err] en] eqn:Hf.
  cbn [fst] in Hafter, Hdel.
  set (w2 := set_fs (apply_effect path eff (w_fs w1))
               (set_env en (add_call (c path) w1))).
  assert (w_fs w2 !! path = None \/ exists data, w_fs w2 !! path = Some (File data))
    as Hnode2 by exact Hafter.
  assert (set_fs (delete path (w_fs w2)) w2 = asked (c path) path en w) as Hend.
  { unfold asked, w2, set_fs, set_env, add_call. cbn [w_fs w_created w_log w_env].
    now rewrite Hdel, Hback, Hcr, Hlog. }
  match goal with
  | |- context [let (r, w') := ?body w1 in _] =>
      assert (body w1 =
                (match err with
                 | Some x => Raise x
                 | None =>
                     match apply_effect path eff (w_fs w1) !! path with
                     | Some (File data) =>
                         match parse_jsonl data with
                         | Ok results => Ok (k results)
                         | Raise x => Raise x
                         end
                     | Some (Dir _) => Raise (IsADirectoryError path)
                     | None => Raise (FileNotFoundError path)
                     end
                 end, w2)) as ->
  end.
  { unfold bind, call_dumper, load_jsonl, ret. rewrite Hf. fold w2.
    destruct err as [x|]; [reflexivity |].
    change (w_fs w2) with (apply_effect path eff (w_fs w1)).
    destruct (apply_effect path eff (w_fs w1) !! path) as [[data|size]|];
      [now destruct (parse_jsonl data) | reflexivity | reflexivity]. }
  rewrite (unlink_if_exists path w2 Hnode2), Hend.
  destruct err as [x|]; [eauto |].
  destruct (apply_effect path eff (w_fs w1) !! path) as [[data|size]|];
    [destruct (parse_jsonl data) as [results|x] | |]; cbn; eauto.
Qed.
End Temporaries.

(** ** Relations every step of a handler keeps *)

Section Frame.
Context {env : Type} `{Builtins} `{Collaborators env}.
Context (R : relation (@world env)) `{!PreOrder R}.

Lemma keeps_ret {A} (a : A) : keeps R (ret a).
Proof. intros w. reflexivity. Qed.

Lemma keeps_raise {A} (e : exn) : keeps R (raise (A := A) e).
Proof. intros w. reflexivity. Qed.

Lemma keeps_lift {A} (r : result A) : keeps R (lift r).
Proof. intros w. reflexivity. Qed.

Lemma keeps_getitem (d : gmap string value) (key : string) :
  keeps R (getitem d key).
Proof. unfold getitem. destruct (d !! key); [apply keeps_ret | apply keeps_raise]. Qed.

Lemma keeps_bind {A B} (m : M (@world env) A) (k : A -> M (@world env) B) :
  keeps R m -> (forall a, keeps R (k a)) -> keeps R (x <- m ;; k x).
Proof.
  intros Hm Hk w. unfold bind. specialize (Hm w).
  destruct (m w) as [[a|e] w1]; simpl in *; [| exact Hm].
  etransitivity; [exact Hm | apply Hk].
Qed.

Lemma keeps_try_except {A} (body : M (@world env) A) (handler : exn -> M (@world env) A) :
  keeps R body -> (forall e, keeps R (handler e)) -> keeps R (try_except body handler).
Proof.
  intros Hm Hk w. unfold try_except. specialize (Hm w).
  destruct (body w) as [[a|e] w1]; simpl in *; [exact Hm |].
  etransitivity; [exact Hm | apply Hk].
Qed.

Lemma keeps_try_finally {A} (body : M (@world env) A) (final : M (@world env) unit) :
  keeps R body -> keeps R final -> keeps R (try_finally body final).
Proof.
  intros Hm Hk w. unfold try_finally. specialize (Hm w).
  destruct (body w) as [r w1]. specialize (Hk w1).
  destruct (final w1) as [[u|e] w2]; simpl in *; etransitivity; eassumption.
Qed.

Lemma keeps_foldM {A B} (body : B -> A -> M (@world env) B) (l : list A) (acc : B) :
  (forall acc x, keeps R (body acc x)) -> keeps R (foldM body l acc).
Proof.
  intros Hbody. revert acc. induction l as [|x l IH]; intros acc; simpl.
  - apply keeps_ret.
  - apply keeps_bind; [apply Hbody | exact IH].
Qed.
End Frame.

Section Tidy.
Context {env : Type} `{Builtins} `{Collaborators env}.

Implicit Types (w : @world env) (arguments : gmap string value).

#[global] Instance restored_preorder : PreOrder (@restored env).
Proof.
  split.
  - intros w. apply restored_refl.
  - intros w1 w2 w3. apply restored_trans.
Qed.

Lemma call_fn_restored {A} (c : call) (f : lookup_fn env A) :
  keeps restored (call_fn c f).
Proof.
  intros w. unfold call_fn. destruct (f (w_fs w) (w_env w)) as [r e]. simpl.
  split; [reflexivity |]. exists []. split; [reflexivity | constructor].
Qed.

Lemma staged_search_restored {A} (suffix : string) (c : string -> call)
    (f : string -> dumper env) (k : list (gmap string value) -> A) :
  keeps restored
    (temp_file <- NamedTemporaryFile suffix ;;
     try_finally
       (call_dumper (c temp_file) (f temp_file) temp_file ;;
        results <- load_jsonl temp_file ;;
        ret (k results))
       (there <- os_path_exists temp_file ;;
        if there : bool then os_unlink temp_file else ret tt)).
Proof.
  intros w. destruct (staged_search suffix c f k w) as [Hfs Hcases].
  split; [exact Hfs |].
  destruct Hcases as [(Hcr & _) | (path & Hfree & Hcr & _)].
  - exists []. split; [exact Hcr | constructor].
  - exists [(TmpFile, path)]. split; [exact Hcr |].
    constructor; [eauto | constructor].
Qed.

Lemma search_pubmed_restored arguments : keeps restored (search_pubmed arguments).
Proof.
  unfold search_pubmed.
  apply keeps_bind; [apply _ | apply keeps_getitem; apply _ | intros query].
  apply (staged_search_restored ".jsonl"
           (fun p => CallPubmed query p _)
           (fun p => get_and_dump_pubmed_papers query p _)
           (fun results => text_block (pubmed_response results))).
Qed.

Lemma search_arxiv_restored arguments : keeps restored (search_arxiv arguments).
Proof.
  unfold search_arxiv.
  apply keeps_bind; [apply _ | apply keeps_getitem; apply _ | intros query].
  apply (staged_search_restored ".jsonl"
           (fun p => CallArxiv query p _)
           (fun p => get_and_dump_arxiv_papers query p _)
           (fun results => text_block (arxiv_response results))).
Qed.

Lemma search_scholar_restored arguments : keeps restored (search_scholar arguments).
Proof.
  unfold search_scholar.
  apply keeps_bind; [apply _ | apply keeps_getitem; apply _ | intros topic].
  apply (staged_search_restored ".jsonl"
           (fun p => CallScholar topic p)
           (fun p => get_and_dump_scholar_papers topic p)
           (fun results => text_block (scholar_response results))).
Qed.

Lemma preprint_step_restored query acc server :
  keeps restored (preprint_step query acc server).
Proof.
  unfold preprint_step.
  apply keeps_bind; [apply _ | apply keeps_lift; apply _ | intros [[s query_fn]|]].
  - apply (staged_search_restored ".jsonl"
             (fun p => CallQueryFn s query p)
             (fun p => query_fn query p)
             (fun results =>
                (fst acc ++ results, preprint_section s results (snd acc)))).
  - apply keeps_ret; apply _.
Qed.

Lemma search_preprint_servers_restored arguments :
  keeps restored (search_preprint_servers arguments).
Proof.
  unfold search_preprint_servers.
  apply keeps_bind; [apply _ | apply keeps_getitem; apply _ | intros query].
  apply keeps_bind; [apply _ | apply keeps_lift; apply _ | intros items].
  apply keeps_bind; [apply _ | | intros acc].
  - apply keeps_foldM; [apply _ |]. intros acc x. apply preprint_step_restored.
  - apply keeps_bind; [apply _ | apply keeps_lift; apply _ | intros n].
    apply keeps_ret; apply _.
Qed.

(** Handlers that stage nothing are taken apart step by step. *)
Ltac frame :=
  repeat first
    [ apply keeps_ret | apply keeps_raise | apply keeps_lift
    | apply keeps_getitem | apply call_fn_restored
    | apply keeps_bind | apply keeps_try_except | apply keeps_try_finally
    | apply keeps_foldM
    | exact restored_preorder
    | match goal with
      | |- keeps _ (if ?b then _ else _) => destruct b
      | |- keeps _ (match ?x with _ => _ end) => destruct x
      end
    | intro ].

Lemma get_citations_restored arguments : keeps restored (get_citations arguments).
Proof. unfold get_citations. frame. Qed.

Lemma search_journal_impact_restored arguments :
  keeps restored (search_journal_impact arguments).
Proof. unfold search_journal_impact. frame. Qed.

End Tidy.

Section Download.
Context {env : Type} `{Builtins} `{Collaborators env}.

Implicit Types (w : @world env) (arguments : gmap string value).

#[global] Instance quiet_preorder : PreOrder (@quiet env).
Proof.
  split.
  - intros w. now split.
  - intros w1 w2 w3 [Hf1 Hc1] [Hf2 Hc2]. split; congruence.
Qed.

#[global] Instance created_fixed_preorder : PreOrder (@created_fixed env).
Proof.
  split.
  - intros w. reflexivity.
  - intros w1 w2 w3 H1 H2. unfold created_fixed in *. congruence.
Qed.

Lemma released_quiet_l w1 w2 w3 : quiet w1 w2 -> released w2 w3 -> released w1 w3.
Proof.
  intros [Hfs Hcr] (new & Hnew & Hgone). exists new. split; [congruence | exact Hgone].
Qed.

Lemma released_quiet_r w1 w2 w3 : released w1 w2 -> quiet w2 w3 -> released w1 w3.
Proof.
  intros (new & Hnew & Hgone) [Hfs Hcr]. exists new.
  split; [congruence | now rewrite Hfs].
Qed.

Lemma released_refl w : released w w.
Proof. exists []. split; [reflexivity | constructor]. Qed.

Lemma releases_restored {A} (m : M (@world env) A) : keeps restored m -> releases m.
Proof. intros Hm w. apply restored_released, Hm. Qed.

Lemma releases_quiet_bind {A B} (m : M (@world env) A) (k : A -> M (@world env) B) :
  keeps quiet m -> (forall a, releases (k a)) -> releases (x <- m ;; k x).
Proof.
  intros Hm Hk w. unfold bind. specialize (Hm w).
  destruct (m w) as [[a|e] w1]; simpl in *.
  - eapply released_quiet_l; [exact Hm | apply Hk].
  - eapply released_quiet_l; [exact Hm | apply released_refl].
Qed.

Lemma releases_bind_quiet {A B} (m : M (@world env) A) (k : A -> M (@world env) B) :
  releases m -> (forall a, keeps quiet (k a)) -> releases (x <- m ;; k x).
Proof.
  intros Hm Hk w. unfold bind. specialize (Hm w).
  destruct (m w) as [[a|e] w1]; simpl in *; [| exact Hm].
  eapply released_quiet_r; [exact Hm | apply Hk].
Qed.

Lemma releases_try_except_quiet {A} (body : M (@world env) A) (handler : exn -> M (@world env) A) :
  releases body -> (forall e, keeps quiet (handler e)) ->
  releases (try_except body handler).
Proof.
  intros Hm Hk w. unfold try_except. specialize (Hm w).
  destruct (body w) as [[a|e] w1]; simpl in *; [exact Hm |].
  eapply released_quiet_r; [exact Hm | apply Hk].
Qed.

Lemma rmtree_gone d w : gone (w_fs (snd (rmtree d w))) (TmpDir, d).
Proof.
  simpl. intros q Hq. apply map_lookup_filter_None. right.
  intros n _. simpl. congruence.
Qed.

(** Whatever the body of the [with] block does to the file system,
    the directory and all below it are removed on the way out. *)
Lemma with_TemporaryDirectory_releases {A} (body : string -> M (@world env) A) :
  (forall d, keeps created_fixed (body d)) ->
  releases (with_TemporaryDirectory body).
Proof.
  intros Hbody w. unfold with_TemporaryDirectory.
  pose proof (mktemp_spec TmpDir "" TMP_MAX w) as Hmk.
  destruct (mktemp TmpDir "" TMP_MAX w) as [[d|e] w1] eqn:Hrun;
    [rewrite (bind_ok _ _ _ _ _ Hrun) | rewrite (bind_raise _ _ _ _ _ Hrun)].
  - destruct Hmk as (_ & _ & Hcr & _).
    unfold try_finally. specialize (Hbody d w1).
    destruct (body d w1) as [r w2]. simpl in Hbody.
    pose proof (rmtree_gone d w2) as Hgone.
    change (rmtree d w2) with (Ok tt, snd (rmtree d w2)).
    cbv iota. unfold snd at 1.
    exists [(TmpDir, d)]. split.
    + simpl. unfold created_fixed in Hbody. now rewrite Hbody, Hcr.
    + constructor; [exact Hgone | constructor].
  - destruct Hmk as (_ & Hcr & _). exists []. split; [exact Hcr | constructor].
Qed.

Lemma released_created_fixed w w' : created_fixed w w' -> released w w'.
Proof. intros Hcr. exists []. split; [exact Hcr | constructor]. Qed.

Lemma call_writer_created {A} (c : call) (f : writer env A) :
  keeps created_fixed (call_writer c f).
Proof.
  intros w. unfold call_writer.
  now destruct (f (w_fs w) (w_env w)) as [[fs r] e].
Qed.

(** The refreshers write where they like, but [update_preprint_dumps]
    asks [tempfile] for nothing. *)
Lemma update_preprint_dumps_created arguments :
  keeps created_fixed (update_preprint_dumps arguments).
Proof.
  unfold update_preprint_dumps, update_step, refresh.
  repeat first
    [ apply keeps_ret | apply keeps_lift | apply call_writer_created
    | apply keeps_bind | apply keeps_try_except | apply keeps_foldM
    | exact created_fixed_preorder
    | match goal with
      | |- keeps _ (if ?b then _ else _) => destruct b
      end
    | intro ].
Qed.

Lemma call_save_pdf_created paper_data filepath :
  keeps created_fixed (call_save_pdf paper_data filepath).
Proof.
  intros w. unfold call_save_pdf.
  now destruct (save_pdf paper_data filepath (w_fs w) (w_env w)) as [[eff r] e].
Qed.

Lemma os_path_exists_same path w : snd (os_path_exists path w) = w.
Proof. reflexivity. Qed.

Lemma os_path_getsize_same path w : snd (os_path_getsize path w) = w.
Proof. unfold os_path_getsize. now destruct (w_fs w !! path) as [[d|n]|]. Qed.

Lemma download_paper_pdf_releases arguments :
  releases (download_paper_pdf arguments).
Proof.
  unfold download_paper_pdf.
  apply releases_quiet_bind; [apply keeps_getitem; apply _ | intros doi].
  apply releases_quiet_bind.
  { destruct doi; first [apply keeps_ret | apply keeps_raise]; apply _. }
  intros default_filename.
  apply releases_try_except_quiet; [| intros e; apply keeps_ret; apply _].
  apply releases_bind_quiet; [| intros response; apply keeps_ret; apply _].
  apply with_TemporaryDirectory_releases. intros temp_dir.
  apply keeps_bind; [apply _ | apply keeps_lift; apply _ | intros filepath].
  apply keeps_bind; [apply _ | apply call_save_pdf_created | intros success].
  apply keeps_bind; [apply _ | | intros downloaded].
  { destruct (truthy success); [| apply keeps_ret; apply _].
    intros w. now rewrite os_path_exists_same. }
  destruct downloaded; [| apply keeps_ret; apply _].
  apply keeps_bind; [apply _ | | intros file_size; apply keeps_ret; apply _].
  intros w. now rewrite os_path_getsize_same.
Qed.

(** Every handler, and the dispatcher around them, ends with the
    temporary resources it was handed gone. *)
Lemma dispatch_releases name arguments : releases (dispatch name arguments).
Proof.
  unfold dispatch.
  repeat match goal with
         | |- releases (if ?b then _ else _) => destruct b
         end;
    first
      [ apply releases_restored;
        first [ apply search_pubmed_restored | apply search_arxiv_restored
              | apply search_scholar_restored
              | apply search_preprint_servers_restored
              | apply get_citations_restored
              | apply search_journal_impact_restored ]
      | apply download_paper_pdf_releases
      | intros w; apply released_created_fixed, update_preprint_dumps_created
      | intros w; apply released_refl ].
Qed.

(** The handlers that stage a file, and those that only look
    something up, leave the file system exactly as they found it.
    The two others do not: [download_paper_pdf] may be given a
    filename outside its directory, and the refreshers behind
    [update_preprint_dumps] write their dumps. *)
Lemma handle_call_tool_restores name arguments w :
  name <> "download_paper_pdf" ->
  name <> "update_preprint_dumps" ->
  w_fs (snd (handle_call_tool name arguments w)) = w_fs w.
Proof.
  intros Hname Hupdate.
  enough (keeps restored (handle_call_tool name arguments)) as Hkeeps
    by apply (Hkeeps w).
  unfold handle_call_tool.
  apply keeps_try_except; [apply _ | | intros e; apply keeps_ret; apply _].
  unfold dispatch.
  repeat match goal with
         | |- keeps _ (if String.eqb ?a ?b then _ else _) =>
             destruct (String.eqb_spec a b)
         end;
    first
      [ apply search_pubmed_restored | apply search_arxiv_restored
      | apply search_scholar_restored
      | apply search_preprint_servers_restored
      | apply get_citations_restored
      | apply search_journal_impact_restored
      | apply keeps_raise; apply _
      | contradiction ].
Qed.

(** What [tempfile] hands out is released: whatever the tool and its
    arguments, and on whichever path the call ends, every temporary
    file or directory [tempfile] created during the call is gone
    from the file system when the dispatcher returns: a file's path
    names nothing, and nothing is left at or below a directory.
    This does not cover what a collaborator was asked to write
    somewhere else. *)
Theorem handle_call_tool_releases name arguments w :
  exists new,
    w_created (snd (handle_call_tool name arguments w)) = new ++ w_created w /\
    Forall (gone (w_fs (snd (handle_call_tool name arguments w)))) new.
Proof.
  change (released w (snd (handle_call_tool name arguments w))).
  revert w. change (releases (handle_call_tool name arguments)).
  unfold handle_call_tool.
  apply releases_try_except_quiet; [apply dispatch_releases |].
  intros e. apply keeps_ret; apply _.
Qed.
End Download.


(** ** The dispatcher always answers *)

Section Total.
Context {env : Type} `{Builtins} `{Collaborators env}.

Implicit Types (w : @world env) (arguments : gmap string value).

Lemma yields_ret (t : string) : yields_text (env := env) (ret (text_block t)).
Proof. intros w blocks [= <-]. now exists t. Qed.

Lemma yields_raise (e : exn) : yields_text (env := env) (raise e).
Proof. intros w blocks [=]. Qed.

Lemma yields_bind {A} (m : M (@world env) A) (k : A -> M (@world env) (list TextContent)) :
  (forall a, yields_text (k a)) -> yields_text (x <- m ;; k x).
Proof.
  intros Hk w blocks. unfold bind.
  destruct (m w) as [[a|e] w1]; [apply Hk | intros [=]].
Qed.

Lemma yields_try_except (body : M (@world env) (list TextContent)) handler :
  yields_text body -> (forall e, yields_text (handler e)) ->
  yields_text (try_except body handler).
Proof.
  intros Hbody Hhandler w blocks. unfold try_except. specialize (Hbody w).
  destruct (body w) as [[a|e] w1]; [exact (Hbody blocks) | apply Hhandler].
Qed.

Lemma yields_try_finally (body : M (@world env) (list TextContent)) final :
  yields_text body -> yields_text (try_finally body final).
Proof.
  intros Hbody w blocks. unfold try_finally. specialize (Hbody w).
  destruct (body w) as [r w1]. destruct (final w1) as [[u|e] w2]; simpl in *.
  - apply Hbody.
  - intros [=].
Qed.

Ltac yield :=
  repeat first
    [ apply yields_ret | apply yields_raise
    | apply yields_try_except | apply yields_try_finally
    | apply yields_bind
    | match goal with
      | |- yields_text (if ?b then _ else _) => destruct b
      | |- yields_text (match ?x with _ => _ end) => destruct x
      end
    | progress intros
    | progress cbv beta ].

Lemma dispatch_yields_text name arguments : yields_text (dispatch name arguments).
Proof.
  unfold dispatch, search_pubmed, search_arxiv, search_scholar,
    search_preprint_servers, get_citations, search_journal_impact,
    download_paper_pdf, update_preprint_dumps.
  yield.
Qed.

(** C1: for every tool name, registered or not, and every arguments
    mapping, the dispatcher returns, and what it returns is a list
    that is not empty and holds text blocks only; an exception that
    comes out of a handler never gets past it, but is rendered as the
    single text block [Error: ] followed by the exception's message. *)
Theorem handle_call_tool_total name arguments w :
  (exists blocks,
     fst (handle_call_tool name arguments w) = Ok blocks /\
     blocks <> [] /\ Forall (fun b => type b = "text") blocks) /\
  (forall e,
     fst (dispatch name arguments w) = Raise e ->
     handle_call_tool name arguments w =
       (Ok [mkTextContent "text" ("Error: " +:+ exn_str e)],
        snd (dispatch name arguments w))).
Proof.
  pose proof (dispatch_yields_text name arguments w) as Hdispatch.
  unfold handle_call_tool, try_except.
  destruct (dispatch name arguments w) as [[blocks|e] w1]; simpl in *.
  - destruct (Hdispatch blocks eq_refl) as [t ->]. split.
    + exists [mkTextContent "text" t]. repeat split; [discriminate |].
      now repeat constructor.
    + intros e [=].
  - split.
    + eexists. repeat split; [discriminate |]. now repeat constructor.
    + now intros e' [= <-].
Qed.
End Total.


(** ** What the collaborators are asked *)

Section Traces.
Context {env : Type} `{Builtins} `{Collaborators env}.

Implicit Types (w : @world env) (arguments : gmap string value).

#[global] Instance extends_preorder (P : call -> Prop) : PreOrder (@extends env P).
Proof.
  split.
  - intros w. exists []. split; [now rewrite app_nil_r | constructor].
  - intros w1 w2 w3 (c1 & Hc1 & HP1) (c2 & Hc2 & HP2). exists (c1 ++ c2). split.
    + rewrite Hc2, Hc1. now rewrite app_assoc.
    + now apply Forall_app.
Qed.

Lemma call_fn_extends {A} (P : call -> Prop) (c : call) (f : lookup_fn env A) :
  P c -> keeps (extends P) (call_fn c f).
Proof.
  intros Hc w. unfold call_fn. destruct (f (w_fs w) (w_env w)) as [r e]. simpl.
  exists [c]. split; [reflexivity | now constructor].
Qed.

Lemma call_writer_extends {A} (P : call -> Prop) (c : call) (f : writer env A) :
  P c -> keeps (extends P) (call_writer c f).
Proof.
  intros Hc w. unfold call_writer. destruct (f (w_fs w) (w_env w)) as [[fs r] e].
  simpl. exists [c]. split; [reflexivity | now constructor].
Qed.

Lemma staged_search_extends {A} (P : call -> Prop) (suffix : string)
    (c : string -> call) (f : string -> dumper env)
    (k : list (gmap string value) -> A) :
  (forall path, P (c path)) ->
  keeps (extends P)
    (temp_file <- NamedTemporaryFile suffix ;;
     try_finally
       (call_dumper (c temp_file) (f temp_file) temp_file ;;
        results <- load_jsonl temp_file ;;
        ret (k results))
       (there <- os_path_exists temp_file ;;
        if there : bool then os_unlink temp_file else ret tt)).
Proof.
  intros Hc w. destruct (staged_search suffix c f k w) as [_ Hcases].
  destruct Hcases as [(_ & Hlog & _) | (path & _ & _ & Hlog & _)].
  - exists []. split; [now rewrite app_nil_r | constructor].
  - exists [c path]. split; [exact Hlog | now constructor].
Qed.

(** *** [search_scholar] *)

(** The scholar collaborator is called with the topic and the output
    file, whatever else the arguments hold. *)
Lemma search_scholar_unfold arguments :
  search_scholar arguments =
    (topic <- getitem arguments "topic" ;;
     temp_file <- NamedTemporaryFile ".jsonl" ;;
     try_finally
       (call_dumper (CallScholar topic temp_file)
          (get_and_dump_scholar_papers topic temp_file) temp_file ;;
        results <- load_jsonl temp_file ;;
        ret (text_block (scholar_response results)))
       (there <- os_path_exists temp_file ;;
        if there : bool then os_unlink temp_file else ret tt)).
Proof. reflexivity. Qed.

Lemma bind_ret_l {A B} (a : A) (k : A -> M (@world env) B) :
  (x <- ret a ;; k x) = k a.
Proof. reflexivity. Qed.

Lemma bind_raise_l {A B} (e : exn) (k : A -> M (@world env) B) :
  (x <- raise e ;; k x) = raise e.
Proof. reflexivity. Qed.

Lemma bind_lift_ok {A B} (a : A) (k : A -> M (@world env) B) :
  (x <- lift (Ok a) ;; k x) = k a.
Proof. reflexivity. Qed.

Lemma search_scholar_calls arguments :
  keeps (extends (fun c => exists topic path,
                    arguments !! "topic" = Some topic /\ c = CallScholar topic path))
    (search_scholar arguments).
Proof.
  rewrite search_scholar_unfold. unfold getitem.
  destruct (arguments !! "topic") as [topic|] eqn:Htopic.
  - rewrite bind_ret_l.
    apply (staged_search_extends _ ".jsonl"
             (fun p => CallScholar topic p)
             (fun p => get_and_dump_scholar_papers topic p)
             (fun results => text_block (scholar_response results))).
    intros path. now exists topic, path.
  - rewrite bind_raise_l. apply keeps_raise; apply _.
Qed.

Lemma delete_eq_lookup (a1 a2 : gmap string value) (k k' : string) :
  delete k a1 = delete k a2 -> k' <> k -> a1 !! k' = a2 !! k'.
Proof.
  intros Heq Hne.
  rewrite <- (lookup_delete_ne a1 k k'), <- (lookup_delete_ne a2 k k') by congruence.
  now rewrite Heq.
Qed.

(** C10: two argument mappings that differ at most at [max_results]
    make [search_scholar] behave identically, from any world: the
    same answer and the same final world, hence the same invocations
    of the collaborators.  The scholar collaborator is all that is
    invoked, and it is given the topic and the output file only. *)
Theorem search_scholar_ignores_max_results (a1 a2 : gmap string value) w :
  delete "max_results" a1 = delete "max_results" a2 ->
  search_scholar a1 w = search_scholar a2 w /\
  handle_call_tool "search_scholar" a1 w = handle_call_tool "search_scholar" a2 w /\
  exists calls,
    w_log (snd (search_scholar a1 w)) = w_log w ++ calls /\
    Forall (fun c => exists topic path,
              a1 !! "topic" = Some topic /\ c = CallScholar topic path) calls.
Proof.
  intros Heq.
  assert (search_scholar a1 = search_scholar a2) as Hsame.
  { rewrite !search_scholar_unfold. unfold getitem.
    now rewrite (delete_eq_lookup a1 a2 "max_results" "topic" Heq). }
  split; [now rewrite Hsame |]. split.
  - unfold handle_call_tool.
    change (dispatch "search_scholar" a1) with (search_scholar a1).
    change (dispatch "search_scholar" a2) with (search_scholar a2).
    now rewrite Hsame.
  - apply (search_scholar_calls a1 w).
Qed.
End Traces.


(** *** [update_preprint_dumps] *)

Section Updates.
Context {env : Type} `{Builtins} `{Collaborators env}.

Implicit Types (w : @world env) (arguments : gmap string value).


Lemma eq_str_true (v : value) (s : string) : eq_str v s = true -> v = VStr s.
Proof.
  destruct v; simpl; try discriminate.
  intros Heq. apply String.eqb_eq in Heq. now subst.
Qed.

Lemma eq_str_false (v : value) (s : string) : v <> VStr s -> eq_str v s = false.
Proof.
  intros Hne. destruct (eq_str v s) eqn:Heq; [| reflexivity].
  now apply eq_str_true in Heq.
Qed.

(** Only the three refresh collaborators are ever invoked. *)
Lemma refresh_calls server start_date end_date :
  keeps (extends (fun c => exists s dates,
                    c = CallGetDump s dates /\ s ∈ refresh_names))
    (refresh server start_date end_date).
Proof.
  unfold refresh.
  repeat match goal with
         | |- keeps _ (if ?b then _ else _) => destruct b
         end;
    [apply call_writer_extends .. | apply keeps_ret; apply _];
    eexists _, _; (split; [reflexivity |]); unfold refresh_names; set_solver.
Qed.

Lemma update_preprint_dumps_calls arguments :
  keeps (extends (fun c => exists s dates,
                    c = CallGetDump s dates /\ s ∈ refresh_names))
    (update_preprint_dumps arguments).
Proof.
  unfold update_preprint_dumps.
  apply keeps_bind; [apply _ | apply keeps_lift; apply _ | intros items].
  apply keeps_bind; [apply _ | | intros response; apply keeps_ret; apply _].
  apply keeps_foldM; [apply _ |]. intros response server. unfold update_step.
  apply keeps_try_except; [apply _ | | intros e; apply keeps_ret; apply _].
  apply keeps_bind; [apply _ | apply refresh_calls | intros _; apply keeps_ret; apply _].
Qed.

(** The line an iteration adds for a server without a refresh
    collaborator. *)
Lemma update_step_unknown start_date end_date response server w :
  server <> VStr "biorxiv" -> server <> VStr "medrxiv" -> server <> VStr "chemrxiv" ->
  update_step start_date end_date response server w =
    (Ok (response +:+ "Updating " +:+ py_str server +:+ "... ✓ Complete" +:+ nl), w).
Proof.
  intros Hb Hm Hc. unfold update_step, refresh.
  rewrite !eq_str_false by assumption.
  unfold try_except, bind, ret. cbv beta iota.
  now rewrite !string_app_assoc.
Qed.

(** An iteration always succeeds, and appends to the response. *)
Lemma update_step_appends start_date end_date response server w :
  exists line,
    fst (update_step start_date end_date response server w) = Ok (response +:+ line).
Proof.
  unfold update_step, try_except, bind.
  destruct (refresh server start_date end_date w) as [[u|e] w1]; simpl;
    eexists; rewrite string_app_assoc; reflexivity.
Qed.

Lemma update_loop_text start_date end_date items server :
  server ∈ items ->
  server <> VStr "biorxiv" -> server <> VStr "medrxiv" -> server <> VStr "chemrxiv" ->
  forall response w,
  exists pre post,
    fst (foldM (update_step start_date end_date) items response w) =
      Ok (response +:+ pre +:+ "Updating " +:+ py_str server +:+ "... ✓ Complete"
                   +:+ nl +:+ post).
Proof.
  intros Hin Hb Hm Hc.
  assert (forall l response w, exists rest,
            fst (foldM (update_step start_date end_date) l response w) =
              Ok (response +:+ rest)) as Hany.
  { induction l as [|x l IH]; intros response w; simpl.
    - exists "". now rewrite string_app_nil_r.
    - unfold bind.
      destruct (update_step_appends start_date end_date response x w) as [line Hline].
      destruct (update_step start_date end_date response x w) as [r w1].
      simpl in Hline. subst r.
      destruct (IH (response +:+ line) w1) as [rest Hrest].
      exists (line +:+ rest). now rewrite Hrest, string_app_assoc. }
  induction items as [|x items IH]; intros response w; [inversion Hin |].
  simpl. unfold bind.
  apply elem_of_cons in Hin as [<- | Hin].
  - rewrite update_step_unknown by assumption.
    destruct (Hany items (response +:+ "Updating " +:+ py_str server
                                   +:+ "... ✓ Complete" +:+ nl) w) as [rest Hrest].
    exists "", rest. rewrite Hrest. now rewrite !string_app_assoc.
  - destruct (update_step_appends start_date end_date response x w) as [line Hline].
    destruct (update_step start_date end_date response x w) as [r w1].
    simpl in Hline. subst r.
    destruct (IH Hin (response +:+ line) w1) as (pre & post & Hrun).
    exists (line +:+ pre), post. now rewrite Hrun, !string_app_assoc.
Qed.

(** The trace of a refresh, of an iteration and of the loop. *)
Lemma refresh_trace server start_date end_date w :
  w_log (snd (refresh server start_date end_date w)) =
    w_log w ++
    match refresh_target server with
    | Some s => [CallGetDump s (refresh_dates start_date end_date)]
    | None => []
    end.
Proof.
  unfold refresh, refresh_target. fold (refresh_dates start_date end_date).
  repeat match goal with
         | |- context [if eq_str ?v ?s then _ else _] => destruct (eq_str v s)
         end;
    try (unfold call_writer;
         match goal with
         | |- context [match ?f (w_fs w) (w_env w) with _ => _ end] =>
             destruct (f (w_fs w) (w_env w)) as [[fs r] en]
         end; reflexivity).
  simpl. now rewrite app_nil_r.
Qed.

Lemma update_step_trace start_date end_date response server w :
  (exists response',
     fst (update_step start_date end_date response server w) = Ok response') /\
  w_log (snd (update_step start_date end_date response server w)) =
    w_log w ++
    match refresh_target server with
    | Some s => [CallGetDump s (refresh_dates start_date end_date)]
    | None => []
    end.
Proof.
  pose proof (refresh_trace server start_date end_date w) as Htrace.
  unfold update_step, try_except, bind.
  destruct (refresh server start_date end_date w) as [[u|e] w1]; simpl in *;
    split; eauto.
Qed.

Lemma update_loop_trace start_date end_date items :
  forall response w,
    (exists response',
       fst (foldM (update_step start_date end_date) items response w) = Ok response') /\
    w_log (snd (foldM (update_step start_date end_date) items response w)) =
      w_log w ++
      map (fun s => CallGetDump s (refresh_dates start_date end_date))
        (omap refresh_target items).
Proof.
  induction items as [|x items IH]; intros response w; simpl.
  - split; [eauto | now rewrite app_nil_r].
  - unfold bind.
    destruct (update_step_trace start_date end_date response x w)
      as [[response1 Hok] Hlog].
    destruct (update_step start_date end_date response x w) as [r w1].
    simpl in Hok, Hlog. subst r.
    destruct (IH response1 w1) as [Hok' Hlog'].
    split; [exact Hok' |].
    rewrite Hlog', Hlog, <- app_assoc. f_equal.
    destruct (refresh_target x); reflexivity.
Qed.

(** C9: for a requested server that is none of [biorxiv], [medrxiv]
    and [chemrxiv], [update_preprint_dumps] invokes no refresh
    collaborator: the iteration for this server leaves the world, and
    with it the trace of invocations, exactly as it finds it, and
    adds the line [Updating ] server [... ✓ Complete]; the trace of
    the whole call has one invocation for each requested entry that
    names one of the three servers and nothing for this one; and the
    answer holds that line. *)
Theorem update_preprint_dumps_unknown_server arguments items server w :
  py_iter (dict_get arguments "servers" default_servers) = Ok items ->
  server ∈ items ->
  server <> VStr "biorxiv" -> server <> VStr "medrxiv" -> server <> VStr "chemrxiv" ->
  (exists pre post,
     fst (update_preprint_dumps arguments w) =
       Ok [mkTextContent "text"
             (pre +:+ "Updating " +:+ py_str server +:+ "... ✓ Complete" +:+ nl
                  +:+ post)]) /\
  (forall start_date end_date response w',
     update_step start_date end_date response server w' =
       (Ok (response +:+ "Updating " +:+ py_str server +:+ "... ✓ Complete" +:+ nl),
        w')) /\
  refresh_target server = None /\
  w_log (snd (update_preprint_dumps arguments w)) =
    w_log w ++
    map (fun s => CallGetDump s
                    (refresh_dates (dict_get arguments "start_date" VNone)
                                   (dict_get arguments "end_date" VNone)))
      (omap refresh_target items) /\
  (exists calls,
     w_log (snd (update_preprint_dumps arguments w)) = w_log w ++ calls /\
     forall s dates, CallGetDump s dates ∈ calls ->
                     s ∈ refresh_names /\ server <> VStr s).
Proof.
  intros Hiter Hin Hb Hm Hc. split; [| split; [| split; [| split]]].
  - unfold update_preprint_dumps. rewrite Hiter, bind_lift_ok. unfold bind.
    destruct (update_loop_text (dict_get arguments "start_date" VNone)
                (dict_get arguments "end_date" VNone) items server Hin Hb Hm Hc
                ("Updating preprint server dumps..." +:+ nl +:+ nl) w)
      as (pre & post & Hrun).
    destruct (foldM _ items _ w) as [r w1]. simpl in Hrun. subst r. simpl.
    exists (("Updating preprint server dumps..." +:+ nl +:+ nl) +:+ pre),
      (post +:+ nl
         +:+ "Dump update process finished. Please restart to use updated dumps.").
    unfold text_block. do 3 f_equal.
    now rewrite !string_app_assoc.
  - intros start_date end_date response w'.
    now apply update_step_unknown.
  - unfold refresh_target. now rewrite !eq_str_false.
  - unfold update_preprint_dumps. rewrite Hiter, bind_lift_ok. unfold bind.
    destruct (update_loop_trace (dict_get arguments "start_date" VNone)
                (dict_get arguments "end_date" VNone) items
                ("Updating preprint server dumps..." +:+ nl +:+ nl) w)
      as [[response Hok] Hlog].
    destruct (foldM _ items _ w) as [r w1]. simpl in Hok, Hlog. subst r.
    exact Hlog.
  - destruct (update_preprint_dumps_calls arguments w) as (calls & Hlog & Hcalls).
    exists calls. split; [exact Hlog |].
    intros s dates Hcall. rewrite Forall_forall in Hcalls.
    destruct (Hcalls _ Hcall) as (s' & dates' & [= <- <-] & Hs).
    split; [exact Hs |].
    unfold refresh_names in Hs. intros ->.
    repeat (apply elem_of_cons in Hs as [-> | Hs]; [congruence |]).
    inversion Hs.
Qed.
End Updates.


(** *** [search_preprint_servers] *)

Section Preprints.
Context {env : Type} `{Builtins} `{Collaborators env}.

Implicit Types (w : @world env) (arguments : gmap string value).


Lemma indexed_lookup (s : string) :
  indexed (VStr s) = (fun _ => s) <$> QUERY_FN_DICT !! s.
Proof.
  unfold indexed. destruct (QUERY_FN_DICT !! s) as [fn|] eqn:Hfn; simpl.
  - rewrite bool_decide_eq_true_2; [reflexivity |]. apply elem_of_dom. eauto.
  - rewrite bool_decide_eq_false_2; [reflexivity |].
    rewrite elem_of_dom, Hfn. now intros [? [=]].
Qed.

(** Only servers of the index are queried. *)
Lemma preprint_step_calls query acc server :
  keeps (extends (fun c => exists s path,
                    c = CallQueryFn s query path /\ s ∈ dom QUERY_FN_DICT))
    (preprint_step query acc server).
Proof.
  unfold preprint_step. destruct server as [| b | z | bits | s | l | d]; simpl;
    try (rewrite bind_lift_ok; apply keeps_ret; apply _);
    try (apply keeps_raise; apply _).
  destruct (QUERY_FN_DICT !! s) as [query_fn|] eqn:Hfn; simpl;
    rewrite bind_lift_ok; [| apply keeps_ret; apply _].
  apply (staged_search_extends _ ".jsonl"
           (fun p => CallQueryFn s query p)
           (fun p => query_fn query p)
           (fun results =>
              (fst acc ++ results, preprint_section s results (snd acc)))).
  intros path. exists s, path. split; [reflexivity |]. apply elem_of_dom. eauto.
Qed.

Lemma search_preprint_servers_calls arguments :
  keeps (extends (fun c => exists s query path,
                    c = CallQueryFn s query path /\ s ∈ dom QUERY_FN_DICT))
    (search_preprint_servers arguments).
Proof.
  unfold search_preprint_servers.
  apply keeps_bind; [apply _ | apply keeps_getitem; apply _ | intros query].
  apply keeps_bind; [apply _ | apply keeps_lift; apply _ | intros items].
  apply keeps_bind; [apply _ | | intros acc].
  - apply keeps_foldM; [apply _ |]. intros acc x w.
    destruct (preprint_step_calls query acc x w) as (calls & Hlog & Hcalls).
    exists calls. split; [exact Hlog |].
    eapply Forall_impl; [exact Hcalls |]. intros c (s & path & -> & Hs). eauto.
  - apply keeps_bind; [apply _ | apply keeps_lift; apply _ | intros n].
    apply keeps_ret; apply _.
Qed.

(** An iteration for a server of the index: the server is asked,
    and what it returns is added to the loop variables. *)
Lemma preprint_step_indexed query all_results response s query_fn w :
  QUERY_FN_DICT !! s = Some query_fn ->
  match dumped ".jsonl" (query_fn query) w with
  | Some (path, results, en) =>
      preprint_step query (all_results, response) (VStr s) w =
        (Ok (all_results ++ results, preprint_section s results response),
         asked (CallQueryFn s query path) path en w)
  | None =>
      exists e, fst (preprint_step query (all_results, response) (VStr s) w) = Raise e
  end.
Proof.
  intros Hfn. unfold preprint_step, query_fn_of. rewrite Hfn.
  cbn [fmap option_fmap option_map]. rewrite bind_lift_ok. cbn [fst snd].
  exact (staged_search_dumped ".jsonl"
           (fun p => CallQueryFn s query p)
           (fun p => query_fn query p)
           (fun results =>
              (all_results ++ results, preprint_section s results response)) w).
Qed.

(** An iteration for anything else leaves everything as it is. *)
Lemma preprint_step_skipped query acc server w acc' :
  indexed server = None ->
  fst (preprint_step query acc server w) = Ok acc' ->
  preprint_step query acc server w = (Ok acc, w).
Proof.
  unfold preprint_step, indexed.
  destruct server as [| b | z | bits | s | l | d]; unfold query_fn_of;
    try (intros _ _; rewrite bind_lift_ok; now destruct acc);
    try (intros _ Hrun; discriminate Hrun).
  fold (indexed (VStr s)). rewrite indexed_lookup.
  destruct (QUERY_FN_DICT !! s) as [query_fn|];
    cbn [fmap option_fmap option_map]; [discriminate |].
  intros _ _. rewrite bind_lift_ok. now destruct acc.
Qed.

Lemma indexed_Some server s :
  indexed server = Some s ->
  server = VStr s /\ exists query_fn, QUERY_FN_DICT !! s = Some query_fn.
Proof.
  unfold indexed. destruct server as [| b | z | bits | s' | l | d]; try discriminate.
  destruct (bool_decide (s' ∈ dom QUERY_FN_DICT)) eqn:Hdom; [| discriminate].
  intros [= <-]. apply bool_decide_eq_true in Hdom.
  apply elem_of_dom in Hdom as [query_fn Hfn]. eauto.
Qed.

(** The loop, when it runs to its end: the servers of the index among
    the requested ones were asked one after the other, and the loop
    variables hold what they returned. *)
Lemma preprint_loop_run query items :
  forall all_results response w acc,
  fst (foldM (preprint_step query) items (all_results, response) w) = Ok acc ->
  exists found,
    collected query (omap indexed items) w = Some found /\
    length found = length (omap indexed items) /\
    fst acc = all_results ++ concat found /\
    snd acc =
      fold_left (fun response sr => preprint_section (fst sr) (snd sr) response)
        (zip (omap indexed items) found) response.
Proof.
  induction items as [|x items IH]; intros all_results response w acc;
    cbn [foldM omap list_omap].
  - intros [= <-]. exists []. simpl. now rewrite app_nil_r.
  - unfold bind. destruct (indexed x) as [s|] eqn:Hx.
    + apply indexed_Some in Hx as [-> [query_fn Hfn]].
      pose proof (preprint_step_indexed query all_results response s query_fn w Hfn)
        as Hstep.
      cbn [collected]. rewrite Hfn.
      destruct (dumped ".jsonl" (query_fn query) w) as [[[path results] en]|].
      * rewrite Hstep. intros Hrest.
        destruct (IH _ _ _ _ Hrest) as (found & Hcol & Hlen & Hall & Hresp).
        exists (results :: found). rewrite Hcol. simpl. repeat split.
        -- now rewrite Hlen.
        -- now rewrite Hall, app_assoc.
        -- exact Hresp.
      * destruct Hstep as [e He].
        destruct (preprint_step query (all_results, response) (VStr s) w)
          as [[acc1|e1] w1]; [discriminate He | intros [=]].
    + pose proof (preprint_step_skipped query (all_results, response) x w) as Hskip.
      destruct (preprint_step query (all_results, response) x w) as [[acc1|e] w1] eqn:Hrun;
        [| intros [=]].
      specialize (Hskip acc1 Hx eq_refl). injection Hskip as -> ->.
      apply IH.
Qed.

Lemma length_concat_sum {A} (ls : list (list A)) :
  length (concat ls) = sum_list (length <$> ls).
Proof.
  induction ls as [|l ls IH]; simpl; [reflexivity |].
  now rewrite length_app, IH.
Qed.

(** C5: whatever servers are requested, the only collaborators
    [search_preprint_servers] invokes are query functions of servers
    of the index [QUERY_FN_DICT]; and whenever it answers, the
    requested servers that are in the index have been asked one
    after the other, in the order requested, and the text is the
    total line followed by one subsection for each of them, with the
    records it returned, and by nothing for the other servers; the
    total is the sum of the numbers of records these servers
    returned. *)
Theorem search_preprint_servers_counts arguments w :
  (exists calls,
     w_log (snd (search_preprint_servers arguments w)) = w_log w ++ calls /\
     Forall (fun c => exists s query path,
               c = CallQueryFn s query path /\ s ∈ dom QUERY_FN_DICT) calls) /\
  (forall blocks,
     fst (search_preprint_servers arguments w) = Ok blocks ->
     exists query items n found,
       arguments !! "query" = Some query /\
       py_iter (dict_get arguments "servers" default_servers) = Ok items /\
       py_len (dict_get arguments "servers" default_servers) = Ok n /\
       collected query (omap indexed items) w = Some found /\
       length found = length (omap indexed items) /\
       blocks =
         [mkTextContent "text"
            (("Total papers found across " +:+ pretty n +:+ " servers: "
                +:+ pretty (sum_list (length <$> found)) +:+ nl)
             +:+ sections (zip (omap indexed items) found))]).
Proof.
  split; [apply (search_preprint_servers_calls arguments w) |].
  intros blocks. unfold search_preprint_servers, getitem.
  destruct (arguments !! "query") as [query|]; [| intros [=]].
  rewrite bind_ret_l.
  destruct (py_iter (dict_get arguments "servers" default_servers))
    as [items|e] eqn:Hiter; [| intros [=]].
  rewrite bind_lift_ok. unfold bind at 1.
  pose proof (preprint_loop_run query items [] "" w) as Hloop.
  destruct (foldM (preprint_step query) items ([], "") w) as [[acc|e] w1];
    [| intros [=]].
  destruct (Hloop acc eq_refl) as (found & Hcol & Hlen & Hall & Hresp).
  destruct (py_len (dict_get arguments "servers" default_servers))
    as [n|e] eqn:Hn; [| intros [=]].
  rewrite bind_lift_ok. intros [= <-].
  exists query, items, n, found. repeat split; try assumption.
  unfold text_block, sections. rewrite Hall, Hresp. simpl.
  now rewrite length_concat_sum.
Qed.
End Preprints.


(** ** The rendered summaries *)

Section Rendering.
Context `{Builtins}.

Lemma fold_left_entries {A} (body : string -> A -> string) (entry : A -> string)
    (l : list A) (init : string) :
  (forall response x, body response x = response +:+ entry x) ->
  fold_left body l init = init +:+ cat (map entry l).
Proof.
  intros Hbody. revert init. induction l as [|x l IH]; intros init; simpl.
  - now rewrite string_app_nil_r.
  - rewrite IH, Hbody. now rewrite string_app_assoc.
Qed.

Lemma map_enumerate {A B} (f : nat -> A -> B) (l : list A) :
  map (fun ip => f (fst ip) (snd ip)) (enumerate l) = imap f l.
Proof.
  unfold enumerate.
  enough (forall g : nat -> nat,
            map (fun ip => f (fst ip) (snd ip)) (imap (fun i x => (g i, x)) l) =
            imap (fun i => f (g i)) l) as Hshift by exact (Hshift (fun i => i)).
  induction l as [|x l IH]; intros g; [reflexivity |].
  rewrite !imap_cons. simpl. f_equal.
  exact (IH (fun i => g (S i))).
Qed.

(** The loop over [enumerate(results[:k])] appends one entry per record. *)
Lemma loop_entries (body : string -> nat * gmap string value -> string)
    (entry : nat -> gmap string value -> string) (k : nat)
    (results : list (gmap string value)) (init : string) :
  (forall response i paper, body response (i, paper) = response +:+ entry i paper) ->
  fold_left body (enumerate (take k results)) init =
    init +:+ cat (imap entry (take k results)).
Proof.
  intros Hbody.
  rewrite (fold_left_entries body (fun ip => entry (fst ip) (snd ip))).
  - now rewrite map_enumerate.
  - intros response [i paper]. apply Hbody.
Qed.

Ltac entry_shape :=
  intros; unfold optional_line; cbn [fst snd];
  repeat match goal with
         | |- context [truthy ?v] => destruct (truthy v)
         end;
  rewrite ?string_app_assoc, ?string_app_nil_l; reflexivity.





(** A summary has [min n k] entries for [n] records. *)
Lemma numbered_entries (k : nat) (entry : nat -> gmap string value -> string)
    (results : list (gmap string value)) :
  length (imap entry (take k results)) = Nat.min (length results) k.
Proof. rewrite length_imap, length_take. apply Nat.min_comm. Qed.

(** A subsection of [search_preprint_servers] has the server's header
    and one numbered entry for each of the first five records; nothing
    follows the entries, however many records were left out. *)
Theorem preprint_section_shape (server : string)
    (results : list (gmap string value)) (response : string) :
  preprint_section server results response =
    response
    +:+ (nl +:+ str_upper server +:+ ": Found " +:+ pretty (length results)
            +:+ " papers" +:+ nl)
    +:+ cat (imap preprint_entry (take 5 results)).
Proof.
  unfold preprint_section.
  rewrite (loop_entries _ preprint_entry).
  - now rewrite !string_app_assoc.
  - unfold preprint_entry. entry_shape.
Qed.
End Rendering.

Section Answers.
Context {env : Type} `{Builtins} `{Collaborators env}.

Implicit Types (w : @world env) (arguments : gmap string value).



End Answers.


(** ** The options of [search_journal_impact] *)

Section Impact.
Context {env : Type} `{Builtins} `{Collaborators env}.

Implicit Types (w : @world env) (arguments : gmap string value).

Lemma impact_search_args_threshold (threshold min_impact max_impact : value) :
  impact_search_args threshold min_impact max_impact !! "threshold" = Some threshold.
Proof.
  unfold impact_search_args. destruct (truthy max_impact);
    now rewrite ?lookup_insert_ne, ?lookup_insert_eq by discriminate.
Qed.

Lemma impact_search_args_min_impact (threshold min_impact max_impact : value) :
  impact_search_args threshold min_impact max_impact !! "min_impact" = Some min_impact.
Proof.
  unfold impact_search_args. destruct (truthy max_impact);
    now rewrite ?lookup_insert_ne, ?lookup_insert_eq by discriminate.
Qed.

(** [max_impact] is passed on when its value is truthy, and left out
    otherwise: an absent key, [None], but also the numbers [0] and
    [0.0]. *)
Lemma impact_search_args_max_impact (threshold min_impact max_impact : value) :
  impact_search_args threshold min_impact max_impact !! "max_impact" =
    if truthy max_impact then Some max_impact else None.
Proof.
  unfold impact_search_args. destruct (truthy max_impact).
  - apply lookup_insert_eq.
  - now rewrite !lookup_insert_ne, lookup_empty by discriminate.
Qed.

(** The impact collaborator is asked once the [Impactor] is built,
    with the journal name and these options. *)
Lemma search_journal_impact_calls arguments :
  keeps (extends (fun c =>
           c = CallImpactor \/
           exists journal_name,
             arguments !! "journal_name" = Some journal_name /\
             c = CallImpactorSearch journal_name
                   (impact_search_args
                      (dict_get arguments "threshold" (VInt 85))
                      (dict_get arguments "min_impact" (VInt 0))
                      (dict_get arguments "max_impact" VNone))))
    (search_journal_impact arguments).
Proof.
  unfold search_journal_impact, getitem.
  destruct (arguments !! "journal_name") as [journal_name|];
    [rewrite bind_ret_l | rewrite bind_raise_l; apply keeps_raise; apply _].
  apply keeps_try_except; [apply _ | | intros e; apply keeps_ret; apply _].
  apply keeps_bind; [apply _ | apply call_fn_extends; now left | intros _].
  apply keeps_bind; [apply _ | apply call_fn_extends; right; eauto | intros results].
  apply keeps_bind; [apply _ | | intros response; apply keeps_ret; apply _].
  destruct results as [|result results]; [apply keeps_ret; apply _ |].
  apply keeps_foldM; [apply _ |]. intros response r.
  repeat (apply keeps_bind; [apply _ | apply keeps_getitem; apply _ | intros ?]).
  apply keeps_ret; apply _.
Qed.
End Impact.


(** * Scenarios on the stub backend *)

Section Scenarios.
#[local] Existing Instance Stub.builtins.
#[local] Existing Instance Stub.demo.

(** ** Unknown tools *)

(** C2 does not hold as stated: [bogus_tool] is not registered, and
    the text of the answer is not [Unknown tool: bogus_tool] but
    [Error: Unknown tool: bogus_tool]. *)
Lemma unknown_tool_text_is_prefixed :
  ~ (forall name arguments,
       name ∉ registered_names ->
       fst (handle_call_tool name arguments Stub.start) =
         Ok [mkTextContent "text" ("Unknown tool: " +:+ name)]).
Proof.
  intros Hclaim.
  assert ("bogus_tool" ∉ registered_names) as Hname.
  { unfold registered_names. intros Hin.
    repeat (apply elem_of_cons in Hin as [Heq | Hin]; [discriminate Heq |]).
    inversion Hin. }
  specialize (Hclaim "bogus_tool" ∅ Hname).
  vm_compute in Hclaim. discriminate Hclaim.
Qed.

Example unknown_tool_run :
  Stub.call_tool "bogus_tool" ∅ =
    (Ok [mkTextContent "text" "Error: Unknown tool: bogus_tool"], Stub.start).
Proof. vm_compute. reflexivity. Qed.

Lemma handle_call_tool_unknown_witness :
  handle_call_tool "bogus_tool" ∅ Stub.start =
    (Ok [mkTextContent "text" "Error: Unknown tool: bogus_tool"], Stub.start).
Proof.
  apply (handle_call_tool_unknown "bogus_tool" ∅ Stub.start).
  unfold registered_names. intros Hin.
  repeat (apply elem_of_cons in Hin as [Heq | Hin]; [discriminate Heq |]).
  inversion Hin.
Defined.

(** ** Citations *)

Lemma get_citations_neither_witness :
  get_citations ∅ Stub.start =
    (Ok [mkTextContent "text" "Error: Either title or DOI must be provided"],
     Stub.start)
  /\ handle_call_tool "get_citations" ∅ Stub.start =
    (Ok [mkTextContent "text" "Error: Either title or DOI must be provided"],
     Stub.start).
Proof.
  apply (get_citations_neither ∅ Stub.start); reflexivity.
Defined.

(** With a DOI the collaborator is asked. *)
Example get_citations_by_doi_run :
  Stub.call_tool "get_citations" {[ "doi" := VStr "10.1/x" ]} =
    (Ok [mkTextContent "text" "Citations for DOI 10.1/x: 42"],
     World ∅ [] [CallCitationsByDoi (VStr "10.1/x")] 0).
Proof. vm_compute. reflexivity. Qed.

(** ** Scholar *)

Lemma search_scholar_ignores_max_results_witness :
  let a1 : gmap string value := {[ "topic" := VStr "x"; "max_results" := VInt 1 ]} in
  let a2 : gmap string value := {[ "topic" := VStr "x" ]} in
  search_scholar a1 Stub.start = search_scholar a2 Stub.start /\
  handle_call_tool "search_scholar" a1 Stub.start =
    handle_call_tool "search_scholar" a2 Stub.start /\
  exists calls,
    w_log (snd (search_scholar a1 Stub.start)) = w_log Stub.start ++ calls /\
    Forall (fun c => exists topic path,
              a1 !! "topic" = Some topic /\ c = CallScholar topic path) calls.
Proof.
  intros a1 a2.
  apply (search_scholar_ignores_max_results a1 a2 Stub.start).
  vm_compute. reflexivity.
Defined.

Example search_scholar_run :
  Stub.call_tool "search_scholar" {[ "topic" := VStr "x"; "max_results" := VInt 1 ]} =
    (Ok [mkTextContent "text"
           (unlines ["Found 3 papers in Google Scholar"; "";
                     "1. x"; "   Authors: Unknown"; "   Year: Unknown"; "";
                     "2. y"; "   Authors: Unknown"; "   Year: Unknown"; "";
                     "3. z"; "   Authors: Unknown"; "   Year: Unknown"; ""])],
     World ∅ [(TmpFile, "/tmp/tmp0.jsonl")]
       [CallScholar (VStr "x") "/tmp/tmp0.jsonl"] 1).
Proof. vm_compute. reflexivity. Qed.

(** ** Dump updates *)

Lemma update_preprint_dumps_unknown_server_witness :
  let arguments : gmap string value :=
    {[ "servers" := VList [VStr "biorxiv"; VStr "medrxiv"; VStr "zenodo"] ]} in
  let items := [VStr "biorxiv"; VStr "medrxiv"; VStr "zenodo"] in
  (exists pre post,
     fst (update_preprint_dumps arguments Stub.start) =
       Ok [mkTextContent "text"
             (pre +:+ "Updating " +:+ py_str (VStr "zenodo") +:+ "... ✓ Complete"
                  +:+ nl +:+ post)]) /\
  (forall start_date end_date response w',
     update_step start_date end_date response (VStr "zenodo") w' =
       (Ok (response +:+ "Updating " +:+ py_str (VStr "zenodo") +:+ "... ✓ Complete"
                     +:+ nl),
        w')) /\
  refresh_target (VStr "zenodo") = None /\
  w_log (snd (update_preprint_dumps arguments Stub.start)) =
    w_log Stub.start ++
    map (fun s => CallGetDump s
                    (refresh_dates (dict_get arguments "start_date" VNone)
                                   (dict_get arguments "end_date" VNone)))
      (omap refresh_target items) /\
  (exists calls,
     w_log (snd (update_preprint_dumps arguments Stub.start)) =
       w_log Stub.start ++ calls /\
     forall s dates, CallGetDump s dates ∈ calls ->
                     s ∈ refresh_names /\ VStr "zenodo" <> VStr s).
Proof.
  intros arguments items.
  apply (update_preprint_dumps_unknown_server arguments items (VStr "zenodo")
           Stub.start).
  - vm_compute. reflexivity.
  - do 2 apply list_elem_of_further. apply list_elem_of_here.
  - discriminate.
  - discriminate.
  - discriminate.
Defined.

(** The refreshers of the stub write their dump, or give up: the
    call leaves the dump of bioRxiv behind. *)
Example update_preprint_dumps_run :
  Stub.call_tool "update_preprint_dumps"
    {[ "servers" := VList [VStr "biorxiv"; VStr "medrxiv"; VStr "zenodo"] ]} =
    (Ok [mkTextContent "text"
           (unlines ["Updating preprint server dumps..."; "";
                     "Updating biorxiv... ✓ Complete";
                     "Updating medrxiv... ✗ Error: medrxiv API is down";
                     "Updating zenodo... ✓ Complete"; ""]
            +:+ "Dump update process finished. Please restart to use updated dumps.")],
     World {[ "/pkg/server_dumps/biorxiv_2024-06-01.jsonl" := File "{}" ]} []
       [CallGetDump "biorxiv" None; CallGetDump "medrxiv" None] 0).
Proof. vm_compute. reflexivity. Qed.

(** ** Preprint servers *)

(** Of [biorxiv] and [chemrxiv] only the first is in the index of the
    stub: the total is its six records, and there is no subsection for
    [chemrxiv]. *)
Example search_preprint_servers_run :
  Stub.call_tool "search_preprint_servers" Stub.biorxiv_and_chemrxiv =
    (Ok Stub.biorxiv_and_chemrxiv_answer,
     World ∅ [(TmpFile, "/tmp/tmp0.jsonl")]
       [CallQueryFn "biorxiv" (VList [VList [VStr "cancer"]]) "/tmp/tmp0.jsonl"] 1).
Proof. vm_compute. reflexivity. Qed.

Lemma search_preprint_servers_counts_witness :
  exists query items n found,
    Stub.biorxiv_and_chemrxiv !! "query" = Some query /\
    py_iter (dict_get Stub.biorxiv_and_chemrxiv "servers" default_servers) = Ok items /\
    py_len (dict_get Stub.biorxiv_and_chemrxiv "servers" default_servers) = Ok n /\
    collected query (omap indexed items) Stub.start = Some found /\
    length found = length (omap indexed items) /\
    Stub.biorxiv_and_chemrxiv_answer =
      [mkTextContent "text"
         (("Total papers found across " +:+ pretty n +:+ " servers: "
             +:+ pretty (sum_list (length <$> found)) +:+ nl)
          +:+ sections (zip (omap indexed items) found))].
Proof.
  apply (proj2 (search_preprint_servers_counts Stub.biorxiv_and_chemrxiv Stub.start)
           Stub.biorxiv_and_chemrxiv_answer).
  vm_compute. reflexivity.
Defined.

(** The records that are counted are those bioRxiv returned. *)
Example search_preprint_servers_collected :
  collected (VList [VList [VStr "cancer"]]) ["biorxiv"] Stub.start =
    Some [map (fun c => {[ "title" := VStr (String c EmptyString) ]})
            (list_ascii_of_string "uvwxyz")].
Proof. vm_compute. reflexivity. Qed.

(** C4 fails for [search_preprint_servers]: of the six records of
    [biorxiv] five are shown and the sixth is left out, and no last
    line says so; the answer ends with the fifth entry, where the
    other search handlers append [... and 1 more results]. *)
Theorem search_preprint_servers_no_trailing_line :
  fst (Stub.call_tool "search_preprint_servers"
         {[ "query" := VList [VList [VStr "cancer"]];
            "servers" := VList [VStr "biorxiv"] ]}) =
    Ok [mkTextContent "text"
          (unlines ["Total papers found across 1 servers: 6"; "";
                    "BIORXIV: Found 6 papers";
                    "  1. u"; "     Authors: Unknown"; "     Date: Unknown"; "";
                    "  2. v"; "     Authors: Unknown"; "     Date: Unknown"; "";
                    "  3. w"; "     Authors: Unknown"; "     Date: Unknown"; "";
                    "  4. x"; "     Authors: Unknown"; "     Date: Unknown"; "";
                    "  5. y"; "     Authors: Unknown"; "     Date: Unknown"; ""])].
Proof. vm_compute. reflexivity. Qed.

(** ** PubMed *)

(** Twelve records: ten numbered entries and a last line for the two
    that are left out; the temporary file is gone afterwards. *)
Example search_pubmed_run :
  Stub.call_tool "search_pubmed"
    {[ "query" := VList [VList [VStr "cancer"]]; "max_results" := VInt 5 ]} =
    (Ok [mkTextContent "text"
           (unlines ["Found 12 papers in PubMed"; "";
              "1. a"; "   Authors: Unknown"; "   Journal: Unknown"; "   Year: Unknown"; "";
              "2. b"; "   Authors: Unknown"; "   Journal: Unknown"; "   Year: Unknown"; "";
              "3. c"; "   Authors: Unknown"; "   Journal: Unknown"; "   Year: Unknown"; "";
              "4. d"; "   Authors: Unknown"; "   Journal: Unknown"; "   Year: Unknown"; "";
              "5. e"; "   Authors: Unknown"; "   Journal: Unknown"; "   Year: Unknown"; "";
              "6. f"; "   Authors: Unknown"; "   Journal: Unknown"; "   Year: Unknown"; "";
              "7. g"; "   Authors: Unknown"; "   Journal: Unknown"; "   Year: Unknown"; "";
              "8. h"; "   Authors: Unknown"; "   Journal: Unknown"; "   Year: Unknown"; "";
              "9. i"; "   Authors: Unknown"; "   Journal: Unknown"; "   Year: Unknown"; "";
              "10. j"; "   Authors: Unknown"; "   Journal: Unknown"; "   Year: Unknown"; "";
              "... and 2 more results"])],
     World ∅ [(TmpFile, "/tmp/tmp0.jsonl")]
       [CallPubmed (VList [VList [VStr "cancer"]]) "/tmp/tmp0.jsonl" (VInt 5)] 1).
Proof. vm_compute. reflexivity. Qed.

(** A missing argument raises in the handler and comes back as text. *)
Example search_pubmed_without_query :
  Stub.call_tool "search_pubmed" ∅ =
    (Ok [mkTextContent "text" "Error: 'query'"], Stub.start).
Proof. vm_compute. reflexivity. Qed.

(** ** Journal impact *)

(** C6 fails for a bound of zero: [max_impact] is among the
    arguments, with the value [0], and the impact collaborator is
    asked with [threshold] and [min_impact] only. *)
Theorem search_journal_impact_drops_zero_max_impact :
  let arguments : gmap string value :=
    {[ "journal_name" := VStr "Nature"; "max_impact" := VInt 0 ]} in
  arguments !! "max_impact" = Some (VInt 0) /\
  exists search_args,
    w_log (snd (Stub.call_tool "search_journal_impact" arguments)) =
      [CallImpactor; CallImpactorSearch (VStr "Nature") search_args] /\
    search_args !! "threshold" = Some (VInt 85) /\
    search_args !! "min_impact" = Some (VInt 0) /\
    search_args !! "max_impact" = None.
Proof.
  intros arguments. split; [reflexivity |].
  eexists. split; [vm_compute; reflexivity |].
  repeat split; vm_compute; reflexivity.
Qed.

(** A positive bound is passed on. *)
Example search_journal_impact_keeps_positive_max_impact :
  impact_search_args (VInt 85) (VInt 0) (VInt 10) !! "max_impact" = Some (VInt 10).
Proof. reflexivity. Qed.

(** ** Downloads *)

(** The directory handed out for the download is gone when the answer
    comes back, with the file that was saved in it. *)
Example download_paper_pdf_run :
  let out := Stub.call_tool "download_paper_pdf" {[ "doi" := VStr "10.1/x" ]} in
  fst out =
    Ok [mkTextContent "text"
          (unlines ["Successfully downloaded PDF for DOI: 10.1/x";
                    "File size: 4 bytes"]
           +:+ "Saved to temporary location: /tmp/tmp0/10.1_x.pdf")] /\
  w_created (snd out) = [(TmpDir, "/tmp/tmp0")] /\
  w_fs (snd out) = ∅.
Proof. vm_compute. repeat split; reflexivity. Qed.

(** C3 fails for [download_paper_pdf] when the [filename] leads out
    of the temporary directory, as an absolute path or through [..]:
    [os.path.join] hands [save_pdf] a path that is not below the
    directory, the answer calls it a temporary location, and when the
    answer comes back the directory is gone and the file is still
    there, in a file system that was empty before the call. *)
Theorem download_paper_pdf_leaves_pdf_behind :
  let absolute :=
    Stub.call_tool "download_paper_pdf"
      {[ "doi" := VStr "10.1/x"; "filename" := VStr "/home/user/paper.pdf" ]} in
  let upwards :=
    Stub.call_tool "download_paper_pdf"
      {[ "doi" := VStr "10.1/x"; "filename" := VStr "../paper.pdf" ]} in
  map_to_list (w_fs Stub.start) = [] /\
  (fst absolute =
     Ok [mkTextContent "text"
           (unlines ["Successfully downloaded PDF for DOI: 10.1/x";
                     "File size: 4 bytes"]
            +:+ "Saved to temporary location: /home/user/paper.pdf")] /\
   w_created (snd absolute) = [(TmpDir, "/tmp/tmp0")] /\
   map_to_list (w_fs (snd absolute)) = [("/home/user/paper.pdf", File "%PDF")]) /\
  (fst upwards =
     Ok [mkTextContent "text"
           (unlines ["Successfully downloaded PDF for DOI: 10.1/x";
                     "File size: 4 bytes"]
            +:+ "Saved to temporary location: /tmp/tmp0/../paper.pdf")] /\
   w_created (snd upwards) = [(TmpDir, "/tmp/tmp0")] /\
   map_to_list (w_fs (snd upwards)) = [("/tmp/tmp0/../paper.pdf", File "%PDF")]).
Proof. vm_compute. repeat split; reflexivity. Qed.

Example format_thousands_groups :
  format_thousands 1234567 = "1,234,567" /\ format_thousands 999 = "999" /\
  format_thousands 1000 = "1,000" /\ format_thousands 0 = "0".
Proof. vm_compute. repeat split; reflexivity. Qed.
End Scenarios.


(** * Paths *)

(** [s.replace(a, b)] leaves no [a] behind. *)
Lemma replace_char_removes (a b : ascii) (s : string) :
  a <> b -> a ∉ chars (replace_char a b s).
Proof.
  intros Hne. unfold chars.
  induction s as [|c s IH]; simpl; [apply not_elem_of_nil |].
  apply not_elem_of_cons. split; [| exact IH].
  destruct (Ascii.eqb_spec c a) as [-> | Hca]; congruence.
Qed.

Lemma chars_app (s t : string) : chars (s +:+ t) = chars s ++ chars t.
Proof.
  unfold chars. induction s as [|c s IH]; [reflexivity |].
  rewrite string_app_cons. simpl. now rewrite IH.
Qed.

Lemma prefix_slash_chars (s : string) :
  "/"%char ∉ chars s -> String.prefix "/" s = false.
Proof.
  destruct s as [|c s]; [reflexivity |]. unfold chars. intros Hnot.
  change (String.prefix "/" (String c s))
    with (if ascii_dec "/" c then String.prefix "" s else false).
  destruct (ascii_dec "/" c) as [<- | Hne]; [| reflexivity].
  exfalso. apply Hnot. apply list_elem_of_here.
Qed.

(** The default file name of a download holds no path separator. *)
Lemma default_filename_flat (doi : string) :
  "/"%char ∉ chars (replace_char "/" "_" doi +:+ ".pdf").
Proof.
  rewrite chars_app. intros Hin. apply elem_of_app in Hin as [Hin | Hin].
  - now apply (replace_char_removes "/" "_" doi).
  - vm_compute in Hin.
    repeat (apply elem_of_cons in Hin as [Heq | Hin]; [discriminate Heq |]).
    inversion Hin.
Qed.


Lemma inside_refl (d : string) : inside d d = true.
Proof.
  unfold inside. rewrite Bool.eqb_reflx, firstn_all.
  now rewrite bool_decide_eq_true_2.
Qed.

Lemma split_on_cons (sep : ascii) (s : string) :
  exists first others, split_on sep s = first :: others.
Proof.
  induction s as [|c s (first & others & IH)]; simpl; [eauto |].
  destruct (Ascii.eqb c sep); [eauto |]. rewrite IH. eauto.
Qed.

(** A name without separator, put behind a path and a separator, is
    one more name of the path. *)
Lemma split_on_snoc (sep : ascii) (s name : string) :
  sep ∉ chars name ->
  split_on sep (s +:+ String sep name) = split_on sep s ++ [name].
Proof.
  intros Hname.
  assert (split_on sep name = [name]) as Hflat.
  { clear s. induction name as [|c name IH]; [reflexivity |].
    unfold chars in Hname. simpl in Hname.
    apply not_elem_of_cons in Hname as [Hc Hname].
    simpl. destruct (Ascii.eqb_spec c sep) as [-> | _]; [congruence |].
    now rewrite (IH Hname). }
  induction s as [|c s IH].
  - change ("" +:+ String sep name) with (String sep name). simpl.
    now rewrite Ascii.eqb_refl, Hflat.
  - rewrite string_app_cons. simpl. rewrite IH.
    destruct (Ascii.eqb c sep); [reflexivity |].
    now destruct (split_on_cons sep s) as (first & others & ->).
Qed.

Lemma ends_with_snoc (c : ascii) (s : string) :
  ends_with c s = true -> exists s', s = s' +:+ String c "".
Proof.
  unfold ends_with.
  induction s as [|x s IH]; [discriminate |].
  destruct s as [|y s].
  - simpl. destruct (Ascii.eqb_spec c x) as [-> | _]; [| discriminate].
    intros _. now exists "".
  - change (last (list_ascii_of_string (String x (String y s))))
      with (last (list_ascii_of_string (String y s))).
    intros Hlast. destruct (IH Hlast) as [s' ->].
    exists (String x s'). now rewrite string_app_cons.
Qed.

Lemma prefix_slash_app (s t : string) :
  s <> "" -> String.prefix "/" (s +:+ t) = String.prefix "/" s.
Proof.
  destruct s as [|c s]; [congruence |]. intros _. rewrite string_app_cons.
  change (String.prefix "/" (String c (s +:+ t)))
    with (if ascii_dec "/" c then String.prefix "" (s +:+ t) else false).
  change (String.prefix "/" (String c s))
    with (if ascii_dec "/" c then String.prefix "" s else false).
  destruct (ascii_dec "/" c); [| reflexivity].
  transitivity true; [now destruct (s +:+ t) | now destruct s].
Qed.

Lemma prefix_slash_snoc (s t t' : string) :
  String.prefix "/" (s +:+ String "/" t) = String.prefix "/" (s +:+ String "/" t').
Proof.
  destruct s as [|c s].
  - change ("" +:+ String "/" t) with (String "/" t).
    change ("" +:+ String "/" t') with (String "/" t').
    change (String.prefix "/" (String "/" t))
      with (if ascii_dec "/" "/" then String.prefix "" t else false).
    change (String.prefix "/" (String "/" t'))
      with (if ascii_dec "/" "/" then String.prefix "" t' else false).
    destruct (ascii_dec "/" "/"); [| reflexivity].
    transitivity true; [now destruct t | now destruct t'].
  - now rewrite !prefix_slash_app by discriminate.
Qed.

(** A name that is a name of its own, and not one of the three that
    stand for a place: it is one step down. *)
Lemma resolve_step_name (absolute : bool) (names : list string) (name : string) :
  (2 < String.length name)%nat ->
  resolve_step absolute names name = name :: names.
Proof.
  intros Hlen. unfold resolve_step.
  destruct (String.eqb_spec name "") as [-> | _]; [simpl in Hlen; lia |].
  destruct (String.eqb_spec name ".") as [-> | _]; [simpl in Hlen; lia |].
  destruct (String.eqb_spec name "..") as [-> | _]; [simpl in Hlen; lia |].
  reflexivity.
Qed.

Lemma length_chars (s : string) : length (chars s) = String.length s.
Proof. unfold chars. induction s as [|c s IH]; simpl; congruence. Qed.

Lemma default_filename_long (doi : string) :
  (2 < String.length (replace_char "/" "_" doi +:+ ".pdf"))%nat.
Proof.
  rewrite <- length_chars, chars_app, length_app. simpl. lia.
Qed.

(** [os.path.join(d, name)] for such a name without separator names
    the file [name] in the directory [d]. *)
Lemma resolve_join (d name : string) :
  "/"%char ∉ chars name ->
  (2 < String.length name)%nat ->
  resolve (if String.eqb d "" || ends_with "/" d
           then d +:+ name else d +:+ "/" +:+ name) =
    (fst (resolve d), snd (resolve d) ++ [name]).
Proof.
  intros Hflat Hlen.
  assert (forall s, s <> "" ->
            resolve (s +:+ String "/" name) =
              (fst (resolve s), snd (resolve s) ++ [name])) as Hbelow.
  { intros s Hs. unfold resolve. cbn [fst snd].
    rewrite prefix_slash_app by exact Hs.
    rewrite split_on_snoc by exact Hflat.
    rewrite fold_left_app. cbn [fold_left].
    now rewrite resolve_step_name by exact Hlen. }
  destruct (String.eqb_spec d "") as [-> | Hd]; cbn [orb].
  - change ("" +:+ name) with name. unfold resolve.
    rewrite (prefix_slash_chars name Hflat). cbn [fst snd].
    assert (split_on "/" name = [name]) as ->.
    { pose proof (split_on_snoc "/" "" name Hflat) as Hsplit.
      change ("" +:+ String "/" name) with (String "/" name) in Hsplit.
      simpl in Hsplit. now injection Hsplit as ->. }
    cbn [fold_left]. now rewrite resolve_step_name by exact Hlen.
  - destruct (ends_with "/" d) eqn:Hend; [| now apply Hbelow].
    apply ends_with_snoc in Hend as [s ->].
    rewrite string_app_assoc. change (String "/" "" +:+ name) with (String "/" name).
    unfold resolve. cbn [fst snd].
    assert ("/"%char ∉ chars "") as Hempty by (unfold chars; apply not_elem_of_nil).
    rewrite (split_on_snoc "/" s name Hflat), (split_on_snoc "/" s "" Hempty).
    rewrite !fold_left_app. cbn [fold_left].
    rewrite resolve_step_name by exact Hlen.
    change (resolve_step ?a ?names "") with names. cbn [rev].
    now rewrite (prefix_slash_snoc s name "").
Qed.

Lemma inside_join (d name : string) :
  "/"%char ∉ chars name ->
  (2 < String.length name)%nat ->
  inside d (if String.eqb d "" || ends_with "/" d
            then d +:+ name else d +:+ "/" +:+ name) = true.
Proof.
  intros Hflat Hlen. unfold inside. rewrite (resolve_join d name Hflat Hlen).
  cbn [fst snd]. rewrite Bool.eqb_reflx, take_app_length.
  now rewrite bool_decide_eq_true_2.
Qed.


(** * Further properties of the handlers *)

Section Required.
Context {env : Type} `{Builtins} `{Collaborators env}.

Implicit Types (w : @world env) (arguments : gmap string value).

(** A call that lacks an argument its descriptor lists as required is
    answered with the key in quotes, the text of Python's [KeyError],
    before anything else happens: no temporary file is created and no
    collaborator is invoked. *)
Theorem required_argument_missing tool key arguments w :
  tool ∈ handle_list_tools ->
  key ∈ required_keys tool ->
  arguments !! key = None ->
  handle_call_tool (name tool) arguments w =
    (Ok [mkTextContent "text" ("Error: '" +:+ key +:+ "'")], w).
Proof.
  intros Htool Hkey Hmissing. unfold handle_list_tools in Htool.
  repeat (apply elem_of_cons in Htool as [-> | Htool]);
    [ .. | inversion Htool ];
    vm_compute in Hkey;
    repeat (apply elem_of_cons in Hkey as [-> | Hkey]);
    try (inversion Hkey; fail);
    unfold handle_call_tool, try_except, dispatch; cbn [name String.eqb Ascii.eqb Bool.eqb];
    cbv delta [search_pubmed search_arxiv search_scholar search_preprint_servers
                 search_journal_impact download_paper_pdf getitem] beta;
    rewrite Hmissing; reflexivity.
Qed.
End Required.

Section Soft.
Context {env : Type} `{Builtins} `{Collaborators env}.

Implicit Types (w : @world env) (arguments : gmap string value).

(** With a truthy [doi], [get_citations] asks the DOI collaborator and
    nothing else, whether or not a title is given too; it answers
    with the count, or with the collaborator's failure as text. *)
Theorem get_citations_prefers_doi arguments doi w :
  arguments !! "doi" = Some doi ->
  truthy doi = true ->
  w_log (snd (get_citations arguments w)) = w_log w ++ [CallCitationsByDoi doi] /\
  fst (get_citations arguments w) =
    Ok [mkTextContent "text"
          match fst (get_citations_by_doi doi (w_fs w) (w_env w)) with
          | Ok citations =>
              "Citations for DOI " +:+ py_str doi +:+ ": " +:+ py_str citations
          | Raise e => "Error retrieving citations: " +:+ exn_str e
          end].
Proof.
  intros Hdoi Htruthy. unfold get_citations, dict_get. rewrite Hdoi. simpl.
  rewrite Htruthy. unfold try_except, bind, call_fn.
  destruct (get_citations_by_doi doi (w_fs w) (w_env w)) as [[citations|e] en];
    split; reflexivity.
Qed.

(** The title is used when the DOI is absent or falsy ([None], the
    empty string, zero) and the title is truthy. *)
Theorem get_citations_falls_back_to_title arguments title w :
  truthy (dict_get arguments "doi" VNone) = false ->
  arguments !! "title" = Some title ->
  truthy title = true ->
  w_log (snd (get_citations arguments w)) = w_log w ++ [CallCitationsFromTitle title] /\
  fst (get_citations arguments w) =
    Ok [mkTextContent "text"
          match fst (get_citations_from_title title (w_fs w) (w_env w)) with
          | Ok citations =>
              "Citations for '" +:+ py_str title +:+ "': " +:+ py_str citations
          | Raise e => "Error retrieving citations: " +:+ exn_str e
          end].
Proof.
  intros Hdoi Htitle Htruthy.
  assert (dict_get arguments "title" VNone = title) as Hget
    by (unfold dict_get; now rewrite Htitle).
  unfold get_citations. rewrite Hdoi, Hget, Htruthy.
  unfold try_except, bind, call_fn.
  destruct (get_citations_from_title title (w_fs w) (w_env w)) as [[citations|e] en];
    split; reflexivity.
Qed.

Lemma try_except_returns {A} (body : M (@world env) A) (handler : exn -> A) w :
  exists a, fst (try_except body (fun e => ret (handler e)) w) = Ok a.
Proof.
  unfold try_except. destruct (body w) as [[a|e] w1]; simpl; eauto.
Qed.

(** Three handlers contain every failure themselves: [get_citations]
    always returns; [search_journal_impact] returns whenever
    [journal_name] is given; [download_paper_pdf] returns whenever
    [doi] is a string.  Nothing a collaborator raises inside them
    reaches the dispatcher. *)
Theorem soft_failure_handlers_return arguments w :
  (exists blocks, fst (get_citations arguments w) = Ok blocks) /\
  (forall journal_name,
     arguments !! "journal_name" = Some journal_name ->
     exists blocks, fst (search_journal_impact arguments w) = Ok blocks) /\
  (forall doi,
     arguments !! "doi" = Some (VStr doi) ->
     exists blocks, fst (download_paper_pdf arguments w) = Ok blocks).
Proof.
  split; [| split].
  - unfold get_citations. apply try_except_returns.
  - intros journal_name Hname. unfold search_journal_impact, getitem.
    rewrite Hname, bind_ret_l. apply try_except_returns.
  - intros doi Hdoi. unfold download_paper_pdf, getitem.
    rewrite Hdoi, !bind_ret_l. apply try_except_returns.
Qed.
End Soft.

Section Refresh.
Context {env : Type} `{Builtins} `{Collaborators env}.

Implicit Types (w : @world env) (arguments : gmap string value).

(** [update_preprint_dumps] goes through the whole list whatever
    fails on the way: it always answers, and it has invoked the
    refresh collaborator once for every requested entry that names
    one of the three servers, in the order requested, each time with
    both dates if one of them is truthy and with no argument
    otherwise. *)
Theorem update_preprint_dumps_refreshes_each arguments items w :
  py_iter (dict_get arguments "servers" default_servers) = Ok items ->
  (exists blocks, fst (update_preprint_dumps arguments w) = Ok blocks) /\
  w_log (snd (update_preprint_dumps arguments w)) =
    w_log w ++
    map (fun s => CallGetDump s
                    (refresh_dates (dict_get arguments "start_date" VNone)
                                   (dict_get arguments "end_date" VNone)))
      (omap refresh_target items).
Proof.
  intros Hiter. unfold update_preprint_dumps. rewrite Hiter, bind_lift_ok.
  unfold bind.
  destruct (update_loop_trace (dict_get arguments "start_date" VNone)
              (dict_get arguments "end_date" VNone) items
              ("Updating preprint server dumps..." +:+ nl +:+ nl) w)
    as [[response Hok] Hlog].
  destruct (foldM _ items _ w) as [r w1]. simpl in Hok, Hlog. subst r.
  simpl. split; [eauto | exact Hlog].
Qed.

(** A [servers] argument that cannot be iterated ends the call before
    any collaborator is invoked; the dispatcher reports Python's
    [TypeError]. *)
Theorem update_preprint_dumps_not_iterable arguments e w :
  py_iter (dict_get arguments "servers" default_servers) = Raise e ->
  handle_call_tool "update_preprint_dumps" arguments w =
    (Ok [mkTextContent "text" ("Error: " +:+ exn_str e)], w).
Proof.
  intros Hiter. unfold handle_call_tool, try_except.
  change (dispatch "update_preprint_dumps" arguments)
    with (update_preprint_dumps arguments).
  unfold update_preprint_dumps. now rewrite Hiter.
Qed.
End Refresh.

Section Searches.
Context {env : Type} `{Builtins} `{Collaborators env}.

Implicit Types (w : @world env) (arguments : gmap string value).

(** What a staged search has asked, precisely: nothing if no
    temporary file could be made, and one invocation otherwise. *)
Lemma staged_search_trace {A} (suffix : string) (c : string -> call)
    (f : string -> dumper env) (k : list (gmap string value) -> A) w :
  let w' :=
    snd ((temp_file <- NamedTemporaryFile suffix ;;
          try_finally
            (call_dumper (c temp_file) (f temp_file) temp_file ;;
             results <- load_jsonl temp_file ;;
             ret (k results))
            (there <- os_path_exists temp_file ;;
             if there : bool then os_unlink temp_file else ret tt)) w) in
  w_log w' = w_log w \/ exists path, w_log w' = w_log w ++ [c path].
Proof.
  destruct (staged_search suffix c f k w)
    as [_ [(_ & Hlog & _) | (path & _ & _ & Hlog & _)]]; eauto.
Qed.

(** [search_pubmed] and [search_arxiv] invoke their collaborator at
    most once, with the query and with [max_results] as given, 100
    when it is absent. *)
Theorem search_pubmed_arxiv_pass_max_results arguments w :
  (w_log (snd (search_pubmed arguments w)) = w_log w \/
   exists query path,
     arguments !! "query" = Some query /\
     w_log (snd (search_pubmed arguments w)) =
       w_log w ++ [CallPubmed query path (dict_get arguments "max_results" (VInt 100))])
  /\
  (w_log (snd (search_arxiv arguments w)) = w_log w \/
   exists query path,
     arguments !! "query" = Some query /\
     w_log (snd (search_arxiv arguments w)) =
       w_log w ++ [CallArxiv query path (dict_get arguments "max_results" (VInt 100))]).
Proof.
  split.
  - unfold search_pubmed, getitem.
    destruct (arguments !! "query") as [query|]; [| now left].
    rewrite bind_ret_l.
    destruct (staged_search_trace ".jsonl"
                (fun p => CallPubmed query p (dict_get arguments "max_results" (VInt 100)))
                (fun p => get_and_dump_pubmed_papers query p
                            (dict_get arguments "max_results" (VInt 100)))
                (fun results => text_block (pubmed_response results)) w)
      as [Hlog | [path Hlog]]; [now left | right; eauto].
  - unfold search_arxiv, getitem.
    destruct (arguments !! "query") as [query|]; [| now left].
    rewrite bind_ret_l.
    destruct (staged_search_trace ".jsonl"
                (fun p => CallArxiv query p (dict_get arguments "max_results" (VInt 100)))
                (fun p => get_and_dump_arxiv_papers query p
                            (dict_get arguments "max_results" (VInt 100)))
                (fun results => text_block (arxiv_response results)) w)
      as [Hlog | [path Hlog]]; [now left | right; eauto].
Qed.

(** A failure of the PubMed collaborator is not contained by
    [search_pubmed]: it leaves the handler, the temporary file is
    unlinked on the way, and the dispatcher reports the failure under
    its own prefix. *)
Theorem search_pubmed_collaborator_failure arguments query path w w1 eff e en :
  arguments !! "query" = Some query ->
  NamedTemporaryFile ".jsonl" w = (Ok path, w1) ->
  get_and_dump_pubmed_papers query path (dict_get arguments "max_results" (VInt 100))
    (w_fs w1) (w_env w1) = (eff, Some e, en) ->
  fst (search_pubmed arguments w) = Raise e /\
  fst (handle_call_tool "search_pubmed" arguments w) =
    Ok [mkTextContent "text" ("Error: " +:+ exn_str e)] /\
  w_fs (snd (handle_call_tool "search_pubmed" arguments w)) = w_fs w.
Proof.
  intros Hquery Hmk Hfail.
  assert (fst (search_pubmed arguments w) = Raise e) as Hraise.
  { unfold search_pubmed, getitem. rewrite Hquery, bind_ret_l.
    rewrite (bind_ok _ _ _ _ _ Hmk). unfold try_finally.
    pose proof (mktemp_spec TmpFile ".jsonl" TMP_MAX w) as Hspec.
    unfold NamedTemporaryFile in Hmk. rewrite Hmk in Hspec.
    destruct Hspec as (_ & Hfs & _).
    assert (w_fs w1 !! path = Some (File "")) as Hnode
      by (rewrite Hfs; apply lookup_insert_eq).
    unfold bind at 1, call_dumper. rewrite Hfail.
    destruct (apply_effect_file path eff (w_fs w1) "" Hnode) as [Hafter _].
    rewrite unlink_if_exists by exact Hafter. reflexivity. }
  split; [exact Hraise |]. split.
  - unfold handle_call_tool, try_except.
    change (dispatch "search_pubmed" arguments) with (search_pubmed arguments).
    destruct (search_pubmed arguments w) as [r w2]. simpl in Hraise. now subst r.
  - unfold handle_call_tool, try_except.
    change (dispatch "search_pubmed" arguments) with (search_pubmed arguments).
    pose proof (search_pubmed_restored arguments w) as [Hfs _].
    destruct (search_pubmed arguments w) as [[blocks|e'] w2]; exact Hfs.
Qed.
End Searches.

Section Downloads.
Context {env : Type} `{Builtins} `{Collaborators env}.

Implicit Types (w : @world env) (arguments : gmap string value).

Lemma mktemp_extends (P : call -> Prop) kind suffix tries :
  keeps (env := env) (extends P) (mktemp kind suffix tries).
Proof.
  intros w. pose proof (mktemp_spec kind suffix tries w) as Hspec.
  destruct (mktemp kind suffix tries w) as [[path|e] w1]; simpl;
    exists []; (split; [| constructor]); rewrite app_nil_r; tauto.
Qed.

Lemma call_save_pdf_extends (P : call -> Prop) paper_data filepath :
  P (CallSavePdf paper_data filepath) ->
  keeps (env := env) (extends P) (call_save_pdf paper_data filepath).
Proof.
  intros HP w. unfold call_save_pdf.
  destruct (save_pdf paper_data filepath (w_fs w) (w_env w)) as [[eff r] e].
  exists [CallSavePdf paper_data filepath]. split; [reflexivity | now constructor].
Qed.

Lemma same_world_extends {A} (P : call -> Prop) (m : M (@world env) A) :
  (forall w, snd (m w) = w) -> keeps (extends P) m.
Proof. intros Hsame w. rewrite Hsame. reflexivity. Qed.

Lemma rmtree_extends (P : call -> Prop) d : keeps (env := env) (extends P) (rmtree d).
Proof. intros w. exists []. split; [now rewrite app_nil_r | constructor]. Qed.

(** The part of [download_paper_pdf] that runs inside the [with]
    block, once the path is known. *)
Lemma download_body_extends (P : call -> Prop) paper_data filepath doi :
  P (CallSavePdf paper_data filepath) ->
  keeps (env := env) (extends P)
    (success <- call_save_pdf paper_data filepath ;;
     downloaded <-
       (if truthy success then os_path_exists filepath else ret false) ;;
     if downloaded : bool then
       file_size <- os_path_getsize filepath ;;
       let response :=
         "Successfully downloaded PDF for DOI: " +:+ py_str doi +:+ nl in
       let response := response +:+
         ("File size: " +:+ format_thousands file_size +:+ " bytes" +:+ nl) in
       let response := response +:+
         ("Saved to temporary location: " +:+ filepath) in
       ret response
     else
       ret ("Failed to download PDF for DOI: " +:+ py_str doi)).
Proof.
  intros HP.
  apply keeps_bind; [apply _ | now apply call_save_pdf_extends | intros success].
  apply keeps_bind; [apply _ | | intros downloaded].
  { destruct (truthy success); [| apply keeps_ret; apply _].
    apply same_world_extends. apply os_path_exists_same. }
  destruct downloaded; [| apply keeps_ret; apply _].
  apply keeps_bind; [apply _ | | intros file_size; apply keeps_ret; apply _].
  apply same_world_extends. apply os_path_getsize_same.
Qed.

Lemma snd_bind_ret {A B} (m : M (@world env) A) (f : A -> B) w :
  snd ((x <- m ;; ret (f x)) w) = snd (m w).
Proof. unfold bind. now destruct (m w) as [[a|e] w1]. Qed.

Lemma snd_try_except_ret {A} (m : M (@world env) A) (handler : exn -> A) w :
  snd (try_except m (fun e => ret (handler e)) w) = snd (m w).
Proof. unfold try_except. now destruct (m w) as [[a|e] w1]. Qed.

Lemma snd_try_finally {A} (body : M (@world env) A) (final : M (@world env) unit) w :
  snd (try_finally body final w) = snd (final (snd (body w))).
Proof.
  unfold try_finally. destruct (body w) as [r w1]. simpl.
  now destruct (final w1) as [[u|e] w2].
Qed.

(** Once the collaborator has been asked, the rest of the [with]
    block only looks at the file system. *)
Lemma download_body_world paper_data filepath doi w :
  snd ((success <- call_save_pdf paper_data filepath ;;
        downloaded <-
          (if truthy success then os_path_exists filepath else ret false) ;;
        if downloaded : bool then
          file_size <- os_path_getsize filepath ;;
          let response :=
            "Successfully downloaded PDF for DOI: " +:+ py_str doi +:+ nl in
          let response := response +:+
            ("File size: " +:+ format_thousands file_size +:+ " bytes" +:+ nl) in
          let response := response +:+
            ("Saved to temporary location: " +:+ filepath) in
          ret response
        else
          ret ("Failed to download PDF for DOI: " +:+ py_str doi)) w) =
  snd (call_save_pdf paper_data filepath w).
Proof.
  unfold bind at 1. destruct (call_save_pdf paper_data filepath w) as [[success|e] w1];
    [| reflexivity].
  unfold bind at 1.
  assert (snd ((if truthy success then os_path_exists filepath else ret false) w1) = w1)
    as Hsame by (destruct (truthy success); reflexivity).
  destruct ((if truthy success then os_path_exists filepath else ret false) w1)
    as [[downloaded|e] w2]; simpl in Hsame; subst w2; [| reflexivity].
  destruct downloaded; [| reflexivity].
  rewrite snd_bind_ret. apply os_path_getsize_same.
Qed.

(** Without a [filename], the PDF is saved in the directory that
    [tempfile] has just created, under the DOI with every [/]
    replaced by [_] and [.pdf] appended.  This name holds no [/]:
    the path names a file directly in that directory, the
    collaborator is asked once, for this path and for a paper that
    holds the DOI alone, and the path names nothing when the call has
    returned. *)
Theorem download_paper_pdf_default_path arguments doi w d w1 :
  arguments !! "doi" = Some (VStr doi) ->
  arguments !! "filename" = None ->
  mktemp TmpDir "" TMP_MAX w = (Ok d, w1) ->
  let filename := replace_char "/" "_" doi +:+ ".pdf" in
  let filepath :=
    if String.eqb d "" || ends_with "/" d
    then d +:+ filename else d +:+ "/" +:+ filename in
  ("/"%char ∉ chars filename) /\
  w_log (snd (download_paper_pdf arguments w)) =
    w_log w ++ [CallSavePdf {[ "doi" := VStr doi ]} filepath] /\
  resolve filepath = (fst (resolve d), snd (resolve d) ++ [filename]) /\
  inside d filepath = true /\
  w_fs (snd (download_paper_pdf arguments w)) !! filepath = None.
Proof.
  intros Hdoi Hname Hmk filename filepath.
  pose proof (default_filename_flat doi) as Hflat.
  pose proof (default_filename_long doi) as Hlong.
  pose proof (inside_join d filename Hflat Hlong) as Hinside.
  fold filepath in Hinside.
  split; [exact Hflat |].
  split; [| split; [apply (resolve_join d filename Hflat Hlong) |
                    split; [exact Hinside |]]].
  all: pose proof (mktemp_spec TmpDir "" TMP_MAX w) as Hspec; rewrite Hmk in Hspec;
    destruct Hspec as (_ & _ & _ & Hlog1);
    unfold download_paper_pdf, getitem; rewrite Hdoi, !bind_ret_l;
    unfold dict_get at 1; rewrite Hname; cbn [default];
    rewrite snd_try_except_ret, snd_bind_ret; unfold with_TemporaryDirectory;
    rewrite (bind_ok _ _ _ _ _ Hmk), snd_try_finally;
    unfold os_path_join; fold filename;
    rewrite (prefix_slash_chars filename Hflat); fold filepath;
    rewrite bind_lift_ok, download_body_world;
    unfold call_save_pdf;
    destruct (save_pdf {[ "doi" := VStr doi ]} filepath (w_fs w1) (w_env w1))
      as [[eff r] en]; cbn [snd rmtree w_log w_fs set_fs set_env add_call].
  - now rewrite Hlog1.
  - apply map_lookup_filter_None. right. intros n _. cbn [fst]. congruence.
Qed.

(** A [filename] that starts with [/] replaces the temporary
    directory altogether: the collaborator is asked to write to that
    very path, and what it writes there is still there when the call
    has returned and the directory is gone. *)
Theorem download_paper_pdf_absolute_filename arguments doi path w d w1 data r en :
  arguments !! "doi" = Some (VStr doi) ->
  arguments !! "filename" = Some (VStr path) ->
  String.prefix "/" path = true ->
  mktemp TmpDir "" TMP_MAX w = (Ok d, w1) ->
  inside d path = false ->
  save_pdf {[ "doi" := VStr doi ]} path (w_fs w1) (w_env w1) = (Put data, r, en) ->
  w_log (snd (download_paper_pdf arguments w)) =
    w_log w ++ [CallSavePdf {[ "doi" := VStr doi ]} path] /\
  w_fs (snd (download_paper_pdf arguments w)) !! path = Some (File data) /\
  w_fs (snd (download_paper_pdf arguments w)) !! d = None.
Proof.
  intros Hdoi Hname Habs Hmk Hout Hsave.
  pose proof (mktemp_spec TmpDir "" TMP_MAX w) as Hspec. rewrite Hmk in Hspec.
  destruct Hspec as (_ & _ & _ & Hlog1).
  assert (forall dflt, dict_get arguments "filename" dflt = VStr path) as Hget
    by (intros dflt; unfold dict_get; now rewrite Hname).
  unfold download_paper_pdf, getitem. rewrite Hdoi, !bind_ret_l, Hget.
  rewrite snd_try_except_ret, snd_bind_ret. unfold with_TemporaryDirectory.
  rewrite (bind_ok _ _ _ _ _ Hmk), snd_try_finally.
  unfold os_path_join. rewrite Habs, bind_lift_ok, download_body_world.
  unfold call_save_pdf. rewrite Hsave. simpl. repeat split.
  - now rewrite Hlog1.
  - apply map_lookup_filter_Some. split; [apply lookup_insert_eq | exact Hout].
  - apply map_lookup_filter_None. right. intros n _. simpl.
    rewrite inside_refl. discriminate.
Qed.
End Downloads.

Section Options.
Context {env : Type} `{Builtins} `{Collaborators env}.

Implicit Types (w : @world env) (arguments : gmap string value).

(** Whenever [search_journal_impact] asks the impact collaborator,
    it passes the journal name and options that hold [threshold]
    (85 if absent) and [min_impact] (0 if absent), hold [max_impact]
    exactly when its value is truthy, and hold nothing else. *)
Theorem search_journal_impact_options arguments w :
  exists calls,
    w_log (snd (search_journal_impact arguments w)) = w_log w ++ calls /\
    forall journal_name search_args,
      CallImpactorSearch journal_name search_args ∈ calls ->
      arguments !! "journal_name" = Some journal_name /\
      search_args !! "threshold" = Some (dict_get arguments "threshold" (VInt 85)) /\
      search_args !! "min_impact" = Some (dict_get arguments "min_impact" (VInt 0)) /\
      search_args !! "max_impact" =
        (if truthy (dict_get arguments "max_impact" VNone)
         then arguments !! "max_impact" else None) /\
      forall key, is_Some (search_args !! key) ->
                  key ∈ ["threshold"; "min_impact"; "max_impact"].
Proof.
  destruct (search_journal_impact_calls arguments w) as (calls & Hlog & Hcalls).
  exists calls. split; [exact Hlog |].
  intros journal_name search_args Hin. rewrite Forall_forall in Hcalls.
  destruct (Hcalls _ Hin) as [Hinit | (j & Hname & Hcall)]; [discriminate Hinit |].
  injection Hcall as -> ->. split; [exact Hname |].
  rewrite impact_search_args_threshold, impact_search_args_min_impact,
    impact_search_args_max_impact.
  repeat split.
  - unfold dict_get.
    destruct (arguments !! "max_impact") as [m|]; simpl;
      [now destruct (truthy m) | reflexivity].
  - intros key [v Hv]. unfold impact_search_args in Hv.
    destruct (decide (key = "threshold")) as [-> | Ht];
      [apply list_elem_of_here |].
    destruct (decide (key = "min_impact")) as [-> | Hm];
      [apply list_elem_of_further, list_elem_of_here |].
    destruct (decide (key = "max_impact")) as [-> | Hx];
      [do 2 apply list_elem_of_further; apply list_elem_of_here |].
    destruct (truthy (dict_get arguments "max_impact" VNone));
      rewrite ?lookup_insert_ne, lookup_empty in Hv by congruence;
      discriminate Hv.
Qed.
End Options.

Section Catalogue.
Context {env : Type} `{Builtins} `{Collaborators env}.

Implicit Types (w : @world env) (arguments : gmap string value).

Lemma update_loop_appends start_date end_date items :
  forall response w, exists rest,
    fst (foldM (update_step start_date end_date) items response w) =
      Ok (response +:+ rest).
Proof.
  induction items as [|x items IH]; intros response w; simpl.
  - exists "". now rewrite string_app_nil_r.
  - unfold bind.
    destruct (update_step_appends start_date end_date response x w) as [line Hline].
    destruct (update_step start_date end_date response x w) as [r w1].
    simpl in Hline. subst r.
    destruct (IH (response +:+ line) w1) as [rest Hrest].
    exists (line +:+ rest). now rewrite Hrest, string_app_assoc.
Qed.

(** The catalogue and the dispatcher agree, though they are written
    apart: the names the catalogue lists are all different, and a
    name is listed exactly when a call of that name reaches a handler
    instead of being answered as an unknown tool. *)
Theorem advertised_iff_dispatched tool_name w :
  NoDup (map name handle_list_tools) /\
  (tool_name ∈ map name handle_list_tools <->
   fst (handle_call_tool tool_name ∅ w) <>
     Ok [mkTextContent "text" ("Error: Unknown tool: " +:+ tool_name)]).
Proof.
  split.
  { change (map name handle_list_tools) with registered_names.
    unfold registered_names. apply NoDup_ListNoDup.
    repeat (constructor; [intros Hin; simpl in Hin; intuition discriminate |]).
    constructor. }
  change (map name handle_list_tools) with registered_names. split.
  - unfold registered_names. intros Hin.
    repeat (apply elem_of_cons in Hin as [-> | Hin]); [.. | inversion Hin];
      unfold handle_call_tool, try_except, dispatch;
      cbn [String.eqb Ascii.eqb Bool.eqb];
      try (cbv delta [search_pubmed search_arxiv search_scholar
                        search_preprint_servers search_journal_impact
                        download_paper_pdf get_citations getitem dict_get] beta;
           rewrite ?lookup_empty; cbn; discriminate).
    unfold update_preprint_dumps. unfold dict_get at 1. rewrite lookup_empty.
    cbn [default from_option default_servers py_iter]. rewrite bind_lift_ok.
    unfold bind.
    destruct (update_loop_appends (dict_get ∅ "start_date" VNone)
                (dict_get ∅ "end_date" VNone)
                [VStr "biorxiv"; VStr "medrxiv"; VStr "chemrxiv"]
                ("Updating preprint server dumps..." +:+ nl +:+ nl) w) as [rest Hrest].
    destruct (foldM _ _ _ w) as [r w1]. simpl in Hrest. subst r.
    cbn. discriminate.
  - intros Hanswer. destruct (decide (tool_name ∈ registered_names)) as [Hin | Hout];
      [exact Hin |].
    exfalso. apply Hanswer. unfold handle_call_tool, try_except.
    now rewrite dispatch_unknown.
Qed.
End Catalogue.


(** * Properties of the index of dumps *)

Section Index.
Context `{LoadDumps.DumpFiles}.

Import LoadDumps.

Implicit Types (environ : gmap string string) (st : loading) (db : string).

Lemma log_dict environ lvl text st :
  QUERY_FN_DICT (log environ lvl text st) = QUERY_FN_DICT st.
Proof. unfold log. now destruct (_should_log environ). Qed.

Lemma sorted_reverse_nil (l : list string) : sorted_reverse l = [] -> l = [].
Proof.
  intros Hnil. apply Permutation_nil_r.
  rewrite <- Hnil. unfold sorted_reverse. symmetry. apply merge_sort_Permutation.
Qed.

Lemma newest_none db : newest db = None <-> dumps_of db = [].
Proof.
  unfold newest. split.
  - intros Hhead. apply sorted_reverse_nil.
    now destruct (sorted_reverse (dumps_of db)).
  - now intros ->.
Qed.

(** What an iteration does to the index. *)
Lemma load_db_dict environ st db :
  QUERY_FN_DICT (load_db environ st db) =
    match index_entry db with
    | Some entry => dict_update db (snd entry) (QUERY_FN_DICT st)
    | None => QUERY_FN_DICT st
    end.
Proof.
  unfold load_db, index_entry, usable, newest. fold (dumps_of db).
  destruct (dumps_of db) as [|p rest] eqn:Hdumps.
  - now rewrite log_dict.
  - destruct (sorted_reverse (p :: rest)) as [|path sorted] eqn:Hsorted.
    + apply sorted_reverse_nil in Hsorted. discriminate Hsorted.
    + cbn [head].
      destruct (1 <? length (p :: rest))%nat;
        destruct (getsize path =? 0)%N;
        destruct (errored (XRXivQuery path));
        cbn [negb andb fmap option_fmap option_map snd];
        rewrite ?log_dict; cbn [QUERY_FN_DICT]; rewrite ?log_dict; reflexivity.
Qed.

(** The index after the loop, in closed form. *)
Lemma loop_dict environ records0 :
  QUERY_FN_DICT
    (fold_left (load_db environ) dump_servers
       (mkLoading [("arxiv", ArxivDumper); ("pubmed", PubmedDumper)] records0)) =
    [("arxiv", ArxivDumper); ("pubmed", PubmedDumper)] ++ omap index_entry dump_servers.
Proof.
  unfold dump_servers. cbn [fold_left omap list_omap].
  rewrite !load_db_dict. cbn [QUERY_FN_DICT].
  assert (forall db entry, index_entry db = Some entry -> entry = (db, snd entry))
    as Hkey.
  { intros db [k fn]. unfold index_entry.
    destruct (usable db); [| discriminate].
    destruct (newest db); [| discriminate]. now intros [= <- <-]. }
  destruct (index_entry "biorxiv") as [eb|] eqn:Hb;
    destruct (index_entry "chemrxiv") as [ec|] eqn:Hc;
    destruct (index_entry "medrxiv") as [em|] eqn:Hm;
    try rewrite (Hkey _ _ Hb); try rewrite (Hkey _ _ Hc); try rewrite (Hkey _ _ Hm);
    reflexivity.
Qed.

Lemma load_dumps_dict environ :
  QUERY_FN_DICT (load_dumps environ) =
    [("arxiv", ArxivDumper); ("pubmed", PubmedDumper)] ++ omap index_entry dump_servers.
Proof.
  unfold load_dumps. fold dump_servers.
  destruct (length _ =? 2)%nat; rewrite ?log_dict; apply loop_dict.
Qed.

Lemma index_entry_usable db :
  index_entry db = None <-> usable db = false.
Proof.
  unfold index_entry. destruct (usable db) eqn:Hu; [| tauto].
  unfold usable in Hu. destruct (newest db); [| discriminate Hu].
  split; discriminate.
Qed.

Lemma index_entry_key db entry : index_entry db = Some entry -> fst entry = db.
Proof.
  unfold index_entry. destruct (usable db); [| discriminate].
  destruct (newest db); [| discriminate]. now intros [= <-].
Qed.

Lemma omap_index_keys (dbs : list string) :
  map fst (omap index_entry dbs) = filter (fun db => usable db = true) dbs.
Proof.
  induction dbs as [|db dbs IH]; [reflexivity |].
  cbn [omap list_omap]. rewrite filter_cons.
  destruct (index_entry db) as [entry|] eqn:Hentry.
  - pose proof (index_entry_key _ _ Hentry) as Hfst.
    unfold index_entry in Hentry. destruct (usable db); [| discriminate].
    rewrite decide_True by reflexivity. simpl. now rewrite Hfst, IH.
  - unfold index_entry in Hentry. destruct (usable db) eqn:Husable.
    + unfold usable in Husable. destruct (newest db); discriminate.
    + rewrite decide_False by discriminate. exact IH.
Qed.

(** Whatever the dump files are, the index holds [arxiv] and [pubmed]
    and, after them, exactly those of [biorxiv], [chemrxiv] and
    [medrxiv] that can be loaded, in this order; each of these is
    bound to the search over the dump that was taken for it. *)
Theorem index_keys environ :
  map fst (QUERY_FN_DICT (load_dumps environ)) =
    ["arxiv"; "pubmed"] ++ filter (fun db => usable db = true) dump_servers /\
  forall db fn,
    db ∈ dump_servers ->
    (db, fn) ∈ QUERY_FN_DICT (load_dumps environ) ->
    exists path, newest db = Some path /\ fn = search_keywords path.
Proof.
  rewrite load_dumps_dict. split.
  - rewrite map_app. now rewrite omap_index_keys.
  - intros db fn Hdb Hin. apply elem_of_app in Hin as [Hin | Hin].
    + unfold dump_servers in Hdb.
      repeat (apply elem_of_cons in Hin as [Heq | Hin];
              [injection Heq as -> ->;
               repeat (apply elem_of_cons in Hdb as [Hdb | Hdb]; [discriminate Hdb |]);
               inversion Hdb |]).
      inversion Hin.
    + apply list_elem_of_omap in Hin as (db' & _ & Hentry).
      unfold index_entry in Hentry. destruct (usable db'); [| discriminate].
      destruct (newest db') as [path|] eqn:Hnewest; [| discriminate].
      injection Hentry as <- <-. eauto.
Qed.

#[local] Instance descending_total : Total (fun a b : string => String.le b a).
Proof. intros a b. destruct (total String.le a b); auto. Qed.

#[local] Instance descending_transitive :
  Transitive (fun a b : string => String.le b a).
Proof. intros a b c Hab Hbc. now transitivity b. Qed.

(** The dump taken for a server is one of its dump files, and no
    other of them comes after it in the order of strings; a server
    has no such dump exactly when it has no dump file. *)
Theorem newest_is_greatest db :
  (newest db = None <-> dumps_of db = []) /\
  forall path,
    newest db = Some path ->
    path ∈ dumps_of db /\ forall other, other ∈ dumps_of db -> String.le other path.
Proof.
  split; [apply newest_none |].
  intros path. unfold newest.
  pose proof (StronglySorted_merge_sort (fun a b : string => String.le b a)
                (dumps_of db)) as Hsorted.
  pose proof (merge_sort_Permutation (fun a b : string => String.le b a)
                (dumps_of db)) as Hperm.
  fold (sorted_reverse (dumps_of db)) in Hsorted, Hperm.
  destruct (sorted_reverse (dumps_of db)) as [|first rest]; [discriminate |].
  intros [= ->]. split.
  - rewrite <- Hperm. apply list_elem_of_here.
  - intros other Hother. rewrite <- Hperm in Hother.
    apply elem_of_cons in Hother as [-> | Hother]; [reflexivity |].
    apply StronglySorted_inv in Hsorted as [_ Hall].
    rewrite Forall_forall in Hall. now apply Hall.
Qed.

(** A server whose latest dump file is empty is left out of the
    index; older dump files of it are not considered. *)
Theorem empty_newest_dump_hides_server environ db path :
  db ∈ dump_servers ->
  newest db = Some path ->
  getsize path = 0%N ->
  db ∉ map fst (QUERY_FN_DICT (load_dumps environ)).
Proof.
  intros Hdb Hnewest Hsize.
  rewrite load_dumps_dict, map_app, omap_index_keys.
  assert (usable db = false) as Husable
    by (unfold usable; now rewrite Hnewest, Hsize).
  intros Hin. apply elem_of_app in Hin as [Hin | Hin].
  - unfold dump_servers in Hdb. cbn [map fst] in Hin.
    repeat (apply elem_of_cons in Hin as [-> | Hin];
            [repeat (apply elem_of_cons in Hdb as [Hdb | Hdb]; [discriminate Hdb |]);
             inversion Hdb |]).
    inversion Hin.
  - apply list_elem_of_filter in Hin as [Hin _]. congruence.
Qed.

Lemma log_silent environ lvl text st :
  env_unset environ "PAPERSCRAPER_MCP_MODE" = false ->
  log environ lvl text st = st.
Proof. intros Hmode. unfold log, _should_log. now rewrite Hmode. Qed.

Lemma load_db_silent environ st db :
  env_unset environ "PAPERSCRAPER_MCP_MODE" = false ->
  records (load_db environ st db) = records st.
Proof.
  intros Hmode. unfold load_db.
  destruct (glob _) as [|p rest]; rewrite ?log_silent by exact Hmode; [reflexivity |].
  destruct (sorted_reverse (p :: rest)) as [|path sorted];
    destruct (1 <? length (p :: rest))%nat; try reflexivity;
    destruct (getsize path =? 0)%N; rewrite ?log_silent by exact Hmode;
    try reflexivity;
    destruct (errored (XRXivQuery path)); cbn [negb];
    rewrite ?log_silent by exact Hmode; reflexivity.
Qed.

Lemma load_dumps_silent environ :
  env_unset environ "PAPERSCRAPER_MCP_MODE" = false ->
  records (load_dumps environ) = [].
Proof.
  intros Hmode. unfold load_dumps.
  assert (forall dbs st, records (fold_left (load_db environ) dbs st) = records st)
    as Hloop.
  { induction dbs as [|db dbs IH]; intros st; [reflexivity |].
    simpl. now rewrite IH, load_db_silent. }
  destruct (length _ =? 2)%nat; rewrite ?log_silent by exact Hmode; apply Hloop.
Qed.

(** With [PAPERSCRAPER_MCP_MODE] set to anything but the empty
    string, loading the index hands no record to the logger, whatever
    the dump files are, and logging to stdout is not configured. *)
Theorem mcp_mode_is_silent environ flag :
  environ !! "PAPERSCRAPER_MCP_MODE" = Some flag ->
  flag <> "" ->
  records (load_dumps environ) = [] /\
  configures_stdout_logging environ = false.
Proof.
  intros Hflag Hne.
  assert (env_unset environ "PAPERSCRAPER_MCP_MODE" = false) as Hmode.
  { unfold env_unset. rewrite Hflag. now apply String.eqb_neq. }
  split; [now apply load_dumps_silent | exact Hmode].
Qed.

(** Outside MCP mode the module ends with the warning that no dump
    was found exactly when none of the three servers could be loaded;
    the records of the loop come before it. *)
Theorem closing_warning environ :
  env_unset environ "PAPERSCRAPER_MCP_MODE" = true ->
  records (load_dumps environ) =
    records (fold_left (load_db environ) dump_servers
               (mkLoading [("arxiv", ArxivDumper); ("pubmed", PubmedDumper)] []))
    ++ (if forallb (fun db => negb (usable db)) dump_servers
        then [no_dumps_warning] else []).
Proof.
  intros Hmode. unfold load_dumps. fold dump_servers.
  rewrite loop_dict, length_app.
  unfold log, _should_log. rewrite Hmode. unfold dump_servers.
  cbn [omap list_omap forallb].
  destruct (index_entry "biorxiv") eqn:Hb; destruct (index_entry "chemrxiv") eqn:Hc;
    destruct (index_entry "medrxiv") eqn:Hm;
    repeat match goal with
           | Hu : index_entry _ = None |- _ =>
               apply index_entry_usable in Hu; rewrite Hu
           | Hu : index_entry ?db = Some _ |- _ =>
               let Hv := fresh in
               destruct (usable db) eqn:Hv;
               [| apply index_entry_usable in Hv; congruence]; clear Hu
           end;
    cbn; rewrite ?app_nil_r; reflexivity.
Qed.
End Index.


(** * The launchers *)

Section Launching.
Context `{LoadDumps.DumpFiles} `{Launchers.Runtime}.
Import Launchers.

Implicit Types (p : process) (start_env : gmap string string).

Lemma prints_run (texts : list string) p :
  fold_left (fun p line => print None line p) texts p =
    mkProcess (sys_stdout p) (sys_stderr p) (environ p) (load_dumps_module p)
      (written p ++ lines (sys_stdout p) texts) (stdio p).
Proof.
  revert p. induction texts as [|t texts IH]; intros p.
  - destruct p. simpl. now rewrite app_nil_r.
  - simpl. rewrite IH. unfold print. simpl. now rewrite <- app_assoc.
Qed.

(** The import, step by step, from a process whose environment
    already marks MCP mode. *)
Lemma import_in_mcp_mode p :
  LoadDumps.env_unset (environ p) MCP_MODE = false ->
  load_dumps_module p = None ->
  let env1 := <["PYTHONWARNINGS" := "ignore"]> (<[MCP_MODE := "1"]> (environ p)) in
  let out := written p ++ lines (sys_stdout p) init_prints
               ++ lines (sys_stderr p) server_prints in
  import_mcp_server p =
    match import_error with
    | Some e =>
        (Raise e, mkProcess (sys_stderr p) (sys_stderr p) env1 None out (stdio p))
    | None =>
        (Ok (mkModule (sys_stdout p)),
         mkProcess (sys_stderr p) (sys_stderr p) env1
           (Some (LoadDumps.load_dumps env1)) out (stdio p))
    end.
Proof.
  intros Hmode Hnone. unfold import_mcp_server, package_init. fold MCP_MODE.
  rewrite Hmode, !prints_run. unfold set_stdout, setenv, import_load_dumps.
  cbn [sys_stdout sys_stderr environ load_dumps_module written stdio].
  rewrite Hnone, <- app_assoc. now destruct import_error.
Qed.

Lemma env_set_mcp_mode (start_env : gmap string string) (k v : string) :
  k <> MCP_MODE ->
  LoadDumps.env_unset (<[k := v]> (<[MCP_MODE := "1"]> start_env)) MCP_MODE = false.
Proof.
  intros Hk. unfold LoadDumps.env_unset.
  rewrite lookup_insert_ne by exact Hk. now rewrite lookup_insert_eq.
Qed.

Ltac run_process :=
  cbv beta iota zeta delta
    [mcp_server_wrapper start_mcp mcp_clean fresh main _silent_print print
     set_stdout set_stderr setenv import_load_dumps
     sys_stdout sys_stderr environ load_dumps_module written stdio
     original_stdout fst snd].

Ltac launch :=
  let Himport := fresh "Himport" in
  let Hserve := fresh "Hserve" in
  unfold opened;
  destruct import_error as [?e|] eqn:Himport;
  [| destruct serve as [| |?e] eqn:Hserve];
  run_process; fold MCP_MODE;
  rewrite import_in_mcp_mode
    by (first [apply env_set_mcp_mode; discriminate | reflexivity]);
  rewrite Himport; run_process; rewrite ?Hserve; run_process;
  rewrite ?decide_False by discriminate;
  cbn [default].

(** When [main] opens the transport under [mcp_server_wrapper.py],
    [sys.stdout] is bound to the wrapper's [NullWriter]: the module
    saved it as [original_stdout] while it was imported, and [main]
    puts it back after the wrapper has restored the interpreter's
    stdout.  Under [start_mcp.py] and [mcp_clean.py] it is the
    interpreter's stdout.  [sys.stderr] is the interpreter's stderr at
    the end of all three. *)
Theorem transport_stdout start_env :
  let wrapper := snd (mcp_server_wrapper (fresh start_env)) in
  let start := snd (start_mcp (fresh start_env)) in
  let clean := snd (mcp_clean (fresh start_env)) in
  stdio wrapper = opened NullWriter /\
  stdio start = opened Stdout /\
  stdio clean = opened Stdout /\
  sys_stderr wrapper = Stderr /\ sys_stderr start = Stderr /\ sys_stderr clean = Stderr.
Proof.
  cbv zeta. repeat split; launch; reflexivity.
Qed.

(** Where the lines go that are printed while the server is imported.
    Under the wrapper those of the package's [__init__] are dropped
    and those of the server's imports reach stderr; nothing is ever
    written to stdout.  Under [start_mcp.py] and [mcp_clean.py] the
    lines of the package's [__init__] reach stdout; the lines of the
    server's imports are kept in the [StringIO] or reach stderr. *)
Theorem import_time_output start_env :
  let report_all :=
    match import_error, serve with
    | Some e, _ | None, Failed e => [fatal e]
    | _, _ => []
    end in
  let report_run :=
    match import_error, serve with
    | None, Failed e => [fatal e]
    | _, _ => []
    end in
  written (snd (mcp_server_wrapper (fresh start_env))) =
    lines NullWriter init_prints ++ lines Stderr server_prints ++ report_all /\
  written (snd (start_mcp (fresh start_env))) =
    lines Stdout init_prints ++ lines StringIO server_prints ++ report_run /\
  written (snd (mcp_clean (fresh start_env))) =
    lines Stdout init_prints ++ lines Stderr server_prints ++ report_run.
Proof.
  cbv zeta. repeat split; launch;
    rewrite ?app_nil_r, <- ?app_assoc; try reflexivity;
    unfold fatal; now rewrite ?string_app_assoc.
Qed.

(** How the launchers end.  An interrupt and a normal return give exit
    status 0 and an exception out of [main] gives exit status 1, under
    all three.  An exception out of the import gives exit status 1
    under the wrapper and is left to the interpreter, which prints a
    traceback, under [start_mcp.py] and [mcp_clean.py]. *)
Theorem launcher_status start_env :
  let after_import :=
    match serve with
    | Failed _ => Exit 1
    | _ => Exit 0
    end in
  fst (mcp_server_wrapper (fresh start_env)) =
    match import_error with
    | Some _ => Exit 1
    | None => after_import
    end /\
  fst (start_mcp (fresh start_env)) =
    match import_error with
    | Some e => Traceback e
    | None => after_import
    end /\
  fst (mcp_clean (fresh start_env)) =
    match import_error with
    | Some e => Traceback e
    | None => after_import
    end.
Proof.
  cbv zeta. repeat split; launch; reflexivity.
Qed.


(** The first line of [mcp_server.py] puts the process into MCP mode,
    but the package's [__init__] runs before it: imported from a
    process where the variable is unset or empty, the server ends in
    MCP mode with the dumps indexed in logging mode. *)
Theorem package_init_precedes_mcp_mode start_env :
  LoadDumps.env_unset start_env MCP_MODE = true ->
  let p := snd (import_mcp_server (fresh start_env)) in
  load_dumps_module p = Some (LoadDumps.load_dumps start_env) /\
  LoadDumps.configures_stdout_logging start_env = true /\
  environ p !! MCP_MODE = Some "1".
Proof.
  intros Hunset. cbv zeta.
  unfold import_mcp_server, package_init. fold MCP_MODE.
  change (environ (fresh start_env)) with start_env. rewrite Hunset, !prints_run.
  destruct import_error; run_process;
    (split; [reflexivity |]); (split; [exact Hunset |]);
    (rewrite lookup_insert_ne by discriminate; apply lookup_insert_eq).
Qed.
End Launching.


(** * The descriptors and the handlers *)

Section Defaults.
Context {env : Type} `{Builtins} `{Collaborators env}.

Implicit Types (w : @world env) (arguments : gmap string value).

Lemma dict_get_insert_default arguments key dflt :
  arguments !! key = None ->
  dict_get (<[key := dflt]> arguments) key dflt = dict_get arguments key dflt.
Proof.
  intros Hmissing. unfold dict_get. now rewrite lookup_insert_eq, Hmissing.
Qed.

Lemma dict_get_insert_other arguments key key' v dflt :
  key <> key' ->
  dict_get (<[key := v]> arguments) key' dflt = dict_get arguments key' dflt.
Proof. intros Hne. unfold dict_get. now rewrite lookup_insert_ne. Qed.

Lemma getitem_insert_other {S} arguments key key' v :
  key <> key' ->
  getitem (S := S) (<[key := v]> arguments) key' = getitem arguments key'.
Proof. intros Hne. unfold getitem. now rewrite lookup_insert_ne. Qed.

Lemma schema_default_advertised tool key dflt :
  schema_default tool key = Some dflt ->
  (key, dflt) ∈ advertised_defaults tool.
Proof.
  unfold schema_default, advertised_defaults.
  destruct (inputSchema tool) as [| | | | | |d]; try discriminate.
  destruct (assoc "properties" d) as [[| | | | | |properties]|]; try discriminate.
  induction properties as [|[k schema] properties IH]; [discriminate |].
  cbn [assoc omap list_omap fst snd].
  destruct (String.eqb_spec k key) as [-> | Hne].
  - destruct schema as [| | | | | |fields]; try discriminate.
    intros ->. cbn [fmap option_fmap option_map]. apply list_elem_of_here.
  - intros Hrest.
    destruct (match schema with VDict fields => _ | _ => None end);
      [apply list_elem_of_further |]; now apply IH.
Qed.

(** The defaults the descriptors advertise are the defaults the
    handlers use: a call that leaves out an argument with an
    advertised default runs exactly as the call that passes this
    default. *)
Theorem advertised_defaults_are_used tool key dflt arguments w :
  tool ∈ handle_list_tools ->
  schema_default tool key = Some dflt ->
  arguments !! key = None ->
  handle_call_tool (name tool) (<[key := dflt]> arguments) w =
    handle_call_tool (name tool) arguments w.
Proof.
  intros Htool Hdefault Hmissing. unfold handle_list_tools in Htool.
  repeat (apply elem_of_cons in Htool as [-> | Htool]);
    [ .. | inversion Htool ];
    apply schema_default_advertised in Hdefault;
    vm_compute in Hdefault;
    repeat (apply elem_of_cons in Hdefault as [[= -> ->] | Hdefault]);
    try (inversion Hdefault; fail);
    unfold handle_call_tool, dispatch;
    cbn [name String.eqb Ascii.eqb Bool.eqb];
    cbv delta [search_pubmed search_arxiv search_scholar search_preprint_servers
                 search_journal_impact update_preprint_dumps] beta;
    rewrite ?(dict_get_insert_default _ _ _ Hmissing);
    rewrite ?dict_get_insert_other, ?getitem_insert_other by discriminate;
    reflexivity.
Qed.
End Defaults.


(** * Further scenarios *)

Section MoreScenarios.
#[local] Existing Instance Stub.builtins.
#[local] Existing Instance Stub.demo.

(** ** Arguments and defaults *)

Lemma required_argument_missing_witness :
  handle_call_tool "search_scholar" {[ "max_results" := VInt 5 ]} Stub.start =
    (Ok [mkTextContent "text" "Error: 'topic'"], Stub.start).
Proof.
  refine (required_argument_missing
            (default (mkTool "" "" VNone) (handle_list_tools !! 2%nat)) "topic"
            {[ "max_results" := VInt 5 ]} Stub.start _ _ _).
  - do 2 apply list_elem_of_further. apply list_elem_of_here.
  - vm_compute. apply list_elem_of_here.
  - vm_compute. reflexivity.
Defined.

Lemma advertised_defaults_are_used_witness :
  let arguments : gmap string value := {[ "journal_name" := VStr "Nature" ]} in
  handle_call_tool "search_journal_impact" (<["threshold" := VInt 85]> arguments)
    Stub.start =
  handle_call_tool "search_journal_impact" arguments Stub.start.
Proof.
  intros arguments.
  refine (advertised_defaults_are_used
            (default (mkTool "" "" VNone) (handle_list_tools !! 5%nat)) "threshold"
            (VInt 85) arguments Stub.start _ _ _).
  - do 5 apply list_elem_of_further. apply list_elem_of_here.
  - vm_compute. reflexivity.
  - vm_compute. reflexivity.
Defined.

(** ** Search answers *)




(** ** Citations *)

Lemma get_citations_prefers_doi_witness :
  let arguments : gmap string value :=
    {[ "doi" := VStr "10.1/x"; "title" := VStr "A title" ]} in
  w_log (snd (get_citations arguments Stub.start)) =
    w_log Stub.start ++ [CallCitationsByDoi (VStr "10.1/x")] /\
  fst (get_citations arguments Stub.start) =
    Ok [mkTextContent "text"
          match fst (get_citations_by_doi (VStr "10.1/x") (w_fs Stub.start)
                       (w_env Stub.start)) with
          | Ok citations =>
              "Citations for DOI " +:+ py_str (VStr "10.1/x") +:+ ": "
                +:+ py_str citations
          | Raise e => "Error retrieving citations: " +:+ exn_str e
          end].
Proof.
  intros arguments.
  apply (get_citations_prefers_doi arguments (VStr "10.1/x") Stub.start).
  - vm_compute. reflexivity.
  - reflexivity.
Defined.

Lemma get_citations_falls_back_to_title_witness :
  let arguments : gmap string value :=
    {[ "doi" := VStr ""; "title" := VStr "A title" ]} in
  w_log (snd (get_citations arguments Stub.start)) =
    w_log Stub.start ++ [CallCitationsFromTitle (VStr "A title")] /\
  fst (get_citations arguments Stub.start) =
    Ok [mkTextContent "text"
          match fst (get_citations_from_title (VStr "A title") (w_fs Stub.start)
                       (w_env Stub.start)) with
          | Ok citations =>
              "Citations for '" +:+ py_str (VStr "A title") +:+ "': "
                +:+ py_str citations
          | Raise e => "Error retrieving citations: " +:+ exn_str e
          end].
Proof.
  intros arguments.
  apply (get_citations_falls_back_to_title arguments (VStr "A title") Stub.start).
  - vm_compute. reflexivity.
  - vm_compute. reflexivity.
  - reflexivity.
Defined.

(** ** Dump updates *)

Lemma update_preprint_dumps_refreshes_each_witness :
  let arguments : gmap string value :=
    {[ "servers" := VList [VStr "medrxiv"; VStr "zenodo"; VStr "medrxiv"];
       "start_date" := VStr "2024-01-01" ]} in
  (exists blocks, fst (update_preprint_dumps arguments Stub.start) = Ok blocks) /\
  w_log (snd (update_preprint_dumps arguments Stub.start)) =
    w_log Stub.start ++
    map (fun s => CallGetDump s
                    (refresh_dates (dict_get arguments "start_date" VNone)
                                   (dict_get arguments "end_date" VNone)))
      (omap refresh_target [VStr "medrxiv"; VStr "zenodo"; VStr "medrxiv"]).
Proof.
  intros arguments.
  apply (update_preprint_dumps_refreshes_each arguments
           [VStr "medrxiv"; VStr "zenodo"; VStr "medrxiv"] Stub.start).
  vm_compute. reflexivity.
Defined.

Lemma update_preprint_dumps_not_iterable_witness :
  handle_call_tool "update_preprint_dumps" {[ "servers" := VInt 3 ]} Stub.start =
    (Ok [mkTextContent "text"
           ("Error: " +:+ exn_str (TypeError "'int' object is not iterable"))],
     Stub.start).
Proof.
  apply (update_preprint_dumps_not_iterable {[ "servers" := VInt 3 ]}
           (TypeError "'int' object is not iterable") Stub.start).
  vm_compute. reflexivity.
Defined.

(** ** Downloads *)

Lemma download_paper_pdf_default_path_witness :
  let arguments : gmap string value := {[ "doi" := VStr "10.1101/2020.01.01" ]} in
  let d := "/tmp/tmp0" in
  let filename := replace_char "/" "_" "10.1101/2020.01.01" +:+ ".pdf" in
  let filepath :=
    if String.eqb d "" || ends_with "/" d
    then d +:+ filename else d +:+ "/" +:+ filename in
  ("/"%char ∉ chars filename) /\
  w_log (snd (download_paper_pdf arguments Stub.start)) =
    w_log Stub.start ++ [CallSavePdf {[ "doi" := VStr "10.1101/2020.01.01" ]} filepath] /\
  resolve filepath = (fst (resolve d), snd (resolve d) ++ [filename]) /\
  inside d filepath = true /\
  w_fs (snd (download_paper_pdf arguments Stub.start)) !! filepath = None.
Proof.
  intros arguments d.
  apply (download_paper_pdf_default_path arguments "10.1101/2020.01.01" Stub.start
           d (snd (mktemp TmpDir "" TMP_MAX Stub.start))).
  - vm_compute. reflexivity.
  - vm_compute. reflexivity.
  - vm_compute. reflexivity.
Defined.

Lemma download_paper_pdf_absolute_filename_witness :
  let arguments : gmap string value :=
    {[ "doi" := VStr "10.1/x"; "filename" := VStr "/home/user/paper.pdf" ]} in
  w_log (snd (download_paper_pdf arguments Stub.start)) =
    w_log Stub.start ++ [CallSavePdf {[ "doi" := VStr "10.1/x" ]} "/home/user/paper.pdf"] /\
  w_fs (snd (download_paper_pdf arguments Stub.start)) !! "/home/user/paper.pdf" =
    Some (File "%PDF") /\
  w_fs (snd (download_paper_pdf arguments Stub.start)) !! "/tmp/tmp0" = None.
Proof.
  intros arguments.
  apply (download_paper_pdf_absolute_filename arguments "10.1/x" "/home/user/paper.pdf"
           Stub.start "/tmp/tmp0" (snd (mktemp TmpDir "" TMP_MAX Stub.start))
           "%PDF" (Ok (VBool true)) 1%nat).
  - vm_compute. reflexivity.
  - vm_compute. reflexivity.
  - reflexivity.
  - vm_compute. reflexivity.
  - vm_compute. reflexivity.
  - vm_compute. reflexivity.
Defined.

(** ** The file system *)

Lemma handle_call_tool_restores_witness :
  w_fs (snd (handle_call_tool "search_pubmed"
               {[ "query" := VList [VList [VStr "covid"]] ]} Stub.start)) =
    w_fs Stub.start.
Proof.
  apply (handle_call_tool_restores "search_pubmed"
           {[ "query" := VList [VList [VStr "covid"]] ]} Stub.start).
  - discriminate.
  - discriminate.
Defined.

(** The two tools that are left out do change the file system. *)
Example update_preprint_dumps_writes :
  map_to_list
    (w_fs (snd (handle_call_tool "update_preprint_dumps"
                  {[ "servers" := VList [VStr "chemrxiv"] ]} Stub.start))) =
    [("/pkg/server_dumps/chemrxiv_2024-06-01.jsonl", File "{}")].
Proof. vm_compute. reflexivity. Qed.
End MoreScenarios.

Section OutageScenarios.
#[local] Existing Instance Stub.builtins.
#[local] Existing Instance Outage.collaborators.

Lemma search_pubmed_collaborator_failure_witness :
  let arguments : gmap string value := {[ "query" := VList [VList [VStr "covid"]] ]} in
  fst (search_pubmed arguments Stub.start) = Raise Outage.unreachable /\
  fst (handle_call_tool "search_pubmed" arguments Stub.start) =
    Ok [mkTextContent "text" ("Error: " +:+ exn_str Outage.unreachable)] /\
  w_fs (snd (handle_call_tool "search_pubmed" arguments Stub.start)) = w_fs Stub.start.
Proof.
  intros arguments.
  apply (search_pubmed_collaborator_failure arguments (VList [VList [VStr "covid"]])
           "/tmp/tmp0.jsonl" Stub.start
           (snd (NamedTemporaryFile ".jsonl" Stub.start)) Keep Outage.unreachable 1%nat).
  - vm_compute. reflexivity.
  - vm_compute. reflexivity.
  - vm_compute. reflexivity.
Defined.
End OutageScenarios.

Section ShelfScenarios.
#[local] Existing Instance Shelf.dumps.
#[local] Existing Instance Shelf.runtime.

(** ** The index of dumps *)

(** Of the shelf only medRxiv is indexed: the later dump of bioRxiv
    is empty, and the earlier one is not looked at. *)
Example shelf_index :
  LoadDumps.QUERY_FN_DICT (LoadDumps.load_dumps ∅) =
    [("arxiv", LoadDumps.ArxivDumper); ("pubmed", LoadDumps.PubmedDumper);
     ("medrxiv",
      LoadDumps.search_keywords "/pkg/server_dumps/medrxiv_2024-06-01.jsonl")].
Proof. vm_compute. reflexivity. Qed.

Lemma empty_newest_dump_hides_server_witness :
  "biorxiv" ∉ map fst (LoadDumps.QUERY_FN_DICT (LoadDumps.load_dumps ∅)).
Proof.
  apply (empty_newest_dump_hides_server ∅ "biorxiv"
           "/pkg/server_dumps/biorxiv_2024-06-01.jsonl").
  - apply list_elem_of_here.
  - vm_compute. reflexivity.
  - vm_compute. reflexivity.
Defined.

Lemma mcp_mode_is_silent_witness :
  LoadDumps.records (LoadDumps.load_dumps {[ "PAPERSCRAPER_MCP_MODE" := "1" ]}) = [] /\
  LoadDumps.configures_stdout_logging {[ "PAPERSCRAPER_MCP_MODE" := "1" ]} = false.
Proof.
  apply (mcp_mode_is_silent {[ "PAPERSCRAPER_MCP_MODE" := "1" ]} "1").
  - vm_compute. reflexivity.
  - discriminate.
Defined.

Lemma closing_warning_witness :
  LoadDumps.records (LoadDumps.load_dumps ∅) =
    LoadDumps.records
      (fold_left (LoadDumps.load_db ∅) dump_servers
         (LoadDumps.mkLoading
            [("arxiv", LoadDumps.ArxivDumper); ("pubmed", LoadDumps.PubmedDumper)] []))
    ++ (if forallb (fun db => negb (usable db)) dump_servers
        then [no_dumps_warning] else []).
Proof.
  apply (closing_warning ∅). vm_compute. reflexivity.
Defined.

(** ** The launchers *)


Lemma package_init_precedes_mcp_mode_witness :
  let p := snd (Launchers.import_mcp_server (Launchers.fresh ∅)) in
  Launchers.load_dumps_module p = Some (LoadDumps.load_dumps ∅) /\
  LoadDumps.configures_stdout_logging ∅ = true /\
  Launchers.environ p !! MCP_MODE = Some "1".
Proof.
  apply (package_init_precedes_mcp_mode ∅). vm_compute. reflexivity.
Defined.

(** Under the wrapper the broken pipe is reported on stderr, after the
    line the server's imports printed; the line of the package is
    dropped. *)
Example wrapper_run :
  Launchers.mcp_server_wrapper (Launchers.fresh ∅) =
    (Launchers.Exit 1,
     Launchers.mkProcess Launchers.NullWriter Launchers.Stderr
       {[ "PAPERSCRAPER_MCP_MODE" := "1"; "PYTHONWARNINGS" := "ignore" ]}
       (Some (LoadDumps.load_dumps
                {[ "PAPERSCRAPER_MCP_MODE" := "1"; "PYTHONWARNINGS" := "ignore" ]}))
       [(Launchers.NullWriter, "Loading paperscraper" +:+ nl);
        (Launchers.Stderr, "Loading scholarly" +:+ nl);
        (Launchers.Stderr, "Fatal error: [Errno 32] Broken pipe" +:+ nl)]
       (Some Launchers.NullWriter)).
Proof. vm_compute. reflexivity. Qed.
End ShelfScenarios.
